(** * Cooling-tower control engine: a shallow embedding and its properties

    This development embeds the per-tick control function
    [processCoolingTowerControl] of the OPTIMIZED cooling tower control
    logic (module CoolingTowerLogic, version 2.0.0) and proves or refutes
    the properties stated about it.

    Modelling conventions.
    - JavaScript numbers are exact rationals ([Q]).  IEEE rounding, NaN and
      the infinities are outside the model: every reading is a number.
    - [Date.now()] is read once per tick: the tick receives [now], in
      milliseconds, as an argument.
    - [stateStorage] and [controlResult] are mutated in place by the source;
      here every function takes the objects it mutates and returns them.
    - [tower${i}...] and [pump${i}...] keys are a three-field record [Per3]
      indexed by [Idx].
    - The external PID library is a parameter of the model. *)

From Stdlib Require Import ZArith QArith Qabs Bool String List Lia Lqa.
Import ListNotations.
Open Scope Q_scope.

Set Implicit Arguments.

(** ** JavaScript arithmetic helpers *)

Definition Qltb (x y : Q) : bool := negb (Qle_bool y x).
Definition Qgtb (x y : Q) : bool := Qltb y x.
Definition Qgeb (x y : Q) : bool := Qle_bool y x.
Definition Qleb (x y : Q) : bool := Qle_bool x y.

Definition Math_max (x y : Q) : Q := if Qle_bool x y then y else x.
Definition Math_min (x y : Q) : Q := if Qle_bool x y then x else y.
Definition Math_abs (x : Q) : Q := Qabs x.
Definition Math_sign (x : Q) : Q :=
  if Qltb 0 x then 1 else if Qltb x 0 then -(1) else 0.

(** [x || d] on a number: zero is falsy. *)
Definition num_or (x d : Q) : Q := if Qeq_bool x 0 then d else x.

(** A raw reading of the sensor snapshot: the key is absent, or holds a
    number, or holds a non-empty numeric string.  [parseFloat (v || d)]: an
    absent key and the number zero are falsy and give the default. *)
Inductive Raw : Type :=
| Absent
| RawNum (q : Q)
| RawStr (q : Q).

Definition parseFloat_or (v : Raw) (d : Q) : Q :=
  match v with
  | Absent => d
  | RawNum q => if Qeq_bool q 0 then d else q
  | RawStr q => q
  end.

(** A timestamp that may be [null].  JavaScript truthiness: [null] and [0]
    are falsy. *)
Definition truthy (t : option Z) : bool :=
  match t with
  | Some z => negb (z =? 0)%Z
  | None => false
  end.

Definition not_null (t : option Z) : bool :=
  match t with Some _ => true | None => false end.

(** [(now - t) / 1000], in seconds. *)
Definition seconds_since (now t : Z) : Q := inject_Z (now - t) / 1000.

(** ** Towers and pumps: a three-element index *)

Inductive Idx : Type := One | Two | Three.

Definition num (i : Idx) : Z :=
  match i with One => 1 | Two => 2 | Three => 3 end%Z.

Definition idx_of_Z (z : Z) : Idx :=
  if (z =? 1)%Z then One else if (z =? 2)%Z then Two else Three.

(** [(i % 3) + 1] *)
Definition next_idx (i : Idx) : Idx := idx_of_Z (num i mod 3 + 1).

Definition all_idx : list Idx := [One; Two; Three].

Definition Idx_eqb (i j : Idx) : bool := (num i =? num j)%Z.

Record Per3 (A : Type) : Type := mk3 { p1 : A; p2 : A; p3 : A }.

Definition get3 {A} (i : Idx) (t : Per3 A) : A :=
  match i with One => p1 t | Two => p2 t | Three => p3 t end.

Definition set3 {A} (i : Idx) (v : A) (t : Per3 A) : Per3 A :=
  match i with
  | One => mk3 v (p2 t) (p3 t)
  | Two => mk3 (p1 t) v (p3 t)
  | Three => mk3 (p1 t) (p2 t) v
  end.

Definition all3 {A} (v : A) : Per3 A := mk3 v v v.

(** ** Configuration *)

Definition EQUIPMENT_ID (i : Idx) : string :=
  match i with
  | One => "QNiHngLxledu7BHM9wLi"
  | Two => "H2lwkgXBNDsvnuKoDUQe"
  | Three => "QYTVSM7IMylxDc2Y0pxr"
  end.

(** The switches of [COOLING_TOWER_CONFIG]: safety bypasses and equipment
    availability. *)
Record Config : Type := mkConfig {
  BYPASS_EMERGENCY_STOP : bool;
  BYPASS_WATER_LEVEL : bool;
  BYPASS_VIBRATION_LIMITS : bool;
  BYPASS_CURRENT_LIMITS : bool;
  BYPASS_PUMP_STATUS : bool;
  BYPASS_VFD_FAULTS : bool;
  TOWER_AVAILABLE : Per3 bool;
  PUMP_AVAILABLE : Per3 bool
}.

(** The configuration as shipped: tower 3 is down for repair. *)
Definition COOLING_TOWER_CONFIG : Config :=
  mkConfig false false false false false false
           (mk3 true true false) (mk3 true true true).

(** The configuration of the end-to-end scenarios: everything available. *)
Definition ALL_AVAILABLE_CONFIG : Config :=
  mkConfig false false false false false false
           (mk3 true true true) (mk3 true true true).

Definition VIBRATION_WARNING_LIMIT : Q := 4.5.
Definition VIBRATION_CRITICAL_LIMIT : Q := 7.1.
Definition VFD_CURRENT_WARNING : Q := 40.0.
Definition VFD_CURRENT_CRITICAL : Q := 45.0.
Definition PUMP_CURRENT_MIN : Q := 5.0.
Definition PUMP_CURRENT_MAX : Q := 45.0.
Definition STAGE_1_DELTA_T : Q := 10.0.
Definition STAGE_2_DELTA_T : Q := 20.0.
Definition STAGE_3_DELTA_T : Q := 30.0.
Definition STAGE_4_DELTA_T : Q := 35.0.
Definition VFD_MIN_SPEED : Q := 2.6.
Definition VFD_MAX_SPEED : Q := 4.8.
Definition VFD_LOW_SPEED : Q := 3.5.
Definition MINIMUM_RUNTIME_MS : Z := 420000.
Definition MINIMUM_OFFTIME_MS : Z := 180000.
Definition PUMP_CHANGEOVER_OVERLAP_MS : Z := 5000.
Definition WEEK_IN_MS : Z := 7 * 24 * 60 * 60 * 1000.

(** ** Carried state *)

Record Timer : Type := mkTimer {
  startTime : option Z;
  stopTime : option Z
}.

Record Ramp : Type := mkRamp {
  currentSpeed : Q;
  targetSpeed : Q;
  lastChange : Z
}.

Record PidState : Type := mkPidState {
  integral : Q;
  previousError : Q;
  lastOutput : Q
}.

Record Towers : Type := mkTowers {
  leadTower : Idx;
  lastRotationTime : Z;
  runtimeTracking : Per3 Q;
  timers : Per3 Timer;
  speedRamping : Per3 Ramp
}.

Record Changeover : Type := mkChangeover {
  newPump : Idx;
  co_startTime : Z
}.

Record Pumps : Type := mkPumps {
  activePump : Idx;
  pump_lastRotationTime : Z;
  pump_runtimeTracking : Per3 Q;
  changeoverState : option Changeover;
  failoverCount : Z;
  lastFailoverTime : Z
}.

Record PidStates : Type := mkPidStates {
  tower_pid : Per3 PidState;
  valve_pid : PidState
}.

Record LastGood : Type := mkLastGood {
  lg_towerSupply : Q;
  lg_towerReturn : Q;
  lg_hpReturn : Q;
  lg_hpSupply : Q
}.

(** [stateStorage] as the caller hands it in: any of the four parts may be
    missing (the default argument is the empty object). *)
Record StateStorage : Type := mkStorage {
  st_towers : option Towers;
  st_pumps : option Pumps;
  st_pidStates : option PidStates;
  st_lastGoodTemps : option LastGood
}.

(** [stateStorage] once [initializeState] has run. *)
Record State : Type := mkState {
  towers : Towers;
  pumps : Pumps;
  pidStates : PidStates;
  lastGoodTemps : LastGood
}.

Definition storage_of (s : State) : StateStorage :=
  mkStorage (Some (towers s)) (Some (pumps s)) (Some (pidStates s))
            (Some (lastGoodTemps s)).

Definition empty_storage : StateStorage := mkStorage None None None None.

(** ** Inputs *)

Record SensorInput : Type := mkInput {
  AI1 : Raw; AI2 : Raw; AI3 : Raw; AI4 : Raw; AI5 : Raw; AI6 : Raw;
  CH1 : Raw; CH2 : Raw; CH5 : Raw; CH6 : Raw; CH8 : Raw; CH9 : Raw;
  CH10 : Raw;
  WTV801_1 : Raw; WTV801_2 : Raw; WTV801_3 : Raw;
  outdoorTemp : Raw;
  userSetpoint : Raw;
  targetSupplyTemp_in : Raw
}.

(** The UI commands; [None] is [undefined]. *)
Record UiCommands : Type := mkUi {
  ui_systemEnabled : option bool;
  ui_controlMode : option string;
  ui_towerVFDEnable : Per3 (option bool);
  ui_towerFanSpeed : Per3 (option Q);
  ui_towerHeaterEnable : Per3 (option bool);
  ui_bypassValvePosition : option Q;
  ui_temperingValvePosition : option Q
}.

Definition no_ui : UiCommands :=
  mkUi None None (all3 None) (all3 None) (all3 None) None None.

(** ** Parsed sensor data *)

Record Temps : Type := mkTemps {
  towerSupply : Q;
  towerReturn : Q;
  hpReturn : Q;
  hpSupply : Q;
  outdoor : Q
}.

Record VfdCurrents : Type := mkVfd {
  tower1A : Q; tower1B : Q;
  tower2A : Q; tower2B : Q;
  tower3A : Q; tower3B : Q
}.

Record SensorData : Type := mkSensorData {
  vfdCurrents : VfdCurrents;
  pumpCurrents : Per3 Q;
  temps : Temps;
  vibration : Per3 Q;
  targetSetpoint : Q
}.
(** ** The command snapshot *)

(** [controlResult].  The mirrored sensor readings of [flattenSensorData]
    are kept together in [readings]. *)
Record ControlResult : Type := mkResult {
  towerVFDEnable : Per3 bool;
  towerFanSpeed : Per3 Q;
  bypassValvePosition : Q;
  temperingValvePosition : Q;
  pumpEnable : Per3 bool;
  towerIsolationValveOpen : Per3 bool;
  towerIsolationValveClose : Per3 bool;
  towerHeaterEnable : Per3 bool;
  systemEnabled : bool;
  emergencyStop : bool;
  controlMode : string;
  result_leadTower : Idx;
  activeTowers : Z;
  coolingDemand : Q;
  readings : SensorData;
  pumpRunning : Per3 bool;
  towerVibrationOK : Per3 bool;
  targetSupplyTemp : Q;
  loopDeltaT : Q;
  alarmStatus : string;
  faultConditions : list string;
  safetyBypasses : list string;
  controlTimestamp : Z
}.

(** Field assignments [controlResult.f = v]. *)

Definition set_towerVFDEnable (v : Per3 bool) (r : ControlResult) : ControlResult :=
  mkResult
    v (towerFanSpeed r) (bypassValvePosition r)
    (temperingValvePosition r) (pumpEnable r) (towerIsolationValveOpen r)
    (towerIsolationValveClose r) (towerHeaterEnable r) (systemEnabled r)
    (emergencyStop r) (controlMode r) (result_leadTower r)
    (activeTowers r) (coolingDemand r) (readings r)
    (pumpRunning r) (towerVibrationOK r) (targetSupplyTemp r)
    (loopDeltaT r) (alarmStatus r) (faultConditions r)
    (safetyBypasses r) (controlTimestamp r).

Definition set_towerFanSpeed (v : Per3 Q) (r : ControlResult) : ControlResult :=
  mkResult
    (towerVFDEnable r) v (bypassValvePosition r)
    (temperingValvePosition r) (pumpEnable r) (towerIsolationValveOpen r)
    (towerIsolationValveClose r) (towerHeaterEnable r) (systemEnabled r)
    (emergencyStop r) (controlMode r) (result_leadTower r)
    (activeTowers r) (coolingDemand r) (readings r)
    (pumpRunning r) (towerVibrationOK r) (targetSupplyTemp r)
    (loopDeltaT r) (alarmStatus r) (faultConditions r)
    (safetyBypasses r) (controlTimestamp r).

Definition set_bypassValvePosition (v : Q) (r : ControlResult) : ControlResult :=
  mkResult
    (towerVFDEnable r) (towerFanSpeed r) v
    (temperingValvePosition r) (pumpEnable r) (towerIsolationValveOpen r)
    (towerIsolationValveClose r) (towerHeaterEnable r) (systemEnabled r)
    (emergencyStop r) (controlMode r) (result_leadTower r)
    (activeTowers r) (coolingDemand r) (readings r)
    (pumpRunning r) (towerVibrationOK r) (targetSupplyTemp r)
    (loopDeltaT r) (alarmStatus r) (faultConditions r)
    (safetyBypasses r) (controlTimestamp r).

Definition set_temperingValvePosition (v : Q) (r : ControlResult) : ControlResult :=
  mkResult
    (towerVFDEnable r) (towerFanSpeed r) (bypassValvePosition r)
    v (pumpEnable r) (towerIsolationValveOpen r)
    (towerIsolationValveClose r) (towerHeaterEnable r) (systemEnabled r)
    (emergencyStop r) (controlMode r) (result_leadTower r)
    (activeTowers r) (coolingDemand r) (readings r)
    (pumpRunning r) (towerVibrationOK r) (targetSupplyTemp r)
    (loopDeltaT r) (alarmStatus r) (faultConditions r)
    (safetyBypasses r) (controlTimestamp r).

Definition set_pumpEnable (v : Per3 bool) (r : ControlResult) : ControlResult :=
  mkResult
    (towerVFDEnable r) (towerFanSpeed r) (bypassValvePosition r)
    (temperingValvePosition r) v (towerIsolationValveOpen r)
    (towerIsolationValveClose r) (towerHeaterEnable r) (systemEnabled r)
    (emergencyStop r) (controlMode r) (result_leadTower r)
    (activeTowers r) (coolingDemand r) (readings r)
    (pumpRunning r) (towerVibrationOK r) (targetSupplyTemp r)
    (loopDeltaT r) (alarmStatus r) (faultConditions r)
    (safetyBypasses r) (controlTimestamp r).

Definition set_towerIsolationValveOpen (v : Per3 bool) (r : ControlResult) : ControlResult :=
  mkResult
    (towerVFDEnable r) (towerFanSpeed r) (bypassValvePosition r)
    (temperingValvePosition r) (pumpEnable r) v
    (towerIsolationValveClose r) (towerHeaterEnable r) (systemEnabled r)
    (emergencyStop r) (controlMode r) (result_leadTower r)
    (activeTowers r) (coolingDemand r) (readings r)
    (pumpRunning r) (towerVibrationOK r) (targetSupplyTemp r)
    (loopDeltaT r) (alarmStatus r) (faultConditions r)
    (safetyBypasses r) (controlTimestamp r).

Definition set_towerIsolationValveClose (v : Per3 bool) (r : ControlResult) : ControlResult :=
  mkResult
    (towerVFDEnable r) (towerFanSpeed r) (bypassValvePosition r)
    (temperingValvePosition r) (pumpEnable r) (towerIsolationValveOpen r)
    v (towerHeaterEnable r) (systemEnabled r)
    (emergencyStop r) (controlMode r) (result_leadTower r)
    (activeTowers r) (coolingDemand r) (readings r)
    (pumpRunning r) (towerVibrationOK r) (targetSupplyTemp r)
    (loopDeltaT r) (alarmStatus r) (faultConditions r)
    (safetyBypasses r) (controlTimestamp r).

Definition set_towerHeaterEnable (v : Per3 bool) (r : ControlResult) : ControlResult :=
  mkResult
    (towerVFDEnable r) (towerFanSpeed r) (bypassValvePosition r)
    (temperingValvePosition r) (pumpEnable r) (towerIsolationValveOpen r)
    (towerIsolationValveClose r) v (systemEnabled r)
    (emergencyStop r) (controlMode r) (result_leadTower r)
    (activeTowers r) (coolingDemand r) (readings r)
    (pumpRunning r) (towerVibrationOK r) (targetSupplyTemp r)
    (loopDeltaT r) (alarmStatus r) (faultConditions r)
    (safetyBypasses r) (controlTimestamp r).

Definition set_systemEnabled (v : bool) (r : ControlResult) : ControlResult :=
  mkResult
    (towerVFDEnable r) (towerFanSpeed r) (bypassValvePosition r)
    (temperingValvePosition r) (pumpEnable r) (towerIsolationValveOpen r)
    (towerIsolationValveClose r) (towerHeaterEnable r) v
    (emergencyStop r) (controlMode r) (result_leadTower r)
    (activeTowers r) (coolingDemand r) (readings r)
    (pumpRunning r) (towerVibrationOK r) (targetSupplyTemp r)
    (loopDeltaT r) (alarmStatus r) (faultConditions r)
    (safetyBypasses r) (controlTimestamp r).

Definition set_controlMode (v : string) (r : ControlResult) : ControlResult :=
  mkResult
    (towerVFDEnable r) (towerFanSpeed r) (bypassValvePosition r)
    (temperingValvePosition r) (pumpEnable r) (towerIsolationValveOpen r)
    (towerIsolationValveClose r) (towerHeaterEnable r) (systemEnabled r)
    (emergencyStop r) v (result_leadTower r)
    (activeTowers r) (coolingDemand r) (readings r)
    (pumpRunning r) (towerVibrationOK r) (targetSupplyTemp r)
    (loopDeltaT r) (alarmStatus r) (faultConditions r)
    (safetyBypasses r) (controlTimestamp r).

Definition set_result_leadTower (v : Idx) (r : ControlResult) : ControlResult :=
  mkResult
    (towerVFDEnable r) (towerFanSpeed r) (bypassValvePosition r)
    (temperingValvePosition r) (pumpEnable r) (towerIsolationValveOpen r)
    (towerIsolationValveClose r) (towerHeaterEnable r) (systemEnabled r)
    (emergencyStop r) (controlMode r) v
    (activeTowers r) (coolingDemand r) (readings r)
    (pumpRunning r) (towerVibrationOK r) (targetSupplyTemp r)
    (loopDeltaT r) (alarmStatus r) (faultConditions r)
    (safetyBypasses r) (controlTimestamp r).

Definition set_activeTowers (v : Z) (r : ControlResult) : ControlResult :=
  mkResult
    (towerVFDEnable r) (towerFanSpeed r) (bypassValvePosition r)
    (temperingValvePosition r) (pumpEnable r) (towerIsolationValveOpen r)
    (towerIsolationValveClose r) (towerHeaterEnable r) (systemEnabled r)
    (emergencyStop r) (controlMode r) (result_leadTower r)
    v (coolingDemand r) (readings r)
    (pumpRunning r) (towerVibrationOK r) (targetSupplyTemp r)
    (loopDeltaT r) (alarmStatus r) (faultConditions r)
    (safetyBypasses r) (controlTimestamp r).

Definition set_coolingDemand (v : Q) (r : ControlResult) : ControlResult :=
  mkResult
    (towerVFDEnable r) (towerFanSpeed r) (bypassValvePosition r)
    (temperingValvePosition r) (pumpEnable r) (towerIsolationValveOpen r)
    (towerIsolationValveClose r) (towerHeaterEnable r) (systemEnabled r)
    (emergencyStop r) (controlMode r) (result_leadTower r)
    (activeTowers r) v (readings r)
    (pumpRunning r) (towerVibrationOK r) (targetSupplyTemp r)
    (loopDeltaT r) (alarmStatus r) (faultConditions r)
    (safetyBypasses r) (controlTimestamp r).

Definition set_targetSupplyTemp (v : Q) (r : ControlResult) : ControlResult :=
  mkResult
    (towerVFDEnable r) (towerFanSpeed r) (bypassValvePosition r)
    (temperingValvePosition r) (pumpEnable r) (towerIsolationValveOpen r)
    (towerIsolationValveClose r) (towerHeaterEnable r) (systemEnabled r)
    (emergencyStop r) (controlMode r) (result_leadTower r)
    (activeTowers r) (coolingDemand r) (readings r)
    (pumpRunning r) (towerVibrationOK r) v
    (loopDeltaT r) (alarmStatus r) (faultConditions r)
    (safetyBypasses r) (controlTimestamp r).

Definition set_loopDeltaT (v : Q) (r : ControlResult) : ControlResult :=
  mkResult
    (towerVFDEnable r) (towerFanSpeed r) (bypassValvePosition r)
    (temperingValvePosition r) (pumpEnable r) (towerIsolationValveOpen r)
    (towerIsolationValveClose r) (towerHeaterEnable r) (systemEnabled r)
    (emergencyStop r) (controlMode r) (result_leadTower r)
    (activeTowers r) (coolingDemand r) (readings r)
    (pumpRunning r) (towerVibrationOK r) (targetSupplyTemp r)
    v (alarmStatus r) (faultConditions r)
    (safetyBypasses r) (controlTimestamp r).

Definition set_alarmStatus (v : string) (r : ControlResult) : ControlResult :=
  mkResult
    (towerVFDEnable r) (towerFanSpeed r) (bypassValvePosition r)
    (temperingValvePosition r) (pumpEnable r) (towerIsolationValveOpen r)
    (towerIsolationValveClose r) (towerHeaterEnable r) (systemEnabled r)
    (emergencyStop r) (controlMode r) (result_leadTower r)
    (activeTowers r) (coolingDemand r) (readings r)
    (pumpRunning r) (towerVibrationOK r) (targetSupplyTemp r)
    (loopDeltaT r) v (faultConditions r)
    (safetyBypasses r) (controlTimestamp r).

Definition set_faultConditions (v : list string) (r : ControlResult) : ControlResult :=
  mkResult
    (towerVFDEnable r) (towerFanSpeed r) (bypassValvePosition r)
    (temperingValvePosition r) (pumpEnable r) (towerIsolationValveOpen r)
    (towerIsolationValveClose r) (towerHeaterEnable r) (systemEnabled r)
    (emergencyStop r) (controlMode r) (result_leadTower r)
    (activeTowers r) (coolingDemand r) (readings r)
    (pumpRunning r) (towerVibrationOK r) (targetSupplyTemp r)
    (loopDeltaT r) (alarmStatus r) v
    (safetyBypasses r) (controlTimestamp r).

Definition set_safetyBypasses (v : list string) (r : ControlResult) : ControlResult :=
  mkResult
    (towerVFDEnable r) (towerFanSpeed r) (bypassValvePosition r)
    (temperingValvePosition r) (pumpEnable r) (towerIsolationValveOpen r)
    (towerIsolationValveClose r) (towerHeaterEnable r) (systemEnabled r)
    (emergencyStop r) (controlMode r) (result_leadTower r)
    (activeTowers r) (coolingDemand r) (readings r)
    (pumpRunning r) (towerVibrationOK r) (targetSupplyTemp r)
    (loopDeltaT r) (alarmStatus r) (faultConditions r)
    v (controlTimestamp r).

(** ** Initialization *)

Definition default_towers (now : Z) : Towers :=
  mkTowers One now (all3 0)
           (all3 (mkTimer None None))
           (all3 (mkRamp 0 0 0)).

Definition default_pumps (now : Z) : Pumps :=
  mkPumps One now (all3 0) None 0 0.

Definition default_pidStates : PidStates :=
  mkPidStates (all3 (mkPidState 0 0 VFD_MIN_SPEED)) (mkPidState 0 0 6.0).

Definition default_lastGoodTemps : LastGood := mkLastGood 85 95 85 75.

Definition or_default {A} (o : option A) (d : A) : A :=
  match o with Some a => a | None => d end.

(** [initializeState]: every missing part receives its default. *)
Definition initializeState (now : Z) (s : StateStorage) : State :=
  mkState (or_default (st_towers s) (default_towers now))
          (or_default (st_pumps s) (default_pumps now))
          (or_default (st_pidStates s) default_pidStates)
          (or_default (st_lastGoodTemps s) default_lastGoodTemps).

(** One loop temperature of [sanitizeTemperatures]: the sanitized value and
    the last-good entry after the call. *)
Definition sanitize_loop_temp (temp lastGood : Q) : Q * Q :=
  if Qgeb temp 40 && Qleb temp 120 then (temp, temp)
  else if negb (Qeq_bool lastGood 0) then (lastGood, lastGood)
  else (temp, lastGood).

Definition sanitize_outdoor (temp : Q) : Q :=
  if Qgeb temp (-20) && Qleb temp 120 then temp else 75.

(** [sanitizeTemperatures]: the keys are visited in insertion order; each
    loop temperature reads and writes its own last-good entry only. *)
Definition sanitizeTemperatures (t : Temps) (lg : LastGood) : Temps * LastGood :=
  let (ts, lts) := sanitize_loop_temp (towerSupply t) (lg_towerSupply lg) in
  let (tr, ltr) := sanitize_loop_temp (towerReturn t) (lg_towerReturn lg) in
  let (hr, lhr) := sanitize_loop_temp (hpReturn t) (lg_hpReturn lg) in
  let (hs, lhs) := sanitize_loop_temp (hpSupply t) (lg_hpSupply lg) in
  (mkTemps ts tr hr hs (sanitize_outdoor (outdoor t)),
   mkLastGood lts ltr lhr lhs).

(** The temperatures as parsed, before the sanity check. *)
Definition parsed_temps (d : SensorInput) : Temps :=
  mkTemps (parseFloat_or (CH10 d) 75)
          (parseFloat_or (CH9 d) 85)
          (parseFloat_or (CH1 d) 85)
          (parseFloat_or (CH2 d) 75)
          (parseFloat_or (outdoorTemp d) 75).

Definition parsed_setpoint (d : SensorInput) : Q :=
  match userSetpoint d with
  | Absent => parseFloat_or (targetSupplyTemp_in d) 75
  | RawNum q => if Qeq_bool q 0 then parseFloat_or (targetSupplyTemp_in d) 75 else q
  | RawStr q => q
  end.

(** [parseSensorData]: the parsed readings and the last-good store it
    updates. *)
Definition parseSensorData (d : SensorInput) (lg : LastGood) : SensorData * LastGood :=
  let (t, lg') := sanitizeTemperatures (parsed_temps d) lg in
  (mkSensorData
     (mkVfd (parseFloat_or (AI1 d) 0) (parseFloat_or (AI2 d) 0)
            (parseFloat_or (AI3 d) 0) (parseFloat_or (AI4 d) 0)
            (parseFloat_or (AI5 d) 0) (parseFloat_or (AI6 d) 0))
     (mk3 (parseFloat_or (CH8 d) 0) (parseFloat_or (CH5 d) 0)
          (parseFloat_or (CH6 d) 0))
     t
     (mk3 (parseFloat_or (WTV801_1 d) 0) (parseFloat_or (WTV801_2 d) 0)
          (parseFloat_or (WTV801_3 d) 0))
     (parsed_setpoint d),
   lg').

Definition map3 {A B} (f : A -> B) (t : Per3 A) : Per3 B :=
  mk3 (f (p1 t)) (f (p2 t)) (f (p3 t)).

(** [initializeControlResult] *)
Definition initializeControlResult (now : Z) (sd : SensorData) : ControlResult :=
  mkResult
    (all3 false) (all3 0) 2.0 2.0
    (all3 false)
    (all3 false) (all3 false)
    (all3 false)
    true false "auto" One 0%Z 0
    sd
    (map3 (fun c => Qgtb c PUMP_CURRENT_MIN) (pumpCurrents sd))
    (map3 (fun v => Qleb v VIBRATION_CRITICAL_LIMIT) (vibration sd))
    (targetSetpoint sd)
    (hpSupply (temps sd) - targetSetpoint sd)
    "normal" [] []
    now.

(** ** The external PID library

    [pidControllerImproved] lives outside this code base.  It is taken as a
    parameter: a call receives its arguments and the PID state object, and
    either returns an output or throws; in both cases the state object may
    have been mutated. *)

Record PidParams : Type := mkPidParams {
  kp : Q; ki : Q; kd : Q;
  outputMin : Q; outputMax : Q;
  reverseActing : bool;
  maxIntegral : Q
}.

Record PidCall : Type := mkPidCall {
  pid_input : Q;
  pid_setpoint : Q;
  pid_params : option PidParams;
  pid_dt : Q;
  pid_controllerType : string;
  pid_equipmentId : string
}.

Inductive PidResult : Type :=
| PidOutput (output : Q)
| PidThrows.

Definition PidFn : Type := PidCall -> PidState -> PidResult * PidState.

Definition digit (i : Idx) : string :=
  match i with One => "1" | Two => "2" | Three => "3" end.

Record StagingDecision : Type := mkStaging {
  demandedTowers : Z;
  sd_coolingDemand : Q;
  deltaT : Q;
  sd_leadTower : Idx;
  lagTowers : Idx * Idx
}.

(** The [do { next = (next % 3) + 1; attempts++ } while (!available(next) &&
    attempts < 3)] loop shared by the tower and pump rotations; [fuel] is the
    number of iterations left after the first. *)
Fixpoint scan_next (avail : Idx -> bool) (fuel : nat) (cur : Idx) : Idx :=
  let nxt := next_idx cur in
  match fuel with
  | O => nxt
  | S f => if avail nxt then nxt else scan_next avail f nxt
  end.

Section Engine.

Variable cfg : Config.

(** [pidControllerImproved]; [None] when the module could not be loaded. *)
Variable pidControllerImproved : option PidFn.

Definition tower_available (i : Idx) : bool := get3 i (TOWER_AVAILABLE cfg).
Definition pump_available (i : Idx) : bool := get3 i (PUMP_AVAILABLE cfg).

(** *** Safety *)

Definition vibration_fault (i : Idx) : string :=
  "TOWER" ++ digit i ++ "_HIGH_VIBRATION_CRITICAL (ID: " ++ EQUIPMENT_ID i ++ ")".

Definition vfd_fault (i : Idx) : string :=
  "TOWER" ++ digit i ++ "_CRITICAL_VFD_CURRENT (ID: " ++ EQUIPMENT_ID i ++ ")".

Definition pump_fault (i : Idx) : string :=
  "PUMP" ++ digit i ++ "_OVERCURRENT (Tower ID: " ++ EQUIPMENT_ID i ++ ")".

Definition push_if (b : bool) (s : string) : list string :=
  if b then [s] else [].

Definition vibration_faults (sd : SensorData) : list string :=
  flat_map (fun i => push_if (Qgtb (get3 i (vibration sd)) VIBRATION_CRITICAL_LIMIT)
                             (vibration_fault i)) all_idx.

(** The legs in key order: tower1A, tower1B, tower2A, ... *)
Definition vfd_legs (sd : SensorData) : list (Idx * Q) :=
  let c := vfdCurrents sd in
  [(One, tower1A c); (One, tower1B c); (Two, tower2A c); (Two, tower2B c);
   (Three, tower3A c); (Three, tower3B c)].

Definition vfd_faults (sd : SensorData) : list string :=
  flat_map (fun l => push_if (Qgtb (snd l) VFD_CURRENT_CRITICAL) (vfd_fault (fst l)))
           (vfd_legs sd).

Definition pump_faults (sd : SensorData) : list string :=
  flat_map (fun i => push_if (Qgtb (get3 i (pumpCurrents sd)) PUMP_CURRENT_MAX)
                             (pump_fault i)) all_idx.

Definition critical_faults (sd : SensorData) : list string :=
  (if BYPASS_VIBRATION_LIMITS cfg then [] else vibration_faults sd) ++
  (if BYPASS_CURRENT_LIMITS cfg then [] else vfd_faults sd ++ pump_faults sd).

Definition bypass_list : list string :=
  push_if (BYPASS_VIBRATION_LIMITS cfg) "VIBRATION_LIMITS_BYPASSED" ++
  push_if (BYPASS_CURRENT_LIMITS cfg) "CURRENT_LIMITS_BYPASSED" ++
  push_if (BYPASS_EMERGENCY_STOP cfg) "EMERGENCY_STOP_BYPASSED" ++
  push_if (BYPASS_WATER_LEVEL cfg) "WATER_LEVEL_BYPASSED" ++
  push_if (BYPASS_VFD_FAULTS cfg) "VFD_FAULTS_BYPASSED".

(** The body of the [for (i = 1; i <= 3; i++)] shutdown loop. *)
Definition shutdown_tower (i : Idx) (r : ControlResult) : ControlResult :=
  let r := set_towerVFDEnable (set3 i false (towerVFDEnable r)) r in
  let r := set_towerFanSpeed (set3 i 0 (towerFanSpeed r)) r in
  let r := set_towerIsolationValveClose (set3 i true (towerIsolationValveClose r)) r in
  set_towerIsolationValveOpen (set3 i false (towerIsolationValveOpen r)) r.

Definition for_each_idx {A} (body : Idx -> A -> A) (a : A) : A :=
  fold_left (fun acc i => body i acc) all_idx a.

(** [performSafetyChecks]: [safe] and the result object. *)
Definition performSafetyChecks (sd : SensorData) (r : ControlResult)
  : bool * ControlResult :=
  let faults := critical_faults sd in
  let r := set_faultConditions faults r in
  let r := set_safetyBypasses bypass_list r in
  match faults with
  | _ :: _ =>
      let r := set_alarmStatus "critical" r in
      let r := set_systemEnabled false r in
      (false, for_each_idx shutdown_tower r)
  | [] => (true, r)
  end.

(** *** Staging *)

Definition set_lead (i : Idx) (now : Z) (tw : Towers) : Towers :=
  mkTowers i now (runtimeTracking tw) (timers tw) (speedRamping tw).

Definition performLeadTowerRotation (now : Z) (tw : Towers) : Towers :=
  if (now - lastRotationTime tw >? WEEK_IN_MS)%Z then
    let nextTower := scan_next tower_available 2 (leadTower tw) in
    if tower_available nextTower then set_lead nextTower now tw else tw
  else tw.

Definition isAnyTowerCurrentlyRunning (tw : Towers) : bool :=
  not_null (startTime (p1 (timers tw))) ||
  not_null (startTime (p2 (timers tw))) ||
  not_null (startTime (p3 (timers tw))).

Definition getCurrentlyRunningTowerCount (tw : Towers) : Z :=
  ((if truthy (startTime (p1 (timers tw))) then 1 else 0) +
   (if truthy (startTime (p2 (timers tw))) then 1 else 0) +
   (if truthy (startTime (p3 (timers tw))) then 1 else 0))%Z.

Definition calculateStaging (sd : SensorData) (tw : Towers) : StagingDecision :=
  let dT := hpSupply (temps sd) - targetSetpoint sd in
  let anyTowerRunning := isAnyTowerCurrentlyRunning tw in
  let '(demanded, demand) :=
    if Qltb dT (-15) || Qltb (hpSupply (temps sd)) 65
       || Qltb (towerSupply (temps sd)) 50 then (0%Z, 0)
    else if anyTowerRunning && Qgeb dT (-5) then
      (Z.max 1 (getCurrentlyRunningTowerCount tw),
       Math_max 28 (Math_min 100 (28 + dT * 3)))
    else if Qgeb dT STAGE_1_DELTA_T then
      if Qgeb dT STAGE_4_DELTA_T then (3%Z, 100)
      else if Qgeb dT STAGE_3_DELTA_T then (3%Z, 75)
      else if Qgeb dT STAGE_2_DELTA_T then (2%Z, 60)
      else (1%Z, Math_max 28 (Math_min 50 (28 + (dT - 10) * 2)))
    else (0%Z, 0) in
  mkStaging demanded demand dT (leadTower tw)
            (idx_of_Z (num (leadTower tw) mod 3 + 1),
             idx_of_Z ((num (leadTower tw) + 1) mod 3 + 1)).

(** *** Towers *)

Definition set_timer (i : Idx) (t : Timer) (s : State) : State :=
  let tw := towers s in
  mkState (mkTowers (leadTower tw) (lastRotationTime tw) (runtimeTracking tw)
                    (set3 i t (timers tw)) (speedRamping tw))
          (pumps s) (pidStates s) (lastGoodTemps s).

Definition set_ramp (i : Idx) (rp : Ramp) (s : State) : State :=
  let tw := towers s in
  mkState (mkTowers (leadTower tw) (lastRotationTime tw) (runtimeTracking tw)
                    (timers tw) (set3 i rp (speedRamping tw)))
          (pumps s) (pidStates s) (lastGoodTemps s).

Definition set_tower_pid (i : Idx) (p : PidState) (s : State) : State :=
  mkState (towers s) (pumps s)
          (mkPidStates (set3 i p (tower_pid (pidStates s))) (valve_pid (pidStates s)))
          (lastGoodTemps s).

Definition set_valve_pid (p : PidState) (s : State) : State :=
  mkState (towers s) (pumps s)
          (mkPidStates (tower_pid (pidStates s)) p)
          (lastGoodTemps s).

Definition set_towers (tw : Towers) (s : State) : State :=
  mkState tw (pumps s) (pidStates s) (lastGoodTemps s).

Definition set_pumps (p : Pumps) (s : State) : State :=
  mkState (towers s) p (pidStates s) (lastGoodTemps s).

Definition set_lastGoodTemps (lg : LastGood) (s : State) : State :=
  mkState (towers s) (pumps s) (pidStates s) lg.

Definition canEnableTower (now : Z) (i : Idx) (s : State) : bool :=
  if negb (tower_available i) then false
  else
    let timer := get3 i (timers (towers s)) in
    match stopTime timer with
    | Some stop =>
        if truthy (Some stop) && Qltb (seconds_since now stop) 180 then false
        else true
    | None => true
    end.

Definition calculateFallbackSpeed (coolingDemand : Q) (ps : PidState)
  : Q * PidState :=
  let speed := num_or (lastOutput ps) VFD_MIN_SPEED in
  let speed :=
    if Qgtb coolingDemand 50 then Math_min (speed + 0.1) VFD_MAX_SPEED
    else if Qltb coolingDemand 30 then Math_max (speed - 0.1) VFD_MIN_SPEED
    else speed in
  (speed, mkPidState (integral ps) (previousError ps) speed).

Definition applySpeedRamping (now : Z) (target : Q) (rs : Ramp) : Q * Ramp :=
  let timeSinceLastChange := (now - lastChange rs)%Z in
  let minRampTime := 15000%Z in
  let rs :=
    if Qeq_bool (currentSpeed rs) 0
    then mkRamp VFD_MIN_SPEED (targetSpeed rs) now
    else rs in
  let rs :=
    if (timeSinceLastChange >=? minRampTime)%Z then
      let maxStep := 0.3 in
      let difference := target - currentSpeed rs in
      if Qgtb (Math_abs difference) 0.1 then
        let step := Math_sign difference * Math_min (Math_abs difference) maxStep in
        mkRamp (currentSpeed rs + step) (targetSpeed rs) now
      else rs
    else rs in
  let rs := mkRamp (currentSpeed rs) target (lastChange rs) in
  (Math_max VFD_MIN_SPEED (Math_min VFD_MAX_SPEED (currentSpeed rs)), rs).

Definition tower_pid_call (i : Idx) (sd : SensorData) : PidCall :=
  mkPidCall (hpSupply (temps sd)) (targetSetpoint sd) None 15
            ("tower" ++ digit i ++ "_vfd") "cooling_tower".

Definition calculateTowerSpeed (now : Z) (i : Idx) (coolingDemand : Q)
           (sd : SensorData) (s : State) : Q * State :=
  let timer := get3 i (timers (towers s)) in
  let pidState := get3 i (tower_pid (pidStates s)) in
  let rampState := get3 i (speedRamping (towers s)) in
  let in_startup :=
    match startTime timer with
    | Some t0 => truthy (Some t0) && Qltb (seconds_since now t0) 420
    | None => false
    end in
  if in_startup then (VFD_MIN_SPEED, s)
  else if Qltb (Math_abs (hpSupply (temps sd) - targetSetpoint sd)) 2
  then (VFD_MIN_SPEED, s)
  else
    let '(targetSpeed, pidState') :=
      match pidControllerImproved with
      | Some pid =>
          match pid (tower_pid_call i sd) pidState with
          | (PidOutput o, ps) => (o, ps)
          | (PidThrows, ps) => calculateFallbackSpeed coolingDemand ps
          end
      | None => calculateFallbackSpeed coolingDemand pidState
      end in
    let s := set_tower_pid i pidState' s in
    let '(speed, rampState') := applySpeedRamping now targetSpeed rampState in
    (speed, set_ramp i rampState' s).

Definition enableTower (now : Z) (i : Idx) (coolingDemand : Q)
           (sd : SensorData) (sr : State * ControlResult) : State * ControlResult :=
  let '(s, r) := sr in
  let r := set_towerVFDEnable (set3 i true (towerVFDEnable r)) r in
  let r := set_towerIsolationValveOpen (set3 i true (towerIsolationValveOpen r)) r in
  let r := set_towerIsolationValveClose (set3 i false (towerIsolationValveClose r)) r in
  let timer := get3 i (timers (towers s)) in
  let s :=
    if negb (truthy (startTime timer))
    then set_timer i (mkTimer (Some now) None) s
    else s in
  let '(speed, s) := calculateTowerSpeed now i coolingDemand sd s in
  (s, set_towerFanSpeed (set3 i speed (towerFanSpeed r)) r).

Definition force_on (i : Idx) (r : ControlResult) : ControlResult :=
  let r := set_towerVFDEnable (set3 i true (towerVFDEnable r)) r in
  let r := set_towerFanSpeed (set3 i VFD_MIN_SPEED (towerFanSpeed r)) r in
  let r := set_towerIsolationValveOpen (set3 i true (towerIsolationValveOpen r)) r in
  set_towerIsolationValveClose (set3 i false (towerIsolationValveClose r)) r.

(** The body of the loop of [enforceMinimumRuntimes] for tower [i]. *)
Definition enforce_tower (now : Z) (sd : SensorData) (i : Idx)
           (sr : State * ControlResult) : State * ControlResult :=
  let '(s, r) := sr in
  let dT := hpSupply (temps sd) - targetSetpoint sd in
  let timer := get3 i (timers (towers s)) in
  match startTime timer with
  | Some t0 =>
      if truthy (Some t0) && negb (get3 i (towerVFDEnable r)) then
        let runtimeSeconds := seconds_since now t0 in
        if Qltb runtimeSeconds 420 then (s, force_on i r)
        else if Qltb dT (-10) then
          (set_timer i (mkTimer None (Some now)) s, r)
        else (s, force_on i r)
      else (s, r)
  | None => (s, r)
  end.

Definition enforceMinimumRuntimes (now : Z) (sd : SensorData)
           (sr : State * ControlResult) : State * ControlResult :=
  for_each_idx (enforce_tower now sd) sr.

(** The body of the reset loop of [controlTowers]. *)
Definition reset_tower (i : Idx) (r : ControlResult) : ControlResult :=
  let r := set_towerVFDEnable (set3 i false (towerVFDEnable r)) r in
  let r := set_towerFanSpeed (set3 i 0 (towerFanSpeed r)) r in
  let r := set_towerIsolationValveOpen (set3 i false (towerIsolationValveOpen r)) r in
  set_towerIsolationValveClose (set3 i true (towerIsolationValveClose r)) r.

Definition towersToEnable (d : StagingDecision) : list Idx :=
  (if (demandedTowers d >=? 1)%Z then [sd_leadTower d] else []) ++
  (if (demandedTowers d >=? 2)%Z then [fst (lagTowers d)] else []) ++
  (if (demandedTowers d >=? 3)%Z then [snd (lagTowers d)] else []).

Definition controlTowers (now : Z) (d : StagingDecision) (sd : SensorData)
           (sr : State * ControlResult) : State * ControlResult :=
  let '(s, r) := sr in
  let r := for_each_idx reset_tower r in
  let sr :=
    fold_left (fun acc towerNum =>
                 if canEnableTower now towerNum (fst acc)
                 then enableTower now towerNum (sd_coolingDemand d) sd acc
                 else acc)
              (towersToEnable d) (s, r) in
  let '(s, r) := enforceMinimumRuntimes now sd sr in
  let r := set_result_leadTower (sd_leadTower d) r in
  let r := set_activeTowers (demandedTowers d) r in
  (s, set_coolingDemand (sd_coolingDemand d) r).

(** *** Pumps *)

Definition findNextAvailablePump (currentPump : Idx) : option Idx :=
  let nextPump := scan_next pump_available 2 currentPump in
  if pump_available nextPump then Some nextPump else None.

Definition is_some {A} (o : option A) : bool :=
  match o with Some _ => true | None => false end.

Definition checkPumpFailure (sd : SensorData) (ps : Pumps) (r : ControlResult)
           (currentTime : Z) : Pumps :=
  let activePumpCurrent := num_or (get3 (activePump ps) (pumpCurrents sd)) 0 in
  let timeSinceLastFailover := (currentTime - lastFailoverTime ps)%Z in
  let shouldBeRunning :=
    get3 (activePump ps) (pumpEnable r) ||
    (negb (is_some (changeoverState ps)) && negb (BYPASS_PUMP_STATUS cfg)) in
  if shouldBeRunning && Qltb activePumpCurrent 10.0
     && (timeSinceLastFailover >? 30000)%Z then
    match findNextAvailablePump (activePump ps) with
    | Some nextPump =>
        if pump_available nextPump then
          mkPumps (activePump ps) (pump_lastRotationTime ps) (pump_runtimeTracking ps)
                  (Some (mkChangeover nextPump currentTime))
                  (failoverCount ps + 1) currentTime
        else ps
    | None => ps
    end
  else ps.

Definition checkPumpRotation (ps : Pumps) (currentTime : Z) : Pumps :=
  let timeSinceRotation := (currentTime - pump_lastRotationTime ps)%Z in
  if (timeSinceRotation >=? WEEK_IN_MS)%Z && negb (is_some (changeoverState ps)) then
    match findNextAvailablePump (activePump ps) with
    | Some nextPump =>
        if negb (Idx_eqb nextPump (activePump ps)) then
          mkPumps (activePump ps) currentTime (pump_runtimeTracking ps)
                  (Some (mkChangeover nextPump currentTime))
                  (failoverCount ps) (lastFailoverTime ps)
        else ps
    | None => ps
    end
  else ps.

Definition updatePumpRuntime (ps : Pumps) : Pumps :=
  let runtimeIncrement := 7 / 3600000 in
  mkPumps (activePump ps) (pump_lastRotationTime ps)
          (set3 (activePump ps)
                (get3 (activePump ps) (pump_runtimeTracking ps) + runtimeIncrement)
                (pump_runtimeTracking ps))
          (changeoverState ps) (failoverCount ps) (lastFailoverTime ps).

Definition enable_pump (i : Idx) (r : ControlResult) : ControlResult :=
  set_pumpEnable (set3 i true (pumpEnable r)) r.

Definition controlPumps (now : Z) (sd : SensorData) (sr : State * ControlResult)
  : State * ControlResult :=
  let '(s, r) := sr in
  if BYPASS_PUMP_STATUS cfg then (s, enable_pump One r)
  else
    let currentTime := now in
    let ps := pumps s in
    let '(ps, r) :=
      match changeoverState ps with
      | Some co =>
          let elapsed := (currentTime - co_startTime co)%Z in
          if (elapsed <? PUMP_CHANGEOVER_OVERLAP_MS)%Z then
            (ps, enable_pump (newPump co) (enable_pump (activePump ps) r))
          else
            (mkPumps (newPump co) (pump_lastRotationTime ps) (pump_runtimeTracking ps)
                     None (failoverCount ps) (lastFailoverTime ps), r)
      | None => (ps, r)
      end in
    let ps := checkPumpFailure sd ps r currentTime in
    let ps := checkPumpRotation ps currentTime in
    let r := if negb (is_some (changeoverState ps))
             then enable_pump (activePump ps) r else r in
    (set_pumps (updatePumpRuntime ps) s, r).

(** *** Valves *)

Definition clamp_valve (v : Q) : Q := Math_max 2.0 (Math_min 10.0 v).

Definition applyFallbackValveControl (outdoorT : Q) (r : ControlResult)
  : ControlResult :=
  if Qltb outdoorT 35 then set_temperingValvePosition 7.6 r
  else set_temperingValvePosition 6.0 r.

Definition valve_pid_call (hpLoopTemp : Q) : PidCall :=
  mkPidCall hpLoopTemp 45.0
            (Some (mkPidParams 2.5 0.15 0.05 2.0 10.0 false 50))
            7 "valve_control" "cooling_tower".

Definition controlValves (sd : SensorData) (ui : UiCommands)
           (sr : State * ControlResult) : State * ControlResult :=
  let '(s, r) := sr in
  let r :=
    match ui_bypassValvePosition ui with
    | Some v => set_bypassValvePosition (clamp_valve v) r
    | None => r
    end in
  match ui_temperingValvePosition ui with
  | Some v => (s, set_temperingValvePosition (clamp_valve v) r)
  | None =>
      if Qgeb (outdoor (temps sd)) 42 then
        let r := set_bypassValvePosition 2.0 r in
        let r := set_temperingValvePosition 2.0 r in
        let vp := valve_pid (pidStates s) in
        (set_valve_pid (mkPidState 0 (previousError vp) 2.0) s, r)
      else
        let hpLoopTemp := (hpSupply (temps sd) + hpReturn (temps sd)) / 2 in
        let '(s, r) :=
          match pidControllerImproved with
          | Some pid =>
              if systemEnabled r then
                match pid (valve_pid_call hpLoopTemp) (valve_pid (pidStates s)) with
                | (PidOutput o, vp) =>
                    let temperingPosition := o in
                    let temperingPosition :=
                      if Qltb (outdoor (temps sd)) 35
                      then Math_max temperingPosition 6.8
                      else if Qltb (outdoor (temps sd)) 40
                      then Math_max temperingPosition 5.2
                      else temperingPosition in
                    let lastPosition := num_or (lastOutput vp) 5.0 in
                    let maxChange := 0.4 in
                    let temperingPosition :=
                      if Qgtb (Math_abs (temperingPosition - lastPosition)) maxChange
                      then lastPosition +
                           (if Qgtb temperingPosition lastPosition
                            then maxChange else - maxChange)
                      else temperingPosition in
                    (set_valve_pid (mkPidState (integral vp) (previousError vp)
                                               temperingPosition) s,
                     set_temperingValvePosition temperingPosition r)
                | (PidThrows, vp) =>
                    (set_valve_pid vp s,
                     applyFallbackValveControl (outdoor (temps sd)) r)
                end
              else (s, applyFallbackValveControl (outdoor (temps sd)) r)
          | None => (s, applyFallbackValveControl (outdoor (temps sd)) r)
          end in
        (s, set_bypassValvePosition 2.0 r)
  end.

(** *** Heaters *)

Definition controlHeaters (outdoorT : Q) (r : ControlResult) : ControlResult :=
  if Qltb outdoorT 35 then set_towerHeaterEnable (all3 true) r
  else if Qgtb outdoorT 45 then set_towerHeaterEnable (all3 false) r
  else r.

(** *** Monitoring and overrides *)

Definition vfd_warning (i : Idx) : string :=
  "TOWER" ++ digit i ++ "_HIGH_VFD_CURRENT_WARNING (ID: " ++ EQUIPMENT_ID i ++ ")".

Definition vibration_warning (i : Idx) : string :=
  "TOWER" ++ digit i ++ "_HIGH_VIBRATION_WARNING (ID: " ++ EQUIPMENT_ID i ++ ")".

Definition monitor_leg (acc : list string * ControlResult) (l : Idx * Q)
  : list string * ControlResult :=
  let '(warnings, r) := acc in
  let '(i, current) := l in
  if Qgtb current VFD_CURRENT_WARNING && Qleb current VFD_CURRENT_CRITICAL then
    (warnings ++ [vfd_warning i],
     if Qgtb (get3 i (towerFanSpeed r)) VFD_LOW_SPEED
     then set_towerFanSpeed (set3 i VFD_LOW_SPEED (towerFanSpeed r)) r
     else r)
  else acc.

Definition applyCurrentAndVibrationMonitoring (sd : SensorData) (r : ControlResult)
  : ControlResult :=
  let '(warnings, r) :=
    if BYPASS_CURRENT_LIMITS cfg then ([], r)
    else fold_left monitor_leg (vfd_legs sd) ([], r) in
  let warnings :=
    if BYPASS_VIBRATION_LIMITS cfg then warnings
    else warnings ++
         flat_map (fun i =>
                     push_if (Qgtb (get3 i (vibration sd)) VIBRATION_WARNING_LIMIT
                              && Qleb (get3 i (vibration sd)) VIBRATION_CRITICAL_LIMIT)
                             (vibration_warning i)) all_idx in
  match warnings with
  | _ :: _ =>
      let r := set_alarmStatus "warning" r in
      set_faultConditions (faultConditions r ++ warnings) r
  | [] => r
  end.

(** The body of the tower loop of [applyManualOverrides]. *)
Definition override_tower (ui : UiCommands) (i : Idx) (r : ControlResult)
  : ControlResult :=
  let r := match get3 i (ui_towerVFDEnable ui) with
           | Some b => set_towerVFDEnable (set3 i b (towerVFDEnable r)) r
           | None => r
           end in
  let r := match get3 i (ui_towerFanSpeed ui) with
           | Some v => set_towerFanSpeed (set3 i v (towerFanSpeed r)) r
           | None => r
           end in
  match get3 i (ui_towerHeaterEnable ui) with
  | Some b => set_towerHeaterEnable (set3 i b (towerHeaterEnable r)) r
  | None => r
  end.

Definition applyManualOverrides (ui : UiCommands) (r : ControlResult)
  : ControlResult :=
  let r := match ui_systemEnabled ui with
           | Some b => set_systemEnabled b r
           | None => r
           end in
  let r := match ui_controlMode ui with
           | Some m => set_controlMode m r
           | None => r
           end in
  for_each_idx (override_tower ui) r.

(** The body of the loop of [updateControlResultSummary]. *)
Definition coerce_sub_minimum (i : Idx) (r : ControlResult) : ControlResult :=
  if Qgtb (get3 i (towerFanSpeed r)) 0
     && Qltb (get3 i (towerFanSpeed r)) VFD_MIN_SPEED then
    let r := set_towerFanSpeed (set3 i 0 (towerFanSpeed r)) r in
    set_towerVFDEnable (set3 i false (towerVFDEnable r)) r
  else r.

Definition updateControlResultSummary (r : ControlResult) (d : StagingDecision)
           (sd : SensorData) : ControlResult :=
  let r := set_result_leadTower (sd_leadTower d) r in
  let r := set_activeTowers (demandedTowers d) r in
  let r := set_coolingDemand (sd_coolingDemand d) r in
  let r := set_loopDeltaT (deltaT d) r in
  let r := set_targetSupplyTemp (targetSetpoint sd) r in
  for_each_idx coerce_sub_minimum r.

(** *** The tick *)

(** The automatic control sequence, once the safety gate has passed and the
    mode is automatic. *)
Definition automatic_control (now : Z) (sd : SensorData) (ui : UiCommands)
           (sr : State * ControlResult) : ControlResult * State :=
  let '(s, r) := sr in
  let s := set_towers (performLeadTowerRotation now (towers s)) s in
  let stagingDecision := calculateStaging sd (towers s) in
  let sr := controlPumps now sd (s, r) in
  let sr := controlTowers now stagingDecision sd sr in
  let '(s, r) := controlValves sd ui sr in
  let r := controlHeaters (outdoor (temps sd)) r in
  let r := applyCurrentAndVibrationMonitoring sd r in
  let r := updateControlResultSummary r stagingDecision sd in
  (r, s).

(** [processCoolingTowerControl]: the returned command snapshot and the
    state storage after the call.  No statement of the body throws on the
    inputs of this model (the PID calls have handlers of their own), so the
    outer handler is not reached. *)
Definition processCoolingTowerControl (now : Z) (data : SensorInput)
           (ui : UiCommands) (stateStorage : StateStorage)
  : ControlResult * State :=
  let s := initializeState now stateStorage in
  let '(sensorData, lg) := parseSensorData data (lastGoodTemps s) in
  let s := set_lastGoodTemps lg s in
  let controlResult := initializeControlResult now sensorData in
  let '(safe, controlResult) := performSafetyChecks sensorData controlResult in
  if negb safe then (controlResult, s)
  else
    let controlResult := applyManualOverrides ui controlResult in
    if negb (systemEnabled controlResult)
       || negb (String.eqb (controlMode controlResult) "auto")
    then (controlResult, s)
    else automatic_control now sensorData ui (s, controlResult).

End Engine.

(** * The legacy variant (module CoolingTowerLogic, version 1.1.0)

    The legacy [processCoolingTowerControl] is a single function body.  Four
    of its blocks are embedded here, each as a function from the variables
    the block reads to the variables it writes: the safety checks, the pump
    control, the speed ramp of a lag tower, and the valve control with the
    manual valve overrides that follow it.  The configuration switches, the
    parsed readings and the equipment strings are those of the optimized
    variant. *)

Module Legacy.

Definition VFD_HIGH_SPEED : Q := 4.8.
Definition VFD_RAMP_STEP_DELAY : Z := 15000.
Definition VFD_RAMP_DOWN_DELAY : Z := 20000.

(** *** Safety checks *)

(** [faultConditions] as the checks push it: vibration of towers 1 to 3,
    then one VFD fault per tower when either of its legs is above the limit,
    then the pumps.  The emergency-stop, water-level and VFD-fault checks
    push nothing. *)
Definition faultConditions (cfg : Config) (sd : SensorData) : list string :=
  let c := vfdCurrents sd in
  (if BYPASS_VIBRATION_LIMITS cfg then []
   else
     push_if (Qgtb (p1 (vibration sd)) VIBRATION_CRITICAL_LIMIT) (vibration_fault One) ++
     push_if (Qgtb (p2 (vibration sd)) VIBRATION_CRITICAL_LIMIT) (vibration_fault Two) ++
     push_if (Qgtb (p3 (vibration sd)) VIBRATION_CRITICAL_LIMIT) (vibration_fault Three)) ++
  (if BYPASS_CURRENT_LIMITS cfg then []
   else
     push_if (Qgtb (tower1A c) VFD_CURRENT_CRITICAL
              || Qgtb (tower1B c) VFD_CURRENT_CRITICAL) (vfd_fault One) ++
     push_if (Qgtb (tower2A c) VFD_CURRENT_CRITICAL
              || Qgtb (tower2B c) VFD_CURRENT_CRITICAL) (vfd_fault Two) ++
     push_if (Qgtb (tower3A c) VFD_CURRENT_CRITICAL
              || Qgtb (tower3B c) VFD_CURRENT_CRITICAL) (vfd_fault Three) ++
     push_if (Qgtb (p1 (pumpCurrents sd)) PUMP_CURRENT_MAX) (pump_fault One) ++
     push_if (Qgtb (p2 (pumpCurrents sd)) PUMP_CURRENT_MAX) (pump_fault Two) ++
     push_if (Qgtb (p3 (pumpCurrents sd)) PUMP_CURRENT_MAX) (pump_fault Three)).

Definition safetyBypasses (cfg : Config) : list string :=
  push_if (BYPASS_EMERGENCY_STOP cfg) "EMERGENCY_STOP_BYPASSED" ++
  push_if (BYPASS_WATER_LEVEL cfg) "WATER_LEVEL_BYPASSED" ++
  push_if (BYPASS_VIBRATION_LIMITS cfg) "VIBRATION_LIMITS_BYPASSED" ++
  push_if (BYPASS_CURRENT_LIMITS cfg) "CURRENT_LIMITS_BYPASSED" ++
  push_if (BYPASS_VFD_FAULTS cfg) "VFD_FAULTS_BYPASSED".

(** *** Pump control *)

(** [stateStorage.pumpRotation].  [newPump] holds 0 until the first
    changeover; it is read only while a changeover is in progress, and every
    statement that starts one writes it first. *)
Record PumpRotation : Type := mkPumpRotation {
  activePump : Idx;
  lastRotationTime : Z;
  pumpRuntime : Per3 Q;
  changeoverInProgress : bool;
  changeoverStartTime : Z;
  newPump : Idx;
  failoverCount : Z;
  lastFailoverTime : Z
}.

Definition record_failover (currentTime : Z) (pr : PumpRotation) : PumpRotation :=
  mkPumpRotation (activePump pr) (lastRotationTime pr) (pumpRuntime pr)
                 (changeoverInProgress pr) (changeoverStartTime pr) (newPump pr)
                 (failoverCount pr + 1) currentTime.

Definition start_changeover (nextPump : Idx) (currentTime : Z) (pr : PumpRotation)
  : PumpRotation :=
  mkPumpRotation (activePump pr) (lastRotationTime pr) (pumpRuntime pr)
                 true currentTime nextPump
                 (failoverCount pr) (lastFailoverTime pr).

Definition set_lastRotationTime (t : Z) (pr : PumpRotation) : PumpRotation :=
  mkPumpRotation (activePump pr) t (pumpRuntime pr)
                 (changeoverInProgress pr) (changeoverStartTime pr) (newPump pr)
                 (failoverCount pr) (lastFailoverTime pr).

Definition complete_changeover (pr : PumpRotation) : PumpRotation :=
  mkPumpRotation (newPump pr) (lastRotationTime pr) (pumpRuntime pr)
                 false (changeoverStartTime pr) (newPump pr)
                 (failoverCount pr) (lastFailoverTime pr).

Definition add_runtime (i : Idx) (h : Q) (pr : PumpRotation) : PumpRotation :=
  mkPumpRotation (activePump pr) (lastRotationTime pr)
                 (set3 i (get3 i (pumpRuntime pr) + h) (pumpRuntime pr))
                 (changeoverInProgress pr) (changeoverStartTime pr) (newPump pr)
                 (failoverCount pr) (lastFailoverTime pr).

(** The pump block of the automatic control logic, from the reset of the
    three pump enables to the enable of the active pump.  [pumpCurrent] holds
    [controlResult.pump1Current] to [pump3Current]; the result is the pump
    rotation state and the three pump enables.  [activePump] and
    [changeoverInProgress] are read into locals at the start of the block;
    the local [changeoverInProgress] is not written again. *)
Definition pump_control (cfg : Config) (now : Z) (pumpCurrent : Per3 Q)
           (pr : PumpRotation) : PumpRotation * Per3 bool :=
  let pumpEnable : Per3 bool := all3 false in
  if BYPASS_PUMP_STATUS cfg then (pr, pumpEnable)
  else
    let currentTime := now in
    let CHANGEOVER_OVERLAP_MS := 5000%Z in
    let activePump0 := activePump pr in
    let changeoverInProgress0 := changeoverInProgress pr in
    let activePumpCurrent := num_or (get3 activePump0 pumpCurrent) 0 in
    let activePumpEnabled := get3 activePump0 pumpEnable in
    let pumpFailure :=
      activePumpEnabled && Qltb activePumpCurrent 10.0
      && (currentTime - lastFailoverTime pr >? 30000)%Z in
    let pr :=
      if pumpFailure then
        let pr := record_failover currentTime pr in
        let nextPump := scan_next (fun i => get3 i (PUMP_AVAILABLE cfg)) 2 activePump0 in
        if get3 nextPump (PUMP_AVAILABLE cfg)
        then start_changeover nextPump currentTime pr
        else pr
      else pr in
    let timeSinceRotation := (currentTime - lastRotationTime pr)%Z in
    let pr :=
      if (timeSinceRotation >=? WEEK_IN_MS)%Z && negb changeoverInProgress0 then
        let nextPump := scan_next (fun i => get3 i (PUMP_AVAILABLE cfg)) 2 activePump0 in
        if get3 nextPump (PUMP_AVAILABLE cfg) && negb (Idx_eqb nextPump activePump0)
        then set_lastRotationTime currentTime
               (start_changeover nextPump currentTime pr)
        else pr
      else pr in
    let '(pr, pumpEnable, activePump1) :=
      if changeoverInProgress0 then
        let changeoverElapsed := (currentTime - changeoverStartTime pr)%Z in
        if (changeoverElapsed <? CHANGEOVER_OVERLAP_MS)%Z then
          (pr, set3 (newPump pr) true (set3 activePump0 true pumpEnable), activePump0)
        else
          (complete_changeover pr, pumpEnable, newPump pr)
      else (pr, pumpEnable, activePump0) in
    if negb changeoverInProgress0 then
      let runtimeIncrement := 7 / 3600000 in
      (add_runtime activePump1 runtimeIncrement pr, set3 activePump1 true pumpEnable)
    else (pr, pumpEnable).

(** *** The speed ramp of a lag tower *)

(** An entry of [stateStorage.towerStaging.vfdRampTimers]. *)
Record RampTimer : Type := mkRampTimer {
  lastChange : Z;
  currentSpeed : Q
}.

(** The target speed of a lag tower from the cooling demand. *)
Definition lag_target_speed (coolingDemand : Q) : Q :=
  if Qleb coolingDemand 28 then VFD_MIN_SPEED
  else
    let scaledDemand := (coolingDemand - 28) / 72 in
    Math_min (2.8 + scaledDemand * 2.15) VFD_HIGH_SPEED.

(** The ramp of a lag tower (the blocks of lag tower 1 and of lag tower 2 are
    the same code): [fanSpeed] is the tower's fan speed in [controlResult]
    when the block starts, [timer] its entry of [vfdRampTimers] if there is
    one.  The result is the fan speed written to [controlResult] and the
    entry after the block. *)
Definition lag_tower_ramp (now : Z) (coolingDemand : Q) (fanSpeed : Q)
           (timer : option RampTimer) : Q * RampTimer :=
  let lagTargetSpeed := lag_target_speed coolingDemand in
  let lagCurrentSpeed := num_or fanSpeed 0 in
  let rampTimer :=
    match timer with
    | Some t => t
    | None => mkRampTimer 0 lagCurrentSpeed
    end in
  let rampTimer :=
    if Qeq_bool (currentSpeed rampTimer) 0
       || Qltb (currentSpeed rampTimer) VFD_MIN_SPEED
    then mkRampTimer now VFD_MIN_SPEED
    else rampTimer in
  let timeSinceLastChange := (now - lastChange rampTimer)%Z in
  let rampDelay :=
    if Qgtb lagTargetSpeed (currentSpeed rampTimer)
    then VFD_RAMP_STEP_DELAY else VFD_RAMP_DOWN_DELAY in
  if (timeSinceLastChange >=? rampDelay)%Z then
    if Qgtb (Math_abs (lagTargetSpeed - currentSpeed rampTimer)) 0.1 then
      let step := if Qgtb lagTargetSpeed (currentSpeed rampTimer)
                  then 0.3 else - (0.3) in
      let newSpeed := currentSpeed rampTimer + step in
      if (Qgtb step 0 && Qgtb newSpeed lagTargetSpeed)
         || (Qltb step 0 && Qltb newSpeed lagTargetSpeed)
      then (lagTargetSpeed, mkRampTimer now lagTargetSpeed)
      else (newSpeed, mkRampTimer now newSpeed)
    else (lagTargetSpeed, mkRampTimer (lastChange rampTimer) lagTargetSpeed)
  else (currentSpeed rampTimer, rampTimer).

(** *** Valve control and the manual valve overrides *)

(** The PID library as the legacy valve block uses it: a call answers with an
    output and a state object ([pidResult.pidState]), or throws; the state
    object it was handed may have been mutated. *)
Definition PidFn : Type := PidCall -> PidState -> option (Q * PidState) * PidState.

(** The valve block.  [temperingValvePosition] is the tempering command in
    [controlResult] when the block starts.  The result is the bypass command,
    the tempering command and the valve PID state after the block; [None]
    when the PID call throws, which leaves the function through its handler.
    The first condition of the cold-weather chain tests the PID library last
    and the second tests it first: here the library is matched once. *)
Definition valve_control (pid : option PidFn) (ui : UiCommands)
           (outdoorTemp heatPumpSupplyTemp heatPumpReturnTemp : Q)
           (systemEnabled : bool) (temperingValvePosition : Q)
           (valvePidState : PidState) : option (Q * Q * PidState) :=
  let bypassPosition := 2.0 in
  let manualOverride :=
    is_some (ui_bypassValvePosition ui) || is_some (ui_temperingValvePosition ui) in
  let block : option (Q * Q * PidState) :=
    if Qltb outdoorTemp 42 then
      match pid with
      | Some f =>
          if negb manualOverride && systemEnabled then
            let hpLoopTemp := (heatPumpSupplyTemp + heatPumpReturnTemp) / 2 in
            match f (valve_pid_call hpLoopTemp) valvePidState with
            | (Some (output, resultState), handed) =>
                let temperingPosition := output in
                let temperingPosition :=
                  if Qltb outdoorTemp 35 then Math_max temperingPosition 6.8
                  else if Qltb outdoorTemp 40 then Math_max temperingPosition 5.2
                  else temperingPosition in
                let bypassPosition := 2.0 in
                let lastTempering := num_or (lastOutput handed) 5.0 in
                let maxChange := 0.4 in
                let temperingPosition :=
                  if Qgtb (Math_abs (temperingPosition - lastTempering)) maxChange
                  then lastTempering +
                       (if Qgtb temperingPosition lastTempering
                        then maxChange else - maxChange)
                  else temperingPosition in
                Some (bypassPosition, temperingPosition,
                      mkPidState (integral resultState) (previousError resultState)
                                 temperingPosition)
            | (None, _) => None
            end
          else if negb systemEnabled then
            Some (2.0, 6.0, valvePidState)
          else Some (bypassPosition, temperingValvePosition, valvePidState)
      | None =>
          Some (2.0, (if Qltb outdoorTemp 35 then 7.6 else 6.0), valvePidState)
      end
    else
      Some (2.0, 2.0, mkPidState 0 (previousError valvePidState) 2.0) in
  match block with
  | Some (bypassPosition, tempering, st) =>
      Some (clamp_valve bypassPosition, clamp_valve tempering, st)
  | None => None
  end.

(** The manual valve overrides, applied to the two valve commands after the
    heater control, the monitoring and the tower overrides, none of which
    writes a valve command. *)
Definition valve_overrides (ui : UiCommands) (commands : Q * Q) : Q * Q :=
  let bypass :=
    match ui_bypassValvePosition ui with
    | Some v => clamp_valve v
    | None => fst commands
    end in
  let tempering :=
    match ui_temperingValvePosition ui with
    | Some v => clamp_valve v
    | None => snd commands
    end in
  (bypass, tempering).

End Legacy.

(** * The trend graph (component TrendGraph)

    The state updaters of the trend graph that do not touch the network: the
    navigation through the vibration sensors and the graph types, and the
    window of vibration points. *)

Module TrendGraph.

(** [handleNextSensor] and [handlePrevSensor] on [selectedSensorIndex];
    [sensors] is [vibrationSensors.length].  [%] is the remainder of
    JavaScript, whose sign is that of the dividend. *)
Definition handleNextSensor (sensors : Z) (selectedSensorIndex : Z) : Z :=
  if (sensors >? 0)%Z then Z.rem (selectedSensorIndex + 1) sensors
  else selectedSensorIndex.

Definition handlePrevSensor (sensors : Z) (selectedSensorIndex : Z) : Z :=
  if (sensors >? 0)%Z then Z.rem (selectedSensorIndex - 1 + sensors) sensors
  else selectedSensorIndex.

Inductive GraphType : Type := temperature | amps | triacs | vibration.

Definition types : list GraphType := [temperature; amps; triacs; vibration].

Definition GraphType_eqb (a b : GraphType) : bool :=
  match a, b with
  | temperature, temperature | amps, amps | triacs, triacs
  | vibration, vibration => true
  | _, _ => false
  end.

(** [types.indexOf(graphType)]: the first position, -1 when absent. *)
Fixpoint indexOf_from (l : list GraphType) (g : GraphType) (k : Z) : Z :=
  match l with
  | [] => (-1)%Z
  | x :: rest => if GraphType_eqb x g then k else indexOf_from rest g (k + 1)
  end.

Definition indexOf (g : GraphType) : Z := indexOf_from types g 0.

(** [types[k]]; [None] is [undefined]. *)
Definition at_index (k : Z) : option GraphType :=
  if (k <? 0)%Z then None else nth_error types (Z.to_nat k).

Definition handleNextGraph (graphType : GraphType) : option GraphType :=
  let currentIndex := indexOf graphType in
  at_index (Z.rem (currentIndex + 1) (Z.of_nat (length types))).

Definition handlePrevGraph (graphType : GraphType) : option GraphType :=
  let currentIndex := indexOf graphType in
  at_index (Z.rem (currentIndex - 1 + Z.of_nat (length types))
                  (Z.of_nat (length types))).

(** [updated.slice(-maxPoints)] for a positive [maxPoints]. *)
Definition slice_last {A} (maxPoints : nat) (updated : list A) : list A :=
  skipn (length updated - maxPoints) updated.

(** The updater of [vibrationData]: the new point is appended and the last 50
    points are kept. *)
Definition append_vibration_point {A} (prevData : list A) (newPoint : A) : list A :=
  let updated := prevData ++ [newPoint] in
  let maxPoints := 50%nat in
  if (maxPoints <? length updated)%nat then slice_last maxPoints updated
  else updated.

End TrendGraph.

(** * Statements

    The definitions the properties are stated with: well-formedness of the
    carried state, the specification's wording of each component (to be
    compared with the embedding), per-tower views, and the concrete inputs of
    the scenarios. *)

(** ** Well-formed timestamps

    Timestamps come from [Date.now()] and are never zero.  The source tests
    them by truthiness in places and against [null] in others; the two tests
    agree on well-formed timers. *)

Definition timestamp_ok (t : option Z) : Prop :=
  match t with Some z => z <> 0%Z | None => True end.

Definition timers_ok (tw : Towers) : Prop :=
  forall i, timestamp_ok (startTime (get3 i (timers tw))).

(** ** Which path a tick takes *)

(** The sensor data a tick works with. *)
Definition sensors_of (now : Z) (data : SensorInput) (st : StateStorage) : SensorData :=
  fst (parseSensorData data (lastGoodTemps (initializeState now st))).

(** The state once the readings have been parsed. *)
Definition parsed_state (now : Z) (data : SensorInput) (st : StateStorage) : State :=
  set_lastGoodTemps (snd (parseSensorData data (lastGoodTemps (initializeState now st))))
                    (initializeState now st).

(** The command snapshot when the safety gate has passed. *)
Definition passed_result (cfg : Config) (now : Z) (sd : SensorData)
  : ControlResult :=
  set_safetyBypasses (bypass_list cfg)
    (set_faultConditions [] (initializeControlResult now sd)).

(** A critical fault condition holds: a tower vibration above 7.1 mm/s, a
    VFD leg current above 45 A or a pump current above 45 A, its bypass
    switch being off.  The condition is stated on the parsed readings
    themselves: the three vibration levels, the six VFD leg currents and the
    three pump currents. *)
Definition critical_condition (cfg : Config) (sd : SensorData) : Prop :=
  (BYPASS_VIBRATION_LIMITS cfg = false /\
   (VIBRATION_CRITICAL_LIMIT < p1 (vibration sd) \/
    VIBRATION_CRITICAL_LIMIT < p2 (vibration sd) \/
    VIBRATION_CRITICAL_LIMIT < p3 (vibration sd))) \/
  (BYPASS_CURRENT_LIMITS cfg = false /\
   ((VFD_CURRENT_CRITICAL < tower1A (vfdCurrents sd) \/
     VFD_CURRENT_CRITICAL < tower1B (vfdCurrents sd) \/
     VFD_CURRENT_CRITICAL < tower2A (vfdCurrents sd) \/
     VFD_CURRENT_CRITICAL < tower2B (vfdCurrents sd) \/
     VFD_CURRENT_CRITICAL < tower3A (vfdCurrents sd) \/
     VFD_CURRENT_CRITICAL < tower3B (vfdCurrents sd)) \/
    (PUMP_CURRENT_MAX < p1 (pumpCurrents sd) \/
     PUMP_CURRENT_MAX < p2 (pumpCurrents sd) \/
     PUMP_CURRENT_MAX < p3 (pumpCurrents sd)))).

(** The UI leaves the engine in automatic mode. *)
Definition auto_mode (ui : UiCommands) : Prop :=
  ui_systemEnabled ui <> Some false /\
  (ui_controlMode ui = None \/ ui_controlMode ui = Some "auto"%string).

(** The UI disables the system or selects another mode. *)
Definition manual_mode (ui : UiCommands) : Prop :=
  ui_systemEnabled ui = Some false \/
  (exists m, ui_controlMode ui = Some m /\ m <> "auto"%string).

(** A snapshot without any reading: every value takes its default. *)
Definition all_absent : SensorInput :=
  mkInput Absent Absent Absent Absent Absent Absent
          Absent Absent Absent Absent Absent Absent Absent
          Absent Absent Absent Absent Absent Absent.

(** ** One tower seen through the state and the command snapshot *)

Record TowerView : Type := mkView {
  v_timer : Timer;
  v_enable : bool;
  v_speed : Q;
  v_open : bool;
  v_close : bool
}.

Definition tower_view (i : Idx) (sr : State * ControlResult) : TowerView :=
  mkView (get3 i (timers (towers (fst sr))))
         (get3 i (towerVFDEnable (snd sr)))
         (get3 i (towerFanSpeed (snd sr)))
         (get3 i (towerIsolationValveOpen (snd sr)))
         (get3 i (towerIsolationValveClose (snd sr))).

(** A tower forced ON: enable asserted, speed at V_min, valve open, valve
    close cleared. *)
Definition forced_on (v : TowerView) : Prop :=
  v_enable v = true /\ v_speed v = VFD_MIN_SPEED /\
  v_open v = true /\ v_close v = false.

(** What one pass of the runtime enforcer does to the tower it visits
    (proved of [enforce_tower] below). *)
Definition enforce_view (now : Z) (sd : SensorData) (v : TowerView) : TowerView :=
  match startTime (v_timer v) with
  | Some t0 =>
      if truthy (Some t0) && negb (v_enable v) then
        if Qltb (seconds_since now t0) 420
        then mkView (v_timer v) true VFD_MIN_SPEED true false
        else if Qltb (hpSupply (temps sd) - targetSetpoint sd) (-10)
        then mkView (mkTimer None (Some now)) (v_enable v) (v_speed v)
                    (v_open v) (v_close v)
        else mkView (v_timer v) true VFD_MIN_SPEED true false
      else v
  | None => v
  end.

(** What the tower commander and the runtime enforcer leave alone. *)
Definition outside_towers (sr sr' : State * ControlResult) : Prop :=
  pumps (fst sr') = pumps (fst sr) /\
  valve_pid (pidStates (fst sr')) = valve_pid (pidStates (fst sr)) /\
  lastGoodTemps (fst sr') = lastGoodTemps (fst sr) /\
  leadTower (towers (fst sr')) = leadTower (towers (fst sr)) /\
  pumpEnable (snd sr') = pumpEnable (snd sr) /\
  towerHeaterEnable (snd sr') = towerHeaterEnable (snd sr) /\
  bypassValvePosition (snd sr') = bypassValvePosition (snd sr) /\
  temperingValvePosition (snd sr') = temperingValvePosition (snd sr) /\
  systemEnabled (snd sr') = systemEnabled (snd sr).

(** What a state update of the tower commander leaves alone. *)
Definition outside_towers_state (s s' : State) : Prop :=
  pumps s' = pumps s /\
  valve_pid (pidStates s') = valve_pid (pidStates s) /\
  lastGoodTemps s' = lastGoodTemps s /\
  leadTower (towers s') = leadTower (towers s).

(** A fan speed the summary pass leaves alone: not strictly between 0 and
    V_min. *)
Definition speed_ok (v : Q) : Prop :=
  Qgtb v 0 && Qltb v VFD_MIN_SPEED = false.

Definition speeds_ok (r : ControlResult) : Prop :=
  forall i, speed_ok (get3 i (towerFanSpeed r)).

(** ** The safety gate (C1) *)

(** Tower 1 vibrates at 8 mm/s. *)
Definition vibrating_input : SensorInput :=
  mkInput Absent Absent Absent Absent Absent Absent
          Absent Absent Absent Absent Absent Absent Absent
          (RawNum 8) Absent Absent Absent Absent Absent.



(** ** Minimum runtime hold (C2) *)

(** Invariant 5: every tower whose carried start time is set and younger
    than 420 s is commanded ON at the end of the tick.  The carried start
    time is read in the state the tick leaves behind or in the state it was
    handed. *)
Definition minimum_runtime_invariant (cfg : Config) (pid : option PidFn)
           (now : Z) (data : SensorInput) (ui : UiCommands) (st : StateStorage)
  : Prop :=
  let out := processCoolingTowerControl cfg pid now data ui st in
  forall i t0,
    startTime (get3 i (timers (towers (snd out)))) = Some t0 \/
    startTime (get3 i (timers (towers (initializeState now st)))) = Some t0 ->
    t0 <> 0%Z ->
    (now - t0 < 420 * 1000)%Z ->
    get3 i (towerVFDEnable (fst out)) = true.

(** Tower 1 started 100 s before tick time 1000000. *)
Definition running_storage : StateStorage :=
  mkStorage (Some (mkTowers One 900000 (all3 0)
                            (mk3 (mkTimer (Some 900000%Z) None) (mkTimer None None)
                                 (mkTimer None None))
                            (all3 (mkRamp 0 0 0))))
            None None None.

(** ** The staging decider (C3) *)

(** The decision table as the specification words it. *)

Definition clamp (x lo hi : Q) : Q :=
  if Qlt_le_dec x lo then lo
  else if Qlt_le_dec hi x then hi
  else x.

(** Number of towers whose [start_time] is set. *)
Definition running_count (tw : Towers) : Z :=
  Z.of_nat (List.length
              (filter (fun i => not_null (startTime (get3 i (timers tw)))) all_idx)).

(** The comparisons of the table, decided on the rationals. *)
Definition below (x y : Q) : bool := if Qlt_le_dec x y then true else false.

Definition at_least (x y : Q) : bool := if Qlt_le_dec x y then false else true.

(** Demanded towers and demand percentage, rows read top-down. *)
Definition staging_table (HP_supply setpoint tower_supply : Q) (running : Z)
  : Z * Q :=
  let dT := HP_supply - setpoint in
  if below dT (-15) || below HP_supply 65 || below tower_supply 50
  then (0%Z, 0)
  else if (0 <? running)%Z && at_least dT (-5)
  then (Z.max 1 running, clamp (28 + 3 * dT) 28 100)
  else if at_least dT 35 then (3%Z, 100)
  else if at_least dT 30 then (3%Z, 75)
  else if at_least dT 20 then (2%Z, 60)
  else if at_least dT 10 then (1%Z, clamp (28 + 2 * (dT - 10)) 28 50)
  else (0%Z, 0).

(** Tower 1 running, HP supply 80 °F against a setpoint of 75 °F. *)
Definition staging_example_towers : Towers :=
  mkTowers One 1000 (all3 0)
           (mk3 (mkTimer (Some 1000%Z) None) (mkTimer None None) (mkTimer None None))
           (all3 (mkRamp 0 0 0)).

Definition staging_example_sensors : SensorData :=
  mkSensorData (mkVfd 0 0 0 0 0 0) (all3 0) (mkTemps 80 85 85 80 75) (all3 0) 75.

(** ** The runtime enforcer (C4) *)

(** The runtime enforcer as the specification words it, for tower [i] with a
    start time [t0] that the commander left disabled. *)
Definition enforcer_as_specified (now : Z) (sd : SensorData) (i : Idx)
           (sr : State * ControlResult) : Prop :=
  forall t0,
    startTime (v_timer (tower_view i sr)) = Some t0 -> t0 <> 0%Z ->
    v_enable (tower_view i sr) = false ->
    let v' := tower_view i (enforceMinimumRuntimes now sd sr) in
    let dT := hpSupply (temps sd) - targetSetpoint sd in
    ((now - t0 < 420 * 1000)%Z -> forced_on v') /\
    ((420 * 1000 <= now - t0)%Z -> dT < -10 \/ hpSupply (temps sd) < 65 ->
     startTime (v_timer v') = None /\ stopTime (v_timer v') = Some now) /\
    ((420 * 1000 <= now - t0)%Z -> ~ (dT < -10 \/ hpSupply (temps sd) < 65) ->
     startTime (v_timer v') = None /\ forced_on v').

(** Tower 1 started 500 s before tick time 1500000, the commander left it
    off, HP supply at the setpoint of 75 °F. *)
Definition enforcer_example_state : State :=
  mkState (mkTowers One 1000000 (all3 0)
                    (mk3 (mkTimer (Some 1000000%Z) None) (mkTimer None None)
                         (mkTimer None None))
                    (all3 (mkRamp 0 0 0)))
          (default_pumps 1000000) default_pidStates default_lastGoodTemps.

Definition enforcer_example_sensors : SensorData :=
  mkSensorData (mkVfd 0 0 0 0 0 0) (all3 0) (mkTemps 80 85 85 75 75) (all3 0) 75.

Definition enforcer_example_result : ControlResult :=
  for_each_idx reset_tower (initializeControlResult 1500000 enforcer_example_sensors).

(** ** Pump failover (C5) *)

(** The failover scenario: pump 1 active and reading 2 A, last failover 60 s
    ago, three ticks 6 s apart. *)
Definition failover_T0 : Z := 1700000000000.

Definition failover_input : SensorInput :=
  mkInput Absent Absent Absent Absent Absent Absent
          Absent Absent Absent Absent (RawNum 2) Absent Absent
          Absent Absent Absent Absent Absent Absent.

Definition failover_pumps : Pumps :=
  mkPumps One failover_T0 (all3 0) None 0 (failover_T0 - 60000).

Definition failover_storage : StateStorage :=
  mkStorage None (Some failover_pumps) None None.

Definition failover_tick1 : ControlResult * State :=
  processCoolingTowerControl ALL_AVAILABLE_CONFIG None failover_T0
    failover_input no_ui failover_storage.

Definition failover_tick2 : ControlResult * State :=
  processCoolingTowerControl ALL_AVAILABLE_CONFIG None (failover_T0 + 6000)
    failover_input no_ui (storage_of (snd failover_tick1)).

Definition failover_tick3 : ControlResult * State :=
  processCoolingTowerControl ALL_AVAILABLE_CONFIG None (failover_T0 + 12000)
    failover_input no_ui (storage_of (snd failover_tick2)).

(** The scenario as the specification expects it. *)
Definition failover_as_specified : Prop :=
  changeoverState (pumps (snd failover_tick1))
  = Some (mkChangeover Two failover_T0) /\
  (p1 (pumpEnable (fst failover_tick1)) = true /\
   p2 (pumpEnable (fst failover_tick1)) = true) /\
  (p1 (pumpEnable (fst failover_tick2)) = true /\
   p2 (pumpEnable (fst failover_tick2)) = true) /\
  pumpEnable (fst failover_tick3) = mk3 false true false /\
  activePump (pumps (snd failover_tick3)) = Two.

(** ** The VFD ramp filter (C6) *)

(** The ramp filter as the specification words it: a step of at most 0.3 V,
    taken only once [ramp_delay] has elapsed since the last change, where the
    delay is 15 s upwards and 20 s downwards. *)
Definition ramp_as_specified (now : Z) (target : Q) (rs : Ramp) : Prop :=
  let rs' := snd (applySpeedRamping now target rs) in
  let ramp_delay := if Qltb target (currentSpeed rs) then 20000%Z else 15000%Z in
  Qabs (currentSpeed rs' - currentSpeed rs) <= 0.3 /\
  ((now - lastChange rs < ramp_delay)%Z -> currentSpeed rs' == currentSpeed rs).

(** ** The sensor sanitizer (C7) *)

Definition in_range (x : Q) : Prop := 40 <= x /\ x <= 120.

(** The four loop temperatures, each with its last-good entry. *)
Definition loop_keys : list ((Temps -> Q) * (LastGood -> Q)) :=
  [(towerSupply, lg_towerSupply); (towerReturn, lg_towerReturn);
   (hpReturn, lg_hpReturn); (hpSupply, lg_hpSupply)].

(** Every last-good entry is a nonzero number: true of the initial store and
    kept by the sanitizer. *)
Definition lastgood_ok (lg : LastGood) : Prop :=
  Forall (fun k => ~ snd k lg == 0) loop_keys.

(** The initial last-good values as the specification gives them. *)
Definition specified_lastGood : LastGood := mkLastGood 75 85 85 75.

(** A snapshot whose tower-supply (CH10) and tower-return (CH9) readings are
    out of range. *)
Definition bad_tower_temps : SensorInput :=
  mkInput Absent Absent Absent Absent Absent Absent
          Absent Absent Absent Absent Absent (RawNum 200) (RawNum 200)
          Absent Absent Absent Absent Absent Absent.

(** ** UI valve overrides (C8) *)

(** The operator asks for the bypass valve at 5 V and leaves the tempering
    valve alone. *)
Definition bypass_only_ui : UiCommands :=
  mkUi None None (all3 None) (all3 None) (all3 None) (Some 5) None.

(** ** Heater hysteresis (C9) *)

(** Outdoor temperature [t], pump 1 drawing 20 A, everything else at its
    default. *)
Definition outdoor_input (t : Q) : SensorInput :=
  mkInput Absent Absent Absent Absent Absent Absent
          Absent Absent Absent Absent (RawNum 20) Absent Absent
          Absent Absent Absent (RawNum t) Absent Absent.

(** ** Manual mode (C10) *)

(** The manual-mode output as stated: heaters off without exception. *)
Definition manual_output_as_specified (cfg : Config) (pid : option PidFn)
           (now : Z) (data : SensorInput) (ui : UiCommands) (st : StateStorage)
  : Prop :=
  let out := processCoolingTowerControl cfg pid now data ui st in
  let r := fst out in
  pumpEnable r = all3 false /\
  (forall i, get3 i (towerVFDEnable r)
             = or_default (get3 i (ui_towerVFDEnable ui)) false) /\
  (forall i, get3 i (towerFanSpeed r)
             = or_default (get3 i (ui_towerFanSpeed ui)) 0) /\
  bypassValvePosition r = 2.0 /\ temperingValvePosition r = 2.0 /\
  towerHeaterEnable r = all3 false.

(** The system is disabled and the operator switches the heater of tower 1
    on. *)
Definition heater_override_ui : UiCommands :=
  mkUi (Some false) None (all3 None) (all3 None) (mk3 (Some true) None None)
       None None.

(** ** The command of one tower at the end of a tick *)

(** The tower is commanded off: VFD disabled, speed reference 0 V, isolation
    valve driven closed. *)
Definition tower_off (v : TowerView) : Prop :=
  v_enable v = false /\ v_speed v = 0 /\ v_open v = false /\ v_close v = true.

(** The tower is commanded on: VFD enabled, speed reference between V_min and
    V_max, isolation valve driven open. *)
Definition tower_running (v : TowerView) : Prop :=
  v_enable v = true /\
  VFD_MIN_SPEED <= v_speed v /\ v_speed v <= VFD_MAX_SPEED /\
  v_open v = true /\ v_close v = false.

(** The start time was written in this tick, or is set. *)
Definition started (now : Z) (t : option Z) : Prop :=
  t = Some now \/ truthy t = true.

(** Inside the first 420 s of a run the speed reference is V_min. *)
Definition startup_speed (now : Z) (v : TowerView) : Prop :=
  forall t0, startTime (v_timer v) = Some t0 -> t0 <> 0%Z ->
             (now - t0 < 420 * 1000)%Z -> v_speed v = VFD_MIN_SPEED.

(** What the tower commander and the runtime enforcer establish for every
    tower: off with no run timer, or on with one. *)
Definition tower_settled (now : Z) (v : TowerView) : Prop :=
  (tower_off v /\ truthy (startTime (v_timer v)) = false) \/
  (tower_running v /\ started now (startTime (v_timer v)) /\ startup_speed now v).

(** A speed reference after the current monitor: unchanged, or cut back to
    the low speed. *)
Definition cut_back (before after : Q) : Prop :=
  after = before \/ (after = VFD_LOW_SPEED /\ VFD_LOW_SPEED < before).

(** The current monitor leaves a tower as it was, its speed reference
    apart. *)
Definition view_cut_back (v v' : TowerView) : Prop :=
  v_timer v' = v_timer v /\ v_enable v' = v_enable v /\
  v_open v' = v_open v /\ v_close v' = v_close v /\
  cut_back (v_speed v) (v_speed v').

(** Tower [i] as a tick leaves it: its timer in the returned state and its
    commands in the returned snapshot. *)
Definition tick_view (cfg : Config) (pid : option PidFn) (now : Z)
           (data : SensorInput) (ui : UiCommands) (st : StateStorage) (i : Idx)
  : TowerView :=
  let out := processCoolingTowerControl cfg pid now data ui st in
  tower_view i (snd out, fst out).

(** The command snapshot of the emergency shutdown. *)
Definition shutdown_result (cfg : Config) (now : Z) (sd : SensorData)
  : ControlResult :=
  for_each_idx shutdown_tower
    (set_systemEnabled false
       (set_alarmStatus "critical"
          (set_safetyBypasses (bypass_list cfg)
             (set_faultConditions (critical_faults cfg sd)
                (initializeControlResult now sd))))).

(** The timer of tower [i] as the tick finds it. *)
Definition carried_timer (now : Z) (st : StateStorage) (i : Idx) : Timer :=
  get3 i (timers (towers (initializeState now st))).

(** Tower 1 was stopped 60 s before tick time 1000000. *)
Definition cooling_storage : StateStorage :=
  mkStorage (Some (mkTowers One 900000 (all3 0)
                            (mk3 (mkTimer None (Some 940000%Z)) (mkTimer None None)
                                 (mkTimer None None))
                            (all3 (mkRamp 0 0 0))))
            None None None.

(** The heat-pump supply reads 110 F against the default setpoint of 75 F:
    three towers are demanded. *)
Definition hot_input : SensorInput :=
  mkInput Absent Absent Absent Absent Absent Absent
          Absent (RawNum 110) Absent Absent Absent Absent Absent
          Absent Absent Absent Absent Absent Absent.

(** ** Alarms, heaters and valves at the end of a tick *)

(** What a tick reports: alarm status and fault list. *)
Definition reported (r : ControlResult) : string * list string :=
  (alarmStatus r, faultConditions r).

(** A reading sits in a warning band: a VFD leg current above 40 A and at
    most 45 A, or a tower vibration above 4.5 mm/s and at most 7.1 mm/s, its
    bypass switch being off. *)
Definition warning_condition (cfg : Config) (sd : SensorData) : Prop :=
  (BYPASS_CURRENT_LIMITS cfg = false /\
   exists l, In l (vfd_legs sd) /\
             VFD_CURRENT_WARNING < snd l /\ snd l <= VFD_CURRENT_CRITICAL) \/
  (BYPASS_VIBRATION_LIMITS cfg = false /\
   exists i, VIBRATION_WARNING_LIMIT < get3 i (vibration sd) /\
             get3 i (vibration sd) <= VIBRATION_CRITICAL_LIMIT).

(** The warnings of the VFD legs and of the vibration sensors, in the order
    the monitor pushes them. *)
Definition vfd_warnings (sd : SensorData) : list string :=
  flat_map (fun l => push_if (Qgtb (snd l) VFD_CURRENT_WARNING
                              && Qleb (snd l) VFD_CURRENT_CRITICAL)
                             (vfd_warning (fst l))) (vfd_legs sd).

Definition vibration_warnings (sd : SensorData) : list string :=
  flat_map (fun i => push_if (Qgtb (get3 i (vibration sd)) VIBRATION_WARNING_LIMIT
                              && Qleb (get3 i (vibration sd)) VIBRATION_CRITICAL_LIMIT)
                             (vibration_warning i)) all_idx.

Definition warnings (cfg : Config) (sd : SensorData) : list string :=
  (if BYPASS_CURRENT_LIMITS cfg then [] else vfd_warnings sd) ++
  (if BYPASS_VIBRATION_LIMITS cfg then [] else vibration_warnings sd).

(** The two valve commands. *)
Definition valves (r : ControlResult) : Q * Q :=
  (bypassValvePosition r, temperingValvePosition r).

(** Leg A of tower 1 draws 42 A; the heat-pump supply reads 110 F. *)
Definition warning_input : SensorInput :=
  mkInput (RawNum 42) Absent Absent Absent Absent Absent
          Absent (RawNum 110) Absent Absent Absent Absent Absent
          Absent Absent Absent Absent Absent Absent.

(** All heaters commanded on from the UI. *)
Definition heaters_on_ui : UiCommands :=
  mkUi None None (all3 None) (all3 None) (all3 (Some true)) None None.


(** A PID library that answers 10 V and writes its answer to [lastOutput] of
    the state object it was handed. *)
Definition writing_pid : PidFn :=
  fun _ ps => (PidOutput 10, mkPidState (integral ps) (previousError ps) 10).

(** ** The pump supervisor *)

(** The pump state a tick starts from. *)
Definition carried_pumps (now : Z) (st : StateStorage) : Pumps :=
  or_default (st_pumps st) (default_pumps now).

(** Pump 1 is active and hands over to pump 2; the changeover started 2 s
    before tick time 1000000. *)
Definition overlap_storage : StateStorage :=
  mkStorage None
            (Some (mkPumps One 900000 (all3 0) (Some (mkChangeover Two 998000))
                           0 998000))
            None None.

(** Pump 1 is active and draws 20 A. *)
Definition healthy_pump_input : SensorInput :=
  mkInput Absent Absent Absent Absent Absent Absent
          Absent Absent Absent Absent (RawNum 20) Absent Absent
          Absent Absent Absent Absent Absent Absent.

(** ** Staging, fallback speed and parsing *)

(** The towers in the order the commander takes them: the lead, then the
    next two in the cycle 1, 2, 3, 1. *)
Definition staging_cycle (lead : Idx) : list Idx :=
  [lead; next_idx lead; next_idx (next_idx lead)].

(** A raw reading that [parseFloat (v || d)] replaces by the default: the
    key is absent or holds the number zero. *)
Definition missing (v : Raw) : Prop :=
  match v with
  | Absent => True
  | RawNum q => q == 0
  | RawStr _ => False
  end.

(** * Properties *)

(** ** Comparisons and arithmetic helpers *)

Lemma Qltb_lt (x y : Q) : Qltb x y = true <-> x < y.
Proof.
  unfold Qltb. rewrite negb_true_iff.
  destruct (Qle_bool y x) eqn:E.
  - apply Qle_bool_iff in E. split; [discriminate | intro H; exfalso; lra].
  - split; [intros _ | reflexivity].
    destruct (Qlt_le_dec x y) as [H | H]; [exact H |].
    apply Qle_bool_iff in H. congruence.
Qed.

Lemma Qltb_ge (x y : Q) : Qltb x y = false <-> y <= x.
Proof.
  unfold Qltb. rewrite negb_false_iff. apply Qle_bool_iff.
Qed.

Lemma Qgtb_gt (x y : Q) : Qgtb x y = true <-> y < x.
Proof. apply Qltb_lt. Qed.

Lemma Qgtb_le (x y : Q) : Qgtb x y = false <-> x <= y.
Proof. apply Qltb_ge. Qed.

Lemma Qgeb_ge (x y : Q) : Qgeb x y = true <-> y <= x.
Proof. apply Qle_bool_iff. Qed.

Lemma Qgeb_lt (x y : Q) : Qgeb x y = false <-> x < y.
Proof.
  unfold Qgeb. destruct (Qle_bool y x) eqn:E.
  - apply Qle_bool_iff in E. split; [discriminate | intro; exfalso; lra].
  - split; [intros _ | reflexivity]. apply Qltb_lt. unfold Qltb. now rewrite E.
Qed.

Lemma Qleb_le (x y : Q) : Qleb x y = true <-> x <= y.
Proof. apply Qle_bool_iff. Qed.

Lemma Qleb_gt (x y : Q) : Qleb x y = false <-> y < x.
Proof. apply Qgeb_lt. Qed.

(** Turn every boolean comparison recorded in the context into its
    proposition. *)
Ltac qbool :=
  repeat match goal with
  | H : _ && _ = true |- _ => apply andb_true_iff in H; destruct H
  | H : _ || _ = false |- _ => apply orb_false_iff in H; destruct H
  | H : negb _ = true |- _ => apply negb_true_iff in H
  | H : negb _ = false |- _ => apply negb_false_iff in H
  | H : Qltb _ _ = true |- _ => apply Qltb_lt in H
  | H : Qltb _ _ = false |- _ => apply Qltb_ge in H
  | H : Qgtb _ _ = true |- _ => apply Qgtb_gt in H
  | H : Qgtb _ _ = false |- _ => apply Qgtb_le in H
  | H : Qgeb _ _ = true |- _ => apply Qgeb_ge in H
  | H : Qgeb _ _ = false |- _ => apply Qgeb_lt in H
  | H : Qleb _ _ = true |- _ => apply Qleb_le in H
  | H : Qleb _ _ = false |- _ => apply Qleb_gt in H
  | H : Qle_bool _ _ = true |- _ => apply Qle_bool_iff in H
  | H : Qle_bool _ _ = false |- _ => apply Qleb_gt in H
  | H : Qeq_bool _ _ = true |- _ => apply Qeq_bool_iff in H
  | H : Qeq_bool _ _ = false |- _ => apply Qeq_bool_neq in H
  end.

Lemma Math_max_spec (x y : Q) :
  (x <= y /\ Math_max x y = y) \/ (y < x /\ Math_max x y = x).
Proof.
  unfold Math_max. destruct (Qle_bool x y) eqn:E; qbool; auto.
Qed.

Lemma Math_min_spec (x y : Q) :
  (x <= y /\ Math_min x y = x) \/ (y < x /\ Math_min x y = y).
Proof.
  unfold Math_min. destruct (Qle_bool x y) eqn:E; qbool; auto.
Qed.

Lemma Math_abs_spec (x : Q) :
  (0 <= x /\ Math_abs x == x) \/ (x < 0 /\ Math_abs x == - x).
Proof.
  unfold Math_abs. destruct (Qlt_le_dec x 0) as [H | H].
  - right. split; [exact H |]. apply Qabs_neg. lra.
  - left. split; [exact H |]. apply Qabs_pos. exact H.
Qed.

Lemma Math_sign_spec (x : Q) :
  (0 < x /\ Math_sign x = 1) \/ (x < 0 /\ Math_sign x = -(1))
  \/ (x == 0 /\ Math_sign x = 0).
Proof.
  unfold Math_sign.
  destruct (Qltb 0 x) eqn:E1; [qbool; auto |].
  destruct (Qltb x 0) eqn:E2; qbool; [auto |].
  right. right. split; [lra | reflexivity].
Qed.

Lemma seconds_since_lt (now t : Z) (k : Z) :
  seconds_since now t < inject_Z k <-> (now - t < k * 1000)%Z.
Proof.
  unfold seconds_since.
  rewrite (Zlt_Qlt (now - t) (k * 1000)), inject_Z_mult.
  change (inject_Z 1000) with 1000.
  split; intro H.
  - assert (E : inject_Z (now - t) == inject_Z (now - t) / 1000 * 1000) by field.
    rewrite E. nra.
  - apply Qlt_shift_div_r; [reflexivity | exact H].
Qed.

Lemma get3_set3_same {A} (i : Idx) (v : A) (t : Per3 A) :
  get3 i (set3 i v t) = v.
Proof. destruct i; reflexivity. Qed.

Lemma get3_set3_other {A} (i j : Idx) (v : A) (t : Per3 A) :
  i <> j -> get3 j (set3 i v t) = get3 j t.
Proof. destruct i, j; intro H; try reflexivity; congruence. Qed.

Lemma get3_all3 {A} (i : Idx) (v : A) : get3 i (all3 v) = v.
Proof. destruct i; reflexivity. Qed.

(** ** Well-formed timestamps *)

Lemma truthy_not_null (t : option Z) :
  timestamp_ok t -> truthy t = not_null t.
Proof.
  destruct t as [z |]; simpl; [| reflexivity].
  intro H. apply Z.eqb_neq in H. now rewrite H.
Qed.

(** ** The staging decider (C3) *)

Section StagingTable.

Lemma below_Qltb (x y : Q) : Qltb x y = below x y.
Proof.
  unfold below. destruct (Qlt_le_dec x y); [apply Qltb_lt | apply Qltb_ge]; assumption.
Qed.

Lemma at_least_Qgeb (x y : Q) : Qgeb x y = at_least x y.
Proof.
  unfold at_least. destruct (Qlt_le_dec x y); [apply Qgeb_lt | apply Qgeb_ge]; assumption.
Qed.

Lemma at_least_compat (x y y' : Q) : y == y' -> at_least x y = at_least x y'.
Proof.
  intro E. unfold at_least.
  destruct (Qlt_le_dec x y); destruct (Qlt_le_dec x y'); try reflexivity; lra.
Qed.

Lemma clamp_compat (x y lo hi : Q) : x == y -> clamp x lo hi == clamp y lo hi.
Proof.
  intro E. unfold clamp.
  destruct (Qlt_le_dec x lo); destruct (Qlt_le_dec y lo); try lra;
    destruct (Qlt_le_dec hi x); destruct (Qlt_le_dec hi y); lra.
Qed.

Lemma clamp_max_min (x lo hi : Q) :
  lo <= hi -> Math_max lo (Math_min hi x) == clamp x lo hi.
Proof.
  intro Hle. unfold clamp.
  destruct (Math_min_spec hi x) as [[H1 E1] | [H1 E1]]; rewrite E1;
    destruct (Math_max_spec lo hi) as [[H2 E2] | [H2 E2]];
    destruct (Math_max_spec lo x) as [[H3 E3] | [H3 E3]];
    try rewrite E2; try rewrite E3;
    destruct (Qlt_le_dec x lo); destruct (Qlt_le_dec hi x); lra.
Qed.

Lemma running_count_code (tw : Towers) :
  timers_ok tw -> getCurrentlyRunningTowerCount tw = running_count tw.
Proof.
  intro H. unfold getCurrentlyRunningTowerCount, running_count.
  pose proof (H One) as H1. pose proof (H Two) as H2. pose proof (H Three) as H3.
  simpl in H1, H2, H3. simpl.
  rewrite (truthy_not_null _ H1), (truthy_not_null _ H2), (truthy_not_null _ H3).
  destruct (not_null (startTime (p1 (timers tw))));
    destruct (not_null (startTime (p2 (timers tw))));
    destruct (not_null (startTime (p3 (timers tw)))); reflexivity.
Qed.

Lemma any_running_code (tw : Towers) :
  isAnyTowerCurrentlyRunning tw = (0 <? running_count tw)%Z.
Proof.
  unfold isAnyTowerCurrentlyRunning, running_count. simpl.
  destruct (not_null (startTime (p1 (timers tw))));
    destruct (not_null (startTime (p2 (timers tw))));
    destruct (not_null (startTime (p3 (timers tw)))); reflexivity.
Qed.

(** C3.  The staging decider computes ΔT = HP_supply − setpoint and follows
    the decision table top-down: a cold shutdown row, the continuation row
    (a tower is running and ΔT ≥ −5: max(1, running count) towers at
    clamp(28 + 3·ΔT, 28, 100) percent), then the four stages and the
    default. *)
Theorem C3_staging_decision_table (sd : SensorData) (tw : Towers) :
  timers_ok tw ->
  let d := calculateStaging sd tw in
  let row := staging_table (hpSupply (temps sd)) (targetSetpoint sd)
                           (towerSupply (temps sd)) (running_count tw) in
  deltaT d = hpSupply (temps sd) - targetSetpoint sd /\
  demandedTowers d = fst row /\
  sd_coolingDemand d == snd row.
Proof.
  intros Hok d row. subst d row.
  unfold calculateStaging, staging_table.
  rewrite any_running_code, (running_count_code Hok).
  unfold STAGE_1_DELTA_T, STAGE_2_DELTA_T, STAGE_3_DELTA_T, STAGE_4_DELTA_T.
  rewrite !below_Qltb, !at_least_Qgeb.
  set (dT := hpSupply (temps sd) - targetSetpoint sd).
  rewrite (at_least_compat dT (y := 10.0) (y' := 10)) by reflexivity.
  rewrite (at_least_compat dT (y := 20.0) (y' := 20)) by reflexivity.
  rewrite (at_least_compat dT (y := 30.0) (y' := 30)) by reflexivity.
  rewrite (at_least_compat dT (y := 35.0) (y' := 35)) by reflexivity.
  destruct (below dT (-15) || below (hpSupply (temps sd)) 65
            || below (towerSupply (temps sd)) 50);
    [simpl; repeat split; reflexivity |].
  destruct ((0 <? running_count tw)%Z && at_least dT (-5)).
  { simpl. repeat split; try reflexivity.
    rewrite clamp_max_min by lra. apply clamp_compat. ring. }
  destruct (at_least dT 10) eqn:E10;
    [| destruct (at_least dT 35) eqn:E35, (at_least dT 30) eqn:E30,
                (at_least dT 20) eqn:E20;
       simpl; repeat split; try reflexivity;
       unfold at_least in *;
       repeat match goal with
              | H : context [Qlt_le_dec ?a ?b] |- _ => destruct (Qlt_le_dec a b)
              end; try discriminate; lra ].
  destruct (at_least dT 35); [simpl; repeat split; reflexivity |].
  destruct (at_least dT 30); [simpl; repeat split; reflexivity |].
  destruct (at_least dT 20); simpl; repeat split; try reflexivity.
  rewrite clamp_max_min by lra. apply clamp_compat. ring.
Qed.

End StagingTable.

Lemma C3_staging_witness :
  timers_ok staging_example_towers /\
  demandedTowers (calculateStaging staging_example_sensors staging_example_towers)
  = 1%Z.
Proof.
  assert (H : timers_ok staging_example_towers).
  { intro i. destruct i; simpl; [discriminate | exact I | exact I]. }
  split; [exact H |].
  destruct (C3_staging_decision_table staging_example_sensors H) as [_ [E _]].
  rewrite E. reflexivity.
Defined.

(** ** The VFD ramp filter (C6) *)

Section RampFilter.

(** Ramping down after 16 s: the source steps, the specified 20 s delay
    would hold the voltage. *)
Lemma C6_counterexample :
  ~ ramp_as_specified 116000 3.0 (mkRamp 4.0 4.0 100000).
Proof.
  unfold ramp_as_specified. intros [_ H].
  assert (L : (116000 - 100000 < 20000)%Z) by lia.
  specialize (H L). vm_compute in H. discriminate.
Qed.

(** C6, amended.  [applySpeedRamping] of the optimized variant, on an
    initialised ramp state (current voltage not 0).  When
    [now − last_change ≥ 15 s], in either direction, and the target is more
    than 0.1 V away, the filter takes a step: the voltage moves toward the
    target by the smaller of the distance and 0.3 V, and [last_change = now].
    Otherwise, before the 15 s have passed or within 0.1 V of the target, the
    prior voltage and stamp are kept.  The commanded speed is the filtered
    voltage clamped to [V_min, V_max]. *)
Theorem C6_ramp_filter (now : Z) (target : Q) (rs : Ramp) :
  ~ currentSpeed rs == 0 ->
  let out := applySpeedRamping now target rs in
  let rs' := snd out in
  Qabs (currentSpeed rs' - currentSpeed rs) <= 0.3 /\
  ((currentSpeed rs <= currentSpeed rs' /\ currentSpeed rs' <= target) \/
   (target <= currentSpeed rs' /\ currentSpeed rs' <= currentSpeed rs) \/
   currentSpeed rs' = currentSpeed rs) /\
  (~ currentSpeed rs' == currentSpeed rs ->
   (15000 <= now - lastChange rs)%Z /\ lastChange rs' = now) /\
  ((now - lastChange rs < 15000)%Z ->
   currentSpeed rs' = currentSpeed rs /\ lastChange rs' = lastChange rs) /\
  fst out = Math_max VFD_MIN_SPEED (Math_min VFD_MAX_SPEED (currentSpeed rs')) /\
  (Qabs (target - currentSpeed rs) <= 0.1 ->
   currentSpeed rs' = currentSpeed rs /\ lastChange rs' = lastChange rs) /\
  ((15000 <= now - lastChange rs)%Z ->
   0.1 < Qabs (target - currentSpeed rs) ->
   lastChange rs' = now /\
   ~ currentSpeed rs' == currentSpeed rs /\
   (Qabs (target - currentSpeed rs) <= 0.3 -> currentSpeed rs' == target) /\
   (0.3 < target - currentSpeed rs ->
    currentSpeed rs' == currentSpeed rs + 0.3) /\
   (0.3 < currentSpeed rs - target ->
    currentSpeed rs' == currentSpeed rs - 0.3)) /\
  targetSpeed rs' = target.
Proof.
  intros Hinit out rs'. subst out rs'.
  unfold applySpeedRamping.
  destruct (Qeq_bool (currentSpeed rs) 0) eqn:E0; [qbool; contradiction |].
  assert (Hsame : Qabs (currentSpeed rs - currentSpeed rs) <= 0.3).
  { setoid_replace (currentSpeed rs - currentSpeed rs) with 0 by ring.
    rewrite Qabs_pos; lra. }
  destruct (now - lastChange rs >=? 15000)%Z eqn:Et.
  - apply Z.geb_le in Et.
    destruct (Qgtb (Math_abs (target - currentSpeed rs)) 0.1) eqn:Ed;
      cbn [snd fst currentSpeed lastChange targetSpeed].
    + qbool. set (c := currentSpeed rs) in *.
      set (step := Math_sign (target - c) * Math_min (Math_abs (target - c)) 0.3).
      pose proof (Math_abs_spec (target - c)) as Ha.
      assert (Hstep : (0 < target - c /\
                       ((target - c <= 0.3 /\ step == target - c) \/
                        (0.3 < target - c /\ step == 0.3))) \/
                      (target - c < 0 /\
                       ((-(0.3) <= target - c /\ step == target - c) \/
                        (target - c < -(0.3) /\ step == -(0.3))))).
      { subst step.
        destruct Ha as [[Hs Ea] | [Hs Ea]];
          destruct (Math_sign_spec (target - c)) as [[Hg Es] | [[Hg Es] | [Hg Es]]];
          rewrite Es; try lra;
          destruct (Math_min_spec (Math_abs (target - c)) 0.3) as [[Hm Em] | [Hm Em]];
          rewrite Em; [left | left | right | right];
          (split; [lra |]); [left | right | left | right]; split; lra. }
      clearbody step. unfold Math_abs in *.
      set (a := Qabs (target - c)) in *. clearbody a.
      assert (Habs : Qabs (c + step - c) <= 0.3).
      { apply Qabs_Qle_condition.
        destruct Hstep as [[H [[H1 H2] | [H1 H2]]] | [H [[H1 H2] | [H1 H2]]]];
          lra. }
      split; [exact Habs |].
      split.
      { destruct Hstep as [[H [[H1 H2] | [H1 H2]]] | [H [[H1 H2] | [H1 H2]]]];
          [left | left | right; left | right; left]; lra. }
      split; [intros _; split; [lia | reflexivity] |].
      split; [intro; lia |].
      split; [reflexivity |].
      split; [intro H; exfalso; lra |].
      split; [| reflexivity].
      intros _ _. split; [reflexivity |].
      split.
      { destruct Hstep as [[H [[H1 H2] | [H1 H2]]] | [H [[H1 H2] | [H1 H2]]]];
          lra. }
      split; [| split]; intro Hd;
        destruct Ha as [[Hs Ea] | [Hs Ea]];
        destruct Hstep as [[H [[H1 H2] | [H1 H2]]] | [H [[H1 H2] | [H1 H2]]]];
        lra.
    + qbool.
      split; [exact Hsame |].
      split; [right; right; reflexivity |].
      split; [intro H; exfalso; apply H; reflexivity |].
      split; [intro; split; reflexivity |].
      split; [reflexivity |].
      split; [intro; split; reflexivity |].
      split; [| reflexivity].
      intros _ H. exfalso. unfold Math_abs in Ed. lra.
  - rewrite Z.geb_leb in Et. apply Z.leb_gt in Et.
    cbn [snd fst currentSpeed lastChange targetSpeed].
    split; [exact Hsame |].
    split; [right; right; reflexivity |].
    split; [intro H; exfalso; apply H; reflexivity |].
    split; [intro; split; reflexivity |].
    split; [reflexivity |].
    split; [intro; split; reflexivity |].
    split; [| reflexivity].
    intro H. exfalso. lia.
Qed.

(** A step up 15 s after the last change, from 2.6 V towards 4.0 V, lands
    on 2.9 V and renews the stamp. *)
Lemma C6_ramp_filter_witness :
  ~ 2.6 == 0 /\
  let rs' := snd (applySpeedRamping 20000 4.0 (mkRamp 2.6 2.6 5000)) in
  Qabs (currentSpeed rs' - 2.6) <= 0.3 /\
  currentSpeed rs' == 2.6 + 0.3 /\
  lastChange rs' = 20000%Z.
Proof.
  assert (H : ~ currentSpeed (mkRamp 2.6 2.6 5000) == 0) by (simpl; lra).
  split; [exact H |].
  pose proof (C6_ramp_filter 20000 4.0 (mkRamp 2.6 2.6 5000) H) as T.
  cbv zeta in T.
  destruct T as (T1 & _ & _ & _ & _ & _ & T7 & _).
  assert (Ht : (15000 <= 20000 - lastChange (mkRamp 2.6 2.6 5000))%Z)
    by (vm_compute; discriminate).
  assert (Hd : 0.1 < Qabs (4.0 - currentSpeed (mkRamp 2.6 2.6 5000)))
    by (vm_compute; reflexivity).
  destruct (T7 Ht Hd) as (S1 & _ & _ & S4 & _).
  assert (Hu : 0.3 < 4.0 - currentSpeed (mkRamp 2.6 2.6 5000))
    by (vm_compute; reflexivity).
  cbv zeta. split; [exact T1 |]. split; [exact (S4 Hu) | exact S1].
Defined.

End RampFilter.

(** ** The sensor sanitizer (C7) *)

Section Sanitizer.

(** On a fresh store the substituted tower-supply and tower-return values
    are 85 and 95, not the 75 and 85 of the specification. *)
Lemma C7_counterexample :
  let s := initializeState 0 empty_storage in
  let sd := fst (parseSensorData bad_tower_temps (lastGoodTemps s)) in
  ~ (towerSupply (temps sd) == lg_towerSupply specified_lastGood /\
     towerReturn (temps sd) == lg_towerReturn specified_lastGood).
Proof.
  vm_compute. intros [H _]. discriminate.
Qed.

Lemma sanitize_loop_temp_spec (temp lastGood : Q) :
  ~ lastGood == 0 ->
  (in_range temp -> sanitize_loop_temp temp lastGood = (temp, temp)) /\
  (~ in_range temp -> sanitize_loop_temp temp lastGood = (lastGood, lastGood)).
Proof.
  intro Hnz. unfold sanitize_loop_temp, in_range.
  destruct (Qgeb temp 40 && Qleb temp 120) eqn:E.
  - qbool. split; [reflexivity | intro Hc; exfalso; apply Hc; split; assumption].
  - assert (Hnot : ~ (40 <= temp /\ temp <= 120)).
    { intros [L1 L2]. apply Qgeb_ge in L1. apply Qleb_le in L2.
      rewrite L1, L2 in E. discriminate. }
    destruct (Qeq_bool lastGood 0) eqn:E0; [qbool; contradiction |].
    split; [intro Hc; contradiction | reflexivity].
Qed.

(** C7, amended.  Each of the four loop temperatures is accepted exactly when
    the parsed value lies in [40, 120] °F, and then becomes the last-good
    value; an out-of-range value is replaced by the last-good value and
    leaves the store as it is.  The store starts at 85/95/85/75 °F
    (tower-supply, tower-return, HP-return, HP-supply). *)
Theorem C7_sanitizer (t : Temps) (lg : LastGood) :
  lastgood_ok lg ->
  let out := sanitizeTemperatures t lg in
  Forall (fun k =>
            (in_range (fst k t) ->
             fst k (fst out) = fst k t /\ snd k (snd out) = fst k t) /\
            (~ in_range (fst k t) ->
             fst k (fst out) = snd k lg /\ snd k (snd out) = snd k lg))
         loop_keys /\
  lastgood_ok (snd out) /\
  (forall now, lastGoodTemps (initializeState now empty_storage)
               = mkLastGood 85 95 85 75).
Proof.
  intros Hok out. subst out.
  unfold lastgood_ok, loop_keys in Hok.
  inversion Hok as [| k1 l1 H1 Hok1]; subst.
  inversion Hok1 as [| k2 l2 H2 Hok2]; subst.
  inversion Hok2 as [| k3 l3 H3 Hok3]; subst.
  inversion Hok3 as [| k4 l4 H4 _]; subst.
  simpl in H1, H2, H3, H4.
  destruct (sanitize_loop_temp_spec (towerSupply t) H1) as [A1 B1].
  destruct (sanitize_loop_temp_spec (towerReturn t) H2) as [A2 B2].
  destruct (sanitize_loop_temp_spec (hpReturn t) H3) as [A3 B3].
  destruct (sanitize_loop_temp_spec (hpSupply t) H4) as [A4 B4].
  unfold sanitizeTemperatures.
  destruct (sanitize_loop_temp (towerSupply t) (lg_towerSupply lg)) as [a1 b1] eqn:E1.
  destruct (sanitize_loop_temp (towerReturn t) (lg_towerReturn lg)) as [a2 b2] eqn:E2.
  destruct (sanitize_loop_temp (hpReturn t) (lg_hpReturn lg)) as [a3 b3] eqn:E3.
  destruct (sanitize_loop_temp (hpSupply t) (lg_hpSupply lg)) as [a4 b4] eqn:E4.
  split; [| split; [| reflexivity]].
  - unfold loop_keys.
    repeat (apply Forall_cons || apply Forall_nil); simpl;
      (split; intro Hr;
       [ first [ specialize (A1 Hr) | specialize (A2 Hr)
               | specialize (A3 Hr) | specialize (A4 Hr) ]
       | first [ specialize (B1 Hr) | specialize (B2 Hr)
               | specialize (B3 Hr) | specialize (B4 Hr) ] ];
       split; congruence).
  - unfold lastgood_ok, loop_keys.
    assert (G : forall temp last a b,
               ~ last == 0 -> sanitize_loop_temp temp last = (a, b) -> ~ b == 0).
    { intros temp last a b Hnz E. unfold sanitize_loop_temp in E.
      destruct (Qgeb temp 40 && Qleb temp 120) eqn:Er.
      - inversion E; subst. qbool. lra.
      - destruct (Qeq_bool last 0); simpl in E; inversion E; subst; assumption. }
    repeat (apply Forall_cons || apply Forall_nil); simpl; eauto.
Qed.

Lemma C7_sanitizer_witness :
  lastgood_ok default_lastGoodTemps /\
  lastgood_ok (snd (sanitizeTemperatures (mkTemps 200 85 85 75 70)
                                         default_lastGoodTemps)).
Proof.
  assert (H : lastgood_ok default_lastGoodTemps).
  { unfold lastgood_ok, loop_keys.
    repeat (apply Forall_cons || apply Forall_nil); simpl; lra. }
  split; [exact H |].
  exact (proj1 (proj2 (C7_sanitizer (mkTemps 200 85 85 75 70) H))).
Defined.

End Sanitizer.

(** ** The runtime enforcer (C4) *)

Section RuntimeEnforcer.

Lemma enforce_tower_self now sd i sr :
  tower_view i (enforce_tower now sd i sr) = enforce_view now sd (tower_view i sr).
Proof.
  destruct sr as [s r]. unfold enforce_tower, enforce_view, tower_view.
  cbn [fst snd v_timer v_enable v_speed v_open v_close].
  destruct (startTime (get3 i (timers (towers s)))) as [t0 |]; [| reflexivity].
  destruct (truthy (Some t0) && negb (get3 i (towerVFDEnable r))); [| reflexivity].
  destruct (Qltb (seconds_since now t0) 420);
    [| destruct (Qltb (hpSupply (temps sd) - targetSetpoint sd) (-10))];
    destruct i; reflexivity.
Qed.

Lemma enforce_tower_other now sd i j sr :
  i <> j ->
  tower_view i (enforce_tower now sd j sr) = tower_view i sr.
Proof.
  intro Hij. destruct sr as [s r]. unfold enforce_tower, tower_view.
  destruct (startTime (get3 j (timers (towers s)))) as [t0 |]; [| reflexivity].
  destruct (truthy (Some t0) && negb (get3 j (towerVFDEnable r))); [| reflexivity].
  destruct (Qltb (seconds_since now t0) 420);
    [| destruct (Qltb (hpSupply (temps sd) - targetSetpoint sd) (-10))];
    destruct i, j; try reflexivity; congruence.
Qed.

(** The enforcer loop acts on each tower independently. *)
Lemma enforceMinimumRuntimes_view now sd i sr :
  tower_view i (enforceMinimumRuntimes now sd sr)
  = enforce_view now sd (tower_view i sr).
Proof.
  unfold enforceMinimumRuntimes, for_each_idx. simpl.
  destruct i.
  - rewrite !enforce_tower_other by discriminate. apply enforce_tower_self.
  - rewrite enforce_tower_other by discriminate.
    rewrite enforce_tower_self.
    rewrite enforce_tower_other by discriminate. reflexivity.
  - rewrite enforce_tower_self.
    rewrite !enforce_tower_other by discriminate. reflexivity.
Qed.

(** Past the minimum runtime with cooling still warranted, the source keeps
    the tower ON and keeps its start time. *)
Lemma C4_counterexample :
  ~ enforcer_as_specified 1500000 enforcer_example_sensors One
      (enforcer_example_state, enforcer_example_result).
Proof.
  intro H.
  destruct (H 1000000%Z eq_refl ltac:(discriminate) eq_refl) as [_ [_ H3]].
  assert (L : (420 * 1000 <= 1500000 - 1000000)%Z) by lia.
  assert (N : ~ (hpSupply (temps enforcer_example_sensors)
                 - targetSetpoint enforcer_example_sensors < -10
                 \/ hpSupply (temps enforcer_example_sensors) < 65)).
  { simpl. intros [C | C]; lra. }
  destruct (H3 L N) as [E _].
  vm_compute in E. discriminate.
Qed.

(** C4, amended.  For every tower with a start time that the commander left
    disabled: below 420 s of runtime it is forced ON (enable asserted, speed
    V_min, valve open, valve-close cleared); past 420 s with ΔT < −10 its start
    time is cleared and its stop time is written to now; past 420 s with
    ΔT ≥ −10 and HP_supply ≥ 65 it is forced ON as above and its start time is
    kept. *)
Theorem C4_runtime_enforcer (now : Z) (sd : SensorData) (i : Idx)
        (sr : State * ControlResult) (t0 : Z) :
  startTime (v_timer (tower_view i sr)) = Some t0 -> t0 <> 0%Z ->
  v_enable (tower_view i sr) = false ->
  let v := tower_view i sr in
  let v' := tower_view i (enforceMinimumRuntimes now sd sr) in
  let dT := hpSupply (temps sd) - targetSetpoint sd in
  ((now - t0 < 420 * 1000)%Z -> forced_on v' /\ v_timer v' = v_timer v) /\
  ((420 * 1000 <= now - t0)%Z -> dT < -10 ->
   v_timer v' = mkTimer None (Some now) /\
   v_enable v' = false /\ v_speed v' = v_speed v /\
   v_open v' = v_open v /\ v_close v' = v_close v) /\
  ((420 * 1000 <= now - t0)%Z -> ~ dT < -10 -> ~ hpSupply (temps sd) < 65 ->
   forced_on v' /\ v_timer v' = v_timer v /\
   startTime (v_timer v') = Some t0).
Proof.
  intros Hs Hnz He v v' dT. subst v v' dT.
  rewrite enforceMinimumRuntimes_view.
  unfold enforce_view. rewrite Hs, He.
  assert (Ht : truthy (Some t0) = true).
  { simpl. apply Z.eqb_neq in Hnz. now rewrite Hnz. }
  rewrite Ht. cbn [andb negb].
  pose proof (seconds_since_lt now t0 420) as Hsec.
  change (inject_Z 420) with 420 in Hsec.
  destruct (Qltb (seconds_since now t0) 420) eqn:E1; qbool.
  - apply Hsec in E1.
    split; [intros _; unfold forced_on; simpl; auto |].
    split; intros; lia.
  - assert (Hge : (420 * 1000 <= now - t0)%Z).
    { destruct (Z_lt_le_dec (now - t0) (420 * 1000)) as [L | L]; [| exact L].
      apply Hsec in L. lra. }
    destruct (Qltb (hpSupply (temps sd) - targetSetpoint sd) (-10)) eqn:E2; qbool.
    + split; [intro; lia |].
      split; [intros _ _; cbn [v_timer v_enable v_speed v_open v_close];
              repeat split; reflexivity |].
      intros _ C. contradiction.
    + split; [intro; lia |].
      split; [intros _ C; lra |].
      intros _ _ _. unfold forced_on. simpl. auto.
Qed.

Lemma C4_runtime_enforcer_witness :
  forced_on (tower_view One
               (enforceMinimumRuntimes 1500000 enforcer_example_sensors
                  (enforcer_example_state, enforcer_example_result))).
Proof.
  assert (L : (420 * 1000 <= 1500000 - 1000000)%Z) by lia.
  assert (N1 : ~ hpSupply (temps enforcer_example_sensors)
                 - targetSetpoint enforcer_example_sensors < -10)
    by (simpl; lra).
  assert (N2 : ~ hpSupply (temps enforcer_example_sensors) < 65) by (simpl; lra).
  exact (proj1 (proj2 (proj2
           (@C4_runtime_enforcer 1500000 enforcer_example_sensors One
              (enforcer_example_state, enforcer_example_result) 1000000%Z
              eq_refl ltac:(discriminate) eq_refl)) L N1 N2)).
Defined.

(** With HP_supply below 65 °F but ΔT not below −10 the source also keeps the
    tower ON (setpoint 65, HP_supply 60, 500 s of runtime). *)
Lemma enforcer_keeps_cold_loop_running :
  let sd := mkSensorData (mkVfd 0 0 0 0 0 0) (all3 0)
                         (mkTemps 80 85 85 60 75) (all3 0) 65 in
  v_enable (tower_view One
              (enforceMinimumRuntimes 1500000 sd
                 (enforcer_example_state, enforcer_example_result))) = true.
Proof. reflexivity. Qed.

End RuntimeEnforcer.

(** ** The safety gate (C1) *)

Section SafetyGate.

Variable cfg : Config.
Variable pid : option PidFn.

Lemma in_all_idx (i : Idx) : In i all_idx.
Proof. destruct i; simpl; auto. Qed.

Lemma in_flat_map_push {A} (f : A -> bool) (g : A -> string) (l : list A) (s : string) :
  In s (flat_map (fun x => push_if (f x) (g x)) l) <->
  exists x, In x l /\ f x = true /\ s = g x.
Proof.
  rewrite in_flat_map. split; intros [x [Hin H]]; exists x.
  - unfold push_if in H. destruct (f x); simpl in H; [| contradiction].
    destruct H as [H | []]. auto.
  - destruct H as [Hf Hs]. split; [exact Hin |].
    unfold push_if. rewrite Hf. simpl. auto.
Qed.

(** A reading of a tower or pump above a limit, by index. *)
Lemma over_limit_per3 (limit : Q) (t : Per3 Q) :
  (limit < p1 t \/ limit < p2 t \/ limit < p3 t) <-> exists i, limit < get3 i t.
Proof.
  split.
  - intros [H | [H | H]]; [exists One | exists Two | exists Three]; exact H.
  - intros [i H]. destruct i; cbn [get3] in H; auto.
Qed.

(** A leg reading above the critical current is a leg the engine scans. *)
Lemma over_limit_leg (sd : SensorData) :
  (VFD_CURRENT_CRITICAL < tower1A (vfdCurrents sd) \/
   VFD_CURRENT_CRITICAL < tower1B (vfdCurrents sd) \/
   VFD_CURRENT_CRITICAL < tower2A (vfdCurrents sd) \/
   VFD_CURRENT_CRITICAL < tower2B (vfdCurrents sd) \/
   VFD_CURRENT_CRITICAL < tower3A (vfdCurrents sd) \/
   VFD_CURRENT_CRITICAL < tower3B (vfdCurrents sd))
  <-> exists l, In l (vfd_legs sd) /\ VFD_CURRENT_CRITICAL < snd l.
Proof.
  unfold vfd_legs. split.
  - intros [H | [H | [H | [H | [H | H]]]]];
      [exists (One, tower1A (vfdCurrents sd))
      | exists (One, tower1B (vfdCurrents sd))
      | exists (Two, tower2A (vfdCurrents sd))
      | exists (Two, tower2B (vfdCurrents sd))
      | exists (Three, tower3A (vfdCurrents sd))
      | exists (Three, tower3B (vfdCurrents sd))];
      (split; [cbn [In]; tauto | exact H]).
  - intros [l [Hin H]]. cbn [In] in Hin.
    destruct Hin as [E | [E | [E | [E | [E | [E | []]]]]]];
      subst l; cbn [snd] in H; tauto.
Qed.

(** Each fault that holds is reported by its string. *)
Lemma critical_condition_reported (sd : SensorData) :
  critical_condition cfg sd <-> critical_faults cfg sd <> [].
Proof.
  unfold critical_condition.
  rewrite (over_limit_per3 VIBRATION_CRITICAL_LIMIT (vibration sd)).
  rewrite (over_limit_per3 PUMP_CURRENT_MAX (pumpCurrents sd)).
  rewrite over_limit_leg.
  unfold critical_faults, vibration_faults, vfd_faults, pump_faults.
  split.
  - intros [[Hb [i Hi]] | [Hb [[l [Hin Hl]] | [i Hi]]]] Hnil.
    + rewrite Hb in Hnil. apply app_eq_nil in Hnil. destruct Hnil as [Hnil _].
      assert (Hin : In (vibration_fault i)
                       (flat_map (fun i => push_if (Qgtb (get3 i (vibration sd))
                                                     VIBRATION_CRITICAL_LIMIT)
                                                   (vibration_fault i)) all_idx)).
      { apply in_flat_map_push. exists i. split; [apply in_all_idx |].
        split; [apply Qgtb_gt; exact Hi | reflexivity]. }
      rewrite Hnil in Hin. exact Hin.
    + rewrite Hb in Hnil. apply app_eq_nil in Hnil. destruct Hnil as [_ Hnil].
      apply app_eq_nil in Hnil. destruct Hnil as [Hnil _].
      assert (Hin' : In (vfd_fault (fst l))
                        (flat_map (fun l => push_if (Qgtb (snd l) VFD_CURRENT_CRITICAL)
                                                    (vfd_fault (fst l))) (vfd_legs sd))).
      { apply in_flat_map_push. exists l. split; [exact Hin |].
        split; [apply Qgtb_gt; exact Hl | reflexivity]. }
      rewrite Hnil in Hin'. exact Hin'.
    + rewrite Hb in Hnil. apply app_eq_nil in Hnil. destruct Hnil as [_ Hnil].
      apply app_eq_nil in Hnil. destruct Hnil as [_ Hnil].
      assert (Hin : In (pump_fault i)
                       (flat_map (fun i => push_if (Qgtb (get3 i (pumpCurrents sd))
                                                     PUMP_CURRENT_MAX)
                                                   (pump_fault i)) all_idx)).
      { apply in_flat_map_push. exists i. split; [apply in_all_idx |].
        split; [apply Qgtb_gt; exact Hi | reflexivity]. }
      rewrite Hnil in Hin. exact Hin.
  - intro Hne.
    match type of Hne with ?a ++ ?b <> [] =>
      destruct a as [| f1 r1] eqn:Ea; [destruct b as [| f2 r2] eqn:Eb |] end.
    + exfalso. apply Hne. reflexivity.
    + right. destruct (BYPASS_CURRENT_LIMITS cfg); [discriminate |].
      split; [reflexivity |].
      assert (Hin : In f2 (f2 :: r2)) by (left; reflexivity).
      rewrite <- Eb in Hin. apply in_app_or in Hin. destruct Hin as [Hin | Hin];
        apply in_flat_map_push in Hin; destruct Hin as [x [Hx [Hf _]]];
        apply Qgtb_gt in Hf; [left | right]; exists x; auto.
    + left. destruct (BYPASS_VIBRATION_LIMITS cfg); [discriminate |].
      split; [reflexivity |].
      assert (Hin : In f1 (f1 :: r1)) by (left; reflexivity).
      rewrite <- Ea in Hin. apply in_flat_map_push in Hin.
      destruct Hin as [x [_ [Hf _]]]. apply Qgtb_gt in Hf. exists x. exact Hf.
Qed.


End SafetyGate.


(** ** Which path a tick takes *)

Section Paths.

Variable cfg : Config.
Variable pid : option PidFn.

Lemma no_fault_nil (sd : SensorData) :
  ~ critical_condition cfg sd -> critical_faults cfg sd = [].
Proof.
  intro H. destruct (critical_faults cfg sd) eqn:E; [reflexivity |].
  exfalso. apply H. apply critical_condition_reported. rewrite E. discriminate.
Qed.

(** What the override of tower [i] does to tower [j]. *)
Lemma override_tower_get (ui : UiCommands) (i j : Idx) (r : ControlResult) :
  let r' := override_tower ui i r in
  (i = j ->
   get3 j (towerVFDEnable r')
   = or_default (get3 j (ui_towerVFDEnable ui)) (get3 j (towerVFDEnable r)) /\
   get3 j (towerFanSpeed r')
   = or_default (get3 j (ui_towerFanSpeed ui)) (get3 j (towerFanSpeed r)) /\
   get3 j (towerHeaterEnable r')
   = or_default (get3 j (ui_towerHeaterEnable ui)) (get3 j (towerHeaterEnable r))) /\
  (i <> j ->
   get3 j (towerVFDEnable r') = get3 j (towerVFDEnable r) /\
   get3 j (towerFanSpeed r') = get3 j (towerFanSpeed r) /\
   get3 j (towerHeaterEnable r') = get3 j (towerHeaterEnable r)).
Proof.
  unfold override_tower.
  destruct (get3 i (ui_towerVFDEnable ui)) as [e |] eqn:Ee;
    destruct (get3 i (ui_towerFanSpeed ui)) as [f |] eqn:Ef;
    destruct (get3 i (ui_towerHeaterEnable ui)) as [h |] eqn:Eh;
    (split; [intro E; subst j; rewrite Ee, Ef, Eh
            | intro N ]);
    cbn; rewrite ?get3_set3_same, ?(get3_set3_other _ _ N); repeat split.
Qed.

Lemma override_tower_frame (ui : UiCommands) (i : Idx) (r : ControlResult) :
  let r' := override_tower ui i r in
  pumpEnable r' = pumpEnable r /\
  bypassValvePosition r' = bypassValvePosition r /\
  temperingValvePosition r' = temperingValvePosition r /\
  towerIsolationValveOpen r' = towerIsolationValveOpen r /\
  towerIsolationValveClose r' = towerIsolationValveClose r /\
  systemEnabled r' = systemEnabled r /\
  controlMode r' = controlMode r.
Proof.
  unfold override_tower.
  destruct (get3 i (ui_towerVFDEnable ui));
    destruct (get3 i (ui_towerFanSpeed ui));
    destruct (get3 i (ui_towerHeaterEnable ui)); repeat split.
Qed.

(** What the per-tower overrides do to the enables, speeds and heaters. *)
Lemma overrides_per_tower (ui : UiCommands) (r : ControlResult) (i : Idx) :
  let r' := for_each_idx (override_tower ui) r in
  get3 i (towerVFDEnable r')
  = or_default (get3 i (ui_towerVFDEnable ui)) (get3 i (towerVFDEnable r)) /\
  get3 i (towerFanSpeed r')
  = or_default (get3 i (ui_towerFanSpeed ui)) (get3 i (towerFanSpeed r)) /\
  get3 i (towerHeaterEnable r')
  = or_default (get3 i (ui_towerHeaterEnable ui)) (get3 i (towerHeaterEnable r)).
Proof.
  unfold for_each_idx. cbn [fold_left all_idx].
  set (r1 := override_tower ui One r).
  set (r2 := override_tower ui Two r1).
  destruct (override_tower_get ui One i r) as [S1 O1].
  destruct (override_tower_get ui Two i r1) as [S2 O2].
  destruct (override_tower_get ui Three i r2) as [S3 O3].
  fold r1 in S1, O1. fold r2 in S2, O2.
  destruct i.
  - destruct (S1 eq_refl) as [A1 [A2 A3]].
    destruct (O2 ltac:(discriminate)) as [B1 [B2 B3]].
    destruct (O3 ltac:(discriminate)) as [C1 [C2 C3]].
    repeat split; congruence.
  - destruct (O1 ltac:(discriminate)) as [A1 [A2 A3]].
    destruct (S2 eq_refl) as [B1 [B2 B3]].
    destruct (O3 ltac:(discriminate)) as [C1 [C2 C3]].
    repeat split; congruence.
  - destruct (O1 ltac:(discriminate)) as [A1 [A2 A3]].
    destruct (O2 ltac:(discriminate)) as [B1 [B2 B3]].
    destruct (S3 eq_refl) as [C1 [C2 C3]].
    repeat split; congruence.
Qed.

Lemma applyManualOverrides_per_tower (ui : UiCommands) (r : ControlResult) (i : Idx) :
  let r' := applyManualOverrides ui r in
  get3 i (towerVFDEnable r')
  = or_default (get3 i (ui_towerVFDEnable ui)) (get3 i (towerVFDEnable r)) /\
  get3 i (towerFanSpeed r')
  = or_default (get3 i (ui_towerFanSpeed ui)) (get3 i (towerFanSpeed r)) /\
  get3 i (towerHeaterEnable r')
  = or_default (get3 i (ui_towerHeaterEnable ui)) (get3 i (towerHeaterEnable r)).
Proof.
  unfold applyManualOverrides.
  set (r0 := match ui_controlMode ui with Some m => _ | None => _ end).
  assert (H0 : towerVFDEnable r0 = towerVFDEnable r /\
               towerFanSpeed r0 = towerFanSpeed r /\
               towerHeaterEnable r0 = towerHeaterEnable r).
  { subst r0. destruct (ui_systemEnabled ui), (ui_controlMode ui); repeat split. }
  destruct H0 as [E1 [E2 E3]].
  pose proof (overrides_per_tower ui r0 i) as H. cbv zeta in H.
  rewrite E1, E2, E3 in H. exact H.
Qed.

Lemma overrides_frame (ui : UiCommands) (r : ControlResult) :
  let r' := applyManualOverrides ui r in
  pumpEnable r' = pumpEnable r /\
  bypassValvePosition r' = bypassValvePosition r /\
  temperingValvePosition r' = temperingValvePosition r /\
  towerIsolationValveOpen r' = towerIsolationValveOpen r /\
  towerIsolationValveClose r' = towerIsolationValveClose r /\
  systemEnabled r' = or_default (ui_systemEnabled ui) (systemEnabled r) /\
  controlMode r' = or_default (ui_controlMode ui) (controlMode r).
Proof.
  unfold applyManualOverrides, for_each_idx. cbn [fold_left all_idx].
  set (r0 := match ui_controlMode ui with Some m => _ | None => _ end).
  assert (H0 : pumpEnable r0 = pumpEnable r /\
               bypassValvePosition r0 = bypassValvePosition r /\
               temperingValvePosition r0 = temperingValvePosition r /\
               towerIsolationValveOpen r0 = towerIsolationValveOpen r /\
               towerIsolationValveClose r0 = towerIsolationValveClose r /\
               systemEnabled r0 = or_default (ui_systemEnabled ui) (systemEnabled r) /\
               controlMode r0 = or_default (ui_controlMode ui) (controlMode r)).
  { subst r0. destruct (ui_systemEnabled ui), (ui_controlMode ui); repeat split. }
  set (r1 := override_tower ui One r0).
  set (r2 := override_tower ui Two r1).
  pose proof (override_tower_frame ui One r0) as F1. fold r1 in F1.
  pose proof (override_tower_frame ui Two r1) as F2. fold r2 in F2.
  pose proof (override_tower_frame ui Three r2) as F3.
  cbv zeta in F1, F2, F3.
  repeat match goal with H : _ /\ _ |- _ => destruct H end.
  repeat split; congruence.
Qed.

(** Without a critical fault and in manual mode the tick returns right after
    the overrides. *)
Lemma process_manual (now : Z) (data : SensorInput) (ui : UiCommands)
      (st : StateStorage) :
  ~ critical_condition cfg (sensors_of now data st) ->
  manual_mode ui ->
  processCoolingTowerControl cfg pid now data ui st
  = (applyManualOverrides ui (passed_result cfg now (sensors_of now data st)),
     parsed_state now data st).
Proof.
  intros Hc Hm. unfold processCoolingTowerControl, sensors_of, parsed_state in *.
  destruct (parseSensorData data (lastGoodTemps (initializeState now st)))
    as [sd lg]. simpl fst in *. simpl snd.
  unfold performSafetyChecks. rewrite (no_fault_nil Hc). cbn [negb].
  fold (passed_result cfg now sd).
  destruct (overrides_frame ui (passed_result cfg now sd))
    as [_ [_ [_ [_ [_ [Hse Hcm]]]]]].
  rewrite Hse, Hcm.
  destruct Hm as [Hm | [m [Hm Hne]]]; rewrite Hm; simpl.
  - reflexivity.
  - apply String.eqb_neq in Hne. rewrite Hne. rewrite orb_true_r. reflexivity.
Qed.

(** Without a critical fault and in automatic mode the tick runs the
    automatic control sequence. *)
Lemma process_auto (now : Z) (data : SensorInput) (ui : UiCommands)
      (st : StateStorage) :
  ~ critical_condition cfg (sensors_of now data st) ->
  auto_mode ui ->
  processCoolingTowerControl cfg pid now data ui st
  = automatic_control cfg pid now (sensors_of now data st) ui
      (parsed_state now data st,
       applyManualOverrides ui (passed_result cfg now (sensors_of now data st))).
Proof.
  intros Hc [Hse Hcm]. unfold processCoolingTowerControl, sensors_of, parsed_state in *.
  destruct (parseSensorData data (lastGoodTemps (initializeState now st)))
    as [sd lg]. simpl fst in *. simpl snd.
  unfold performSafetyChecks. rewrite (no_fault_nil Hc). cbn [negb].
  fold (passed_result cfg now sd).
  destruct (overrides_frame ui (passed_result cfg now sd))
    as [_ [_ [_ [_ [_ [Hse' Hcm']]]]]].
  rewrite Hse', Hcm'.
  assert (E1 : or_default (ui_systemEnabled ui)
                 (systemEnabled (passed_result cfg now sd)) = true).
  { destruct (ui_systemEnabled ui) as [[|] |]; simpl; try reflexivity. congruence. }
  assert (E2 : or_default (ui_controlMode ui)
                 (controlMode (passed_result cfg now sd)) = "auto"%string).
  { destruct Hcm as [E | E]; rewrite E; reflexivity. }
  rewrite E1, E2. reflexivity.
Qed.

End Paths.

(** ** Manual mode (C10) *)

Section ManualMode.

Variable cfg : Config.
Variable pid : option PidFn.

(** C10, amended.  Without a critical fault, when the UI disables the system
    or selects a mode other than 'auto', the tick returns right after the
    manual overrides: every pump enable is false; every tower VFD enable is
    false, every fan speed 0 and every heater enable false except where a
    per-tower UI override sets it; bypass and tempering are at 2.0 V; tower
    timers, ramp state, pump state and PID state are left unchanged. *)
Theorem C10_manual_mode (now : Z) (data : SensorInput) (ui : UiCommands)
        (st : StateStorage) :
  ~ critical_condition cfg (sensors_of now data st) ->
  manual_mode ui ->
  let out := processCoolingTowerControl cfg pid now data ui st in
  let r := fst out in
  let s' := snd out in
  r = applyManualOverrides ui (passed_result cfg now (sensors_of now data st)) /\
  pumpEnable r = all3 false /\
  (forall i, get3 i (towerVFDEnable r)
             = or_default (get3 i (ui_towerVFDEnable ui)) false) /\
  (forall i, get3 i (towerFanSpeed r)
             = or_default (get3 i (ui_towerFanSpeed ui)) 0) /\
  (forall i, get3 i (towerHeaterEnable r)
             = or_default (get3 i (ui_towerHeaterEnable ui)) false) /\
  bypassValvePosition r = 2.0 /\ temperingValvePosition r = 2.0 /\
  towers s' = towers (initializeState now st) /\
  pumps s' = pumps (initializeState now st) /\
  pidStates s' = pidStates (initializeState now st).
Proof.
  intros Hc Hm out r s'. subst out r s'.
  rewrite (process_manual pid now data st Hc Hm). cbn [fst snd].
  set (r0 := passed_result cfg now (sensors_of now data st)).
  destruct (overrides_frame ui r0) as [Hp [Hb [Ht _]]].
  split; [reflexivity |].
  split; [rewrite Hp; reflexivity |].
  assert (Hper : forall i,
             get3 i (towerVFDEnable (applyManualOverrides ui r0))
             = or_default (get3 i (ui_towerVFDEnable ui)) false /\
             get3 i (towerFanSpeed (applyManualOverrides ui r0))
             = or_default (get3 i (ui_towerFanSpeed ui)) 0 /\
             get3 i (towerHeaterEnable (applyManualOverrides ui r0))
             = or_default (get3 i (ui_towerHeaterEnable ui)) false).
  { intro i. pose proof (applyManualOverrides_per_tower ui r0 i) as H.
    cbv zeta in H.
    assert (Z1 : towerVFDEnable r0 = all3 false) by reflexivity.
    assert (Z2 : towerFanSpeed r0 = all3 0) by reflexivity.
    assert (Z3 : towerHeaterEnable r0 = all3 false) by reflexivity.
    rewrite Z1, Z2, Z3, !get3_all3 in H. exact H. }
  split; [intro i; apply Hper |].
  split; [intro i; apply Hper |].
  split; [intro i; apply Hper |].
  split; [rewrite Hb; reflexivity |].
  split; [rewrite Ht; reflexivity |].
  repeat split.
Qed.

End ManualMode.

Lemma C10_counterexample :
  ~ manual_output_as_specified COOLING_TOWER_CONFIG None 1000 all_absent
      heater_override_ui empty_storage.
Proof.
  unfold manual_output_as_specified. intros [_ [_ [_ [_ [_ H]]]]].
  vm_compute in H. discriminate.
Qed.

Lemma C10_manual_mode_witness :
  pumpEnable (fst (processCoolingTowerControl COOLING_TOWER_CONFIG None 1000
                     all_absent heater_override_ui empty_storage)) = all3 false.
Proof.
  assert (Hc : ~ critical_condition COOLING_TOWER_CONFIG
                   (sensors_of 1000 all_absent empty_storage)).
  { intro H. apply critical_condition_reported in H. apply H. reflexivity. }
  assert (Hm : manual_mode heater_override_ui) by (left; reflexivity).
  exact (proj1 (proj2 (@C10_manual_mode COOLING_TOWER_CONFIG None 1000 all_absent
                         heater_override_ui empty_storage Hc Hm))).
Defined.

(** ** UI valve overrides (C8) *)

Section ValveOverrides.

Variable cfg : Config.
Variable pid : option PidFn.

(** With a tempering override the valve controller stops right after the
    overrides: the tempering command is the clamped UI value, the bypass
    command is the clamped UI value when one is present, and the state (the
    valve PID included) is untouched. *)
Lemma controlValves_tempering_override (sd : SensorData) (ui : UiCommands)
      (s : State) (r : ControlResult) (v : Q) :
  ui_temperingValvePosition ui = Some v ->
  let out := controlValves pid sd ui (s, r) in
  fst out = s /\
  temperingValvePosition (snd out) = clamp_valve v /\
  bypassValvePosition (snd out)
  = match ui_bypassValvePosition ui with
    | Some b => clamp_valve b
    | None => bypassValvePosition r
    end.
Proof.
  intros Ht. unfold controlValves. rewrite Ht.
  destruct (ui_bypassValvePosition ui); repeat split.
Qed.

(** With a bypass override alone, automatic control runs on and commands the
    bypass valve to 2.0 V whatever the UI asked for. *)
Lemma controlValves_bypass_only (sd : SensorData) (ui : UiCommands)
      (s : State) (r : ControlResult) (b : Q) :
  ui_bypassValvePosition ui = Some b ->
  ui_temperingValvePosition ui = None ->
  bypassValvePosition (snd (controlValves pid sd ui (s, r))) = 2.0.
Proof.
  intros Hb Ht. unfold controlValves. rewrite Hb, Ht.
  destruct (Qgeb (outdoor (temps sd)) 42); [reflexivity |].
  destruct pid as [f |]; [| reflexivity].
  cbn [systemEnabled set_bypassValvePosition].
  destruct (systemEnabled r); [| reflexivity].
  destruct (f _ _) as [[o |] vp]; reflexivity.
Qed.

End ValveOverrides.

(** C8 at the failing input.  Automatic mode, no fault, mild weather, a UI
    bypass position of 5 V and no UI tempering position: the returned bypass
    command is 2.0 V, not clamp(5, 2.0, 10.0) = 5 V. *)
Theorem C8_bypass_override_overwritten :
  let r := fst (processCoolingTowerControl COOLING_TOWER_CONFIG None 1000000
                  all_absent bypass_only_ui empty_storage) in
  faultConditions r = [] /\
  systemEnabled r = true /\
  controlMode r = "auto"%string /\
  clamp_valve 5 == 5 /\
  bypassValvePosition r = 2.0 /\
  ~ bypassValvePosition r == clamp_valve 5.
Proof.
  vm_compute. repeat split; try discriminate.
Qed.

(** ** Heater hysteresis (C9) *)

(** C9 at the failing input.  Two consecutive automatic ticks without heater
    overrides and without faults: outdoor 30 °F, then outdoor 40 °F seven
    seconds later on the carried state.  The heaters are ON after the first
    tick and OFF after the second, although 40 °F lies inside the band
    [35, 45] °F. *)
Theorem C9_heaters_drop_inside_band :
  let tick1 := processCoolingTowerControl COOLING_TOWER_CONFIG None 1000000
                 (outdoor_input 30) no_ui empty_storage in
  let tick2 := processCoolingTowerControl COOLING_TOWER_CONFIG None 1007000
                 (outdoor_input 40) no_ui (storage_of (snd tick1)) in
  faultConditions (fst tick1) = [] /\
  faultConditions (fst tick2) = [] /\
  outdoor (temps (readings (fst tick1))) = 30 /\
  outdoor (temps (readings (fst tick2))) = 40 /\
  towerHeaterEnable (fst tick1) = all3 true /\
  towerHeaterEnable (fst tick2) = all3 false.
Proof.
  vm_compute. repeat split.
Qed.

(** The heater controller itself keeps what it is given inside the band; the
    tick hands it a fresh snapshot whose heaters are off. *)
Lemma controlHeaters_band (t : Q) (r : ControlResult) :
  35 <= t -> t <= 45 -> controlHeaters t r = r.
Proof.
  intros H1 H2. unfold controlHeaters.
  destruct (Qltb t 35) eqn:E1; qbool; [lra |].
  destruct (Qgtb t 45) eqn:E2; qbool; [lra | reflexivity].
Qed.

(** ** Frame properties of the automatic control sequence *)

(** Destruct the scrutinee of a [match] or [if] in the goal. *)
Ltac break_goal :=
  repeat match goal with
         | |- context [match ?x with _ => _ end] => destruct x eqn:?
         end.

Section Frames.

Variable cfg : Config.
Variable pid : option PidFn.

Lemma outside_towers_refl sr : outside_towers sr sr.
Proof. repeat split. Qed.

Lemma outside_towers_trans a b c :
  outside_towers a b -> outside_towers b c -> outside_towers a c.
Proof.
  unfold outside_towers. intros H1 H2.
  repeat match goal with H : _ /\ _ |- _ => destruct H end.
  repeat split; congruence.
Qed.

Lemma calculateTowerSpeed_outside now i demand sd s :
  outside_towers_state s (snd (calculateTowerSpeed pid now i demand sd s)).
Proof.
  unfold calculateTowerSpeed.
  match goal with |- context [if ?b then (VFD_MIN_SPEED, s) else _] =>
    destruct b end; [repeat split |].
  match goal with |- context [if ?b then (VFD_MIN_SPEED, s) else _] =>
    destruct b end; [repeat split |].
  match goal with |- context [let '(_, _) := ?x in _] => destruct x as [t ps] end.
  match goal with |- context [let '(_, _) := ?x in _] => destruct x as [sp rp] end.
  repeat split.
Qed.

Lemma enableTower_outside now i demand sd sr :
  outside_towers sr (enableTower pid now i demand sd sr).
Proof.
  destruct sr as [s r]. unfold enableTower.
  set (s1 := if negb (truthy (startTime (get3 i (timers (towers s)))))
             then set_timer i (mkTimer (Some now) None) s else s).
  assert (H1 : outside_towers_state s s1).
  { subst s1. destruct (negb (truthy (startTime (get3 i (timers (towers s))))));
      repeat split. }
  pose proof (calculateTowerSpeed_outside now i demand sd s1) as H2.
  destruct (calculateTowerSpeed pid now i demand sd s1) as [speed s2].
  cbn [snd] in H2.
  destruct H1 as [A1 [A2 [A3 A4]]]. destruct H2 as [B1 [B2 [B3 B4]]].
  unfold outside_towers. cbn [fst snd].
  repeat split; congruence.
Qed.

Lemma enforce_tower_outside now sd i sr :
  outside_towers sr (enforce_tower now sd i sr).
Proof.
  destruct sr as [s r]. unfold enforce_tower.
  break_goal; repeat split.
Qed.

Lemma fold_outside {A} (f : State * ControlResult -> A -> State * ControlResult)
      (l : list A) :
  (forall sr a, outside_towers sr (f sr a)) ->
  forall sr, outside_towers sr (fold_left f l sr).
Proof.
  intro Hf. induction l as [| a l IH]; intro sr; simpl.
  - apply outside_towers_refl.
  - eapply outside_towers_trans; [apply Hf | apply IH].
Qed.

Lemma controlTowers_outside now d sd sr :
  outside_towers sr (controlTowers cfg pid now d sd sr).
Proof.
  destruct sr as [s r]. unfold controlTowers.
  set (sr1 := (s, for_each_idx reset_tower r)).
  set (sr2 := fold_left _ (towersToEnable d) sr1).
  assert (H1 : outside_towers (s, r) sr1) by (repeat split).
  assert (H2 : outside_towers sr1 sr2).
  { apply fold_outside. intros sr a.
    destruct (canEnableTower cfg now a (fst sr));
      [apply enableTower_outside | apply outside_towers_refl]. }
  assert (H3 : outside_towers sr2 (enforceMinimumRuntimes now sd sr2)).
  { unfold enforceMinimumRuntimes, for_each_idx.
    apply (fold_outside (fun acc i => enforce_tower now sd i acc)).
    intros. apply enforce_tower_outside. }
  destruct (enforceMinimumRuntimes now sd sr2) as [s3 r3] eqn:E3.
  eapply outside_towers_trans; [exact H1 |].
  eapply outside_towers_trans; [exact H2 |].
  eapply outside_towers_trans; [exact H3 |].
  repeat split.
Qed.

(** What the valve controller leaves alone. *)
Lemma controlValves_frame sd ui s r :
  let out := controlValves pid sd ui (s, r) in
  towers (fst out) = towers s /\
  pumps (fst out) = pumps s /\
  pumpEnable (snd out) = pumpEnable r /\
  towerHeaterEnable (snd out) = towerHeaterEnable r /\
  towerVFDEnable (snd out) = towerVFDEnable r /\
  towerFanSpeed (snd out) = towerFanSpeed r.
Proof.
  unfold controlValves.
  set (r1 := match ui_bypassValvePosition ui with
             | Some v => set_bypassValvePosition (clamp_valve v) r
             | None => r
             end).
  assert (H1 : pumpEnable r1 = pumpEnable r /\
               towerHeaterEnable r1 = towerHeaterEnable r /\
               towerVFDEnable r1 = towerVFDEnable r /\
               towerFanSpeed r1 = towerFanSpeed r).
  { subst r1. destruct (ui_bypassValvePosition ui); repeat split. }
  destruct H1 as [A1 [A2 [A3 A4]]]. rewrite <- A1, <- A2, <- A3, <- A4.
  clearbody r1.
  destruct (ui_temperingValvePosition ui) as [t |]; [repeat split |].
  destruct (Qgeb (outdoor (temps sd)) 42); [repeat split |].
  unfold applyFallbackValveControl.
  destruct pid as [f |];
    [| destruct (Qltb (outdoor (temps sd)) 35); repeat split].
  destruct (systemEnabled r1);
    [| destruct (Qltb (outdoor (temps sd)) 35); repeat split].
  match goal with
  | |- context [f ?a ?b] => destruct (f a b) as [[o |] vp]
  end; [repeat split |].
  destruct (Qltb (outdoor (temps sd)) 35); repeat split.
Qed.

Lemma controlHeaters_frame t r :
  let r' := controlHeaters t r in
  pumpEnable r' = pumpEnable r /\
  towerVFDEnable r' = towerVFDEnable r /\
  towerFanSpeed r' = towerFanSpeed r.
Proof.
  unfold controlHeaters. break_goal; repeat split.
Qed.

Lemma monitor_leg_frame acc l :
  let acc' := monitor_leg acc l in
  pumpEnable (snd acc') = pumpEnable (snd acc) /\
  towerVFDEnable (snd acc') = towerVFDEnable (snd acc) /\
  towerHeaterEnable (snd acc') = towerHeaterEnable (snd acc).
Proof.
  destruct acc as [w r], l as [i c]. unfold monitor_leg.
  break_goal; repeat split.
Qed.

Lemma monitoring_frame sd r :
  let r' := applyCurrentAndVibrationMonitoring cfg sd r in
  pumpEnable r' = pumpEnable r /\
  towerVFDEnable r' = towerVFDEnable r /\
  towerHeaterEnable r' = towerHeaterEnable r.
Proof.
  unfold applyCurrentAndVibrationMonitoring.
  assert (F : forall l acc,
             let acc' := fold_left monitor_leg l acc in
             pumpEnable (snd acc') = pumpEnable (snd acc) /\
             towerVFDEnable (snd acc') = towerVFDEnable (snd acc) /\
             towerHeaterEnable (snd acc') = towerHeaterEnable (snd acc)).
  { induction l as [| a l IH]; intro acc; simpl; [repeat split |].
    destruct (IH (monitor_leg acc a)) as [A1 [A2 A3]].
    destruct (monitor_leg_frame acc a) as [B1 [B2 B3]].
    repeat split; congruence. }
  destruct (BYPASS_CURRENT_LIMITS cfg).
  - break_goal; repeat split.
  - specialize (F (vfd_legs sd) ([], r)).
    destruct (fold_left monitor_leg (vfd_legs sd) ([], r)) as [w r1].
    simpl in F. destruct F as [F1 [F2 F3]].
    break_goal; simpl; repeat split; assumption.
Qed.

Lemma coerce_frame i r :
  let r' := coerce_sub_minimum i r in
  pumpEnable r' = pumpEnable r /\
  towerHeaterEnable r' = towerHeaterEnable r.
Proof.
  unfold coerce_sub_minimum.
  destruct (Qgtb (get3 i (towerFanSpeed r)) 0
            && Qltb (get3 i (towerFanSpeed r)) VFD_MIN_SPEED); repeat split.
Qed.

Lemma summary_frame r d sd :
  let r' := updateControlResultSummary r d sd in
  pumpEnable r' = pumpEnable r /\
  towerHeaterEnable r' = towerHeaterEnable r.
Proof.
  unfold updateControlResultSummary, for_each_idx. cbn [fold_left all_idx].
  set (r5 := set_targetSupplyTemp _ _).
  assert (H5 : pumpEnable r5 = pumpEnable r /\
               towerHeaterEnable r5 = towerHeaterEnable r) by (repeat split).
  clearbody r5.
  destruct (coerce_frame One r5) as [A1 A2].
  destruct (coerce_frame Two (coerce_sub_minimum One r5)) as [B1 B2].
  destruct (coerce_frame Three
              (coerce_sub_minimum Two (coerce_sub_minimum One r5))) as [C1 C2].
  destruct H5 as [D1 D2].
  split; congruence.
Qed.

(** Pumps after the automatic sequence are as the pump supervisor left
    them. *)
Lemma automatic_control_pumps now sd ui s r :
  let sr1 := controlPumps cfg now sd
               (set_towers (performLeadTowerRotation cfg now (towers s)) s, r) in
  let out := automatic_control cfg pid now sd ui (s, r) in
  pumps (snd out) = pumps (fst sr1) /\
  pumpEnable (fst out) = pumpEnable (snd sr1).
Proof.
  intros sr1 out. subst out. unfold automatic_control.
  fold sr1.
  set (d := calculateStaging sd _).
  pose proof (controlTowers_outside now d sd sr1) as Ht.
  destruct (controlTowers cfg pid now d sd sr1) as [s2 r2].
  destruct Ht as [Hp [_ [_ [_ [He _]]]]]. simpl in Hp, He.
  pose proof (controlValves_frame sd ui s2 r2) as Hv.
  destruct (controlValves pid sd ui (s2, r2)) as [s3 r3].
  destruct Hv as [_ [Hp3 [He3 _]]]. simpl in Hp3, He3.
  destruct (controlHeaters_frame (outdoor (temps sd)) r3) as [He4 _].
  destruct (monitoring_frame sd (controlHeaters (outdoor (temps sd)) r3)) as [He5 _].
  destruct (summary_frame
              (applyCurrentAndVibrationMonitoring cfg sd
                 (controlHeaters (outdoor (temps sd)) r3)) d sd) as [He6 _].
  cbn [fst snd]. split; congruence.
Qed.

End Frames.

(** ** The two defects over every automatic tick *)

Section DefectsInGeneral.

Variable cfg : Config.
Variable pid : option PidFn.

Lemma Per3_ext {A} (t u : Per3 A) :
  (forall i, get3 i t = get3 i u) -> t = u.
Proof.
  intro H. destruct t, u.
  pose proof (H One). pose proof (H Two). pose proof (H Three).
  simpl in *. congruence.
Qed.

Lemma controlPumps_result_frame now sd s r :
  let r' := snd (controlPumps cfg now sd (s, r)) in
  towerHeaterEnable r' = towerHeaterEnable r /\
  systemEnabled r' = systemEnabled r.
Proof.
  unfold controlPumps.
  destruct (BYPASS_PUMP_STATUS cfg); [repeat split |].
  destruct (changeoverState (pumps s)) as [co |];
    [destruct (now - co_startTime co <? PUMP_CHANGEOVER_OVERLAP_MS)%Z |];
    cbn [snd];
    match goal with
    | |- context [if ?b then _ else _] => destruct b
    end; repeat split.
Qed.

Lemma monitor_leg_valves acc l :
  bypassValvePosition (snd (monitor_leg acc l)) = bypassValvePosition (snd acc).
Proof.
  destruct acc as [w r], l as [i c]. unfold monitor_leg.
  break_goal; reflexivity.
Qed.

Lemma monitoring_valves sd r :
  bypassValvePosition (applyCurrentAndVibrationMonitoring cfg sd r)
  = bypassValvePosition r.
Proof.
  unfold applyCurrentAndVibrationMonitoring.
  assert (F : forall l acc,
             bypassValvePosition (snd (fold_left monitor_leg l acc))
             = bypassValvePosition (snd acc)).
  { induction l as [| a l IH]; intro acc; simpl; [reflexivity |].
    rewrite IH. apply monitor_leg_valves. }
  destruct (BYPASS_CURRENT_LIMITS cfg).
  - break_goal; reflexivity.
  - specialize (F (vfd_legs sd) ([], r)).
    destruct (fold_left monitor_leg (vfd_legs sd) ([], r)) as [w r1].
    cbn [snd] in F. break_goal; exact F.
Qed.

Lemma coerce_valves i r :
  bypassValvePosition (coerce_sub_minimum i r) = bypassValvePosition r.
Proof.
  unfold coerce_sub_minimum.
  destruct (Qgtb (get3 i (towerFanSpeed r)) 0
            && Qltb (get3 i (towerFanSpeed r)) VFD_MIN_SPEED); reflexivity.
Qed.

Lemma summary_valves r d sd :
  bypassValvePosition (updateControlResultSummary r d sd) = bypassValvePosition r.
Proof.
  unfold updateControlResultSummary, for_each_idx. cbn [fold_left all_idx].
  rewrite !coerce_valves. reflexivity.
Qed.

(** The bypass override is lost on every automatic tick that carries no
    tempering override: the returned bypass command is 2.0 V. *)
Lemma tick_bypass_only (now : Z) (data : SensorInput) (ui : UiCommands)
      (st : StateStorage) (b : Q) :
  ~ critical_condition cfg (sensors_of now data st) ->
  auto_mode ui ->
  ui_bypassValvePosition ui = Some b ->
  ui_temperingValvePosition ui = None ->
  bypassValvePosition (fst (processCoolingTowerControl cfg pid now data ui st))
  = 2.0.
Proof.
  intros Hc Ha Hb Ht.
  rewrite (process_auto pid now data st Hc Ha).
  unfold automatic_control.
  set (sd := sensors_of now data st).
  set (s1 := set_towers _ _).
  set (d := calculateStaging sd _).
  set (sr2 := controlTowers cfg pid now d sd _).
  destruct sr2 as [s2 r2].
  pose proof (controlValves_bypass_only pid sd ui s2 r2 Hb Ht) as Hv.
  destruct (controlValves pid sd ui (s2, r2)) as [s3 r3].
  cbn [fst snd] in *.
  rewrite summary_valves, monitoring_valves.
  unfold controlHeaters. break_goal; exact Hv.
Qed.

(** Inside the band [35, 45] °F and without heater overrides every automatic
    tick returns all heaters off, whatever the previous tick commanded. *)
Lemma tick_heaters_inside_band (now : Z) (data : SensorInput) (ui : UiCommands)
      (st : StateStorage) :
  ~ critical_condition cfg (sensors_of now data st) ->
  auto_mode ui ->
  (forall i, get3 i (ui_towerHeaterEnable ui) = None) ->
  35 <= outdoor (temps (sensors_of now data st)) ->
  outdoor (temps (sensors_of now data st)) <= 45 ->
  towerHeaterEnable (fst (processCoolingTowerControl cfg pid now data ui st))
  = all3 false.
Proof.
  intros Hc Ha Hno H35 H45.
  rewrite (process_auto pid now data st Hc Ha).
  unfold automatic_control.
  set (sd := sensors_of now data st) in *.
  set (r0 := applyManualOverrides ui (passed_result cfg now sd)).
  assert (H0 : towerHeaterEnable r0 = all3 false).
  { apply Per3_ext. intro i.
    destruct (applyManualOverrides_per_tower ui (passed_result cfg now sd) i)
      as [_ [_ E]].
    subst r0. rewrite E, Hno, get3_all3.
    change (towerHeaterEnable (passed_result cfg now sd)) with (all3 false).
    rewrite get3_all3. reflexivity. }
  set (s1 := set_towers _ _).
  destruct (controlPumps_result_frame now sd s1 r0) as [P1 _].
  set (sr1 := controlPumps cfg now sd (s1, r0)) in *.
  set (d := calculateStaging sd _).
  pose proof (controlTowers_outside cfg pid now d sd sr1) as Ht.
  destruct (controlTowers cfg pid now d sd sr1) as [s2 r2].
  destruct Ht as [_ [_ [_ [_ [_ [T1 _]]]]]]. cbn [fst snd] in T1.
  pose proof (controlValves_frame pid sd ui s2 r2) as [_ [_ [_ [V1 _]]]].
  destruct (controlValves pid sd ui (s2, r2)) as [s3 r3].
  cbn [fst snd] in *.
  rewrite (controlHeaters_band r3 H35 H45).
  destruct (summary_frame (applyCurrentAndVibrationMonitoring cfg sd r3) d sd)
    as [_ S1].
  destruct (monitoring_frame cfg sd r3) as [_ [_ M1]].
  rewrite S1, M1, V1, T1, P1. exact H0.
Qed.

End DefectsInGeneral.

(** ** Pump failover (C5) *)

Section PumpFailover.

Variable cfg : Config.
Variable pid : option PidFn.

Hypothesis pump_monitoring : BYPASS_PUMP_STATUS cfg = false.

(** The pump part of an automatic tick is the pump supervisor run on the
    carried pump state with all pump enables off. *)
Lemma tick_pumps (now : Z) (data : SensorInput) (ui : UiCommands) (st : StateStorage) :
  ~ critical_condition cfg (sensors_of now data st) ->
  auto_mode ui ->
  exists s r,
    pumps s = or_default (st_pumps st) (default_pumps now) /\
    pumpEnable r = all3 false /\
    let out := processCoolingTowerControl cfg pid now data ui st in
    let sr := controlPumps cfg now (sensors_of now data st) (s, r) in
    pumps (snd out) = pumps (fst sr) /\
    pumpEnable (fst out) = pumpEnable (snd sr).
Proof.
  intros Hc Ha.
  rewrite (process_auto pid now data st Hc Ha).
  set (s0 := parsed_state now data st).
  set (r0 := applyManualOverrides ui (passed_result cfg now (sensors_of now data st))).
  exists (set_towers (performLeadTowerRotation cfg now (towers s0)) s0), r0.
  split; [reflexivity |].
  split.
  - subst r0. destruct (overrides_frame ui (passed_result cfg now (sensors_of now data st)))
      as [Hp _]. rewrite Hp. reflexivity.
  - apply automatic_control_pumps.
Qed.

(** A failure of the active pump 1 schedules a changeover to pump 2; no pump
    enable is written in that pass. *)
Lemma controlPumps_failover (now : Z) (sd : SensorData) (s : State) (r : ControlResult) :
  pump_available cfg Two = true ->
  activePump (pumps s) = One ->
  changeoverState (pumps s) = None ->
  get3 One (pumpCurrents sd) < 10 ->
  (30000 < now - lastFailoverTime (pumps s))%Z ->
  let out := controlPumps cfg now sd (s, r) in
  changeoverState (pumps (fst out)) = Some (mkChangeover Two now) /\
  activePump (pumps (fst out)) = One /\
  lastFailoverTime (pumps (fst out)) = now /\
  pump_lastRotationTime (pumps (fst out)) = pump_lastRotationTime (pumps s) /\
  failoverCount (pumps (fst out)) = (failoverCount (pumps s) + 1)%Z /\
  pumpEnable (snd out) = pumpEnable r.
Proof.
  intros Hav Hact Hco Hcur Hdeb. unfold controlPumps.
  rewrite pump_monitoring, Hco.
  unfold checkPumpFailure. rewrite Hact, Hco, pump_monitoring.
  cbn [is_some negb andb]. rewrite orb_true_r.
  assert (E1 : Qltb (num_or (get3 One (pumpCurrents sd)) 0) 10.0 = true).
  { apply Qltb_lt. unfold num_or.
    destruct (Qeq_bool (get3 One (pumpCurrents sd)) 0); lra. }
  assert (E2 : (now - lastFailoverTime (pumps s) >? 30000)%Z = true).
  { apply Z.gtb_lt. exact Hdeb. }
  rewrite E1, E2. cbn [andb].
  assert (E3 : findNextAvailablePump cfg One = Some Two).
  { unfold findNextAvailablePump. cbn [scan_next].
    change (next_idx One) with Two. rewrite !Hav. reflexivity. }
  rewrite E3. cbv beta iota. rewrite Hav.
  unfold checkPumpRotation. cbn [changeoverState is_some negb].
  rewrite andb_false_r. repeat split.
Qed.

(** A changeover older than the overlap completes: the new pump becomes the
    active one and is the only pump enabled. *)
Lemma controlPumps_complete (now : Z) (sd : SensorData) (s : State)
      (r : ControlResult) (co : Changeover) :
  changeoverState (pumps s) = Some co ->
  (PUMP_CHANGEOVER_OVERLAP_MS <= now - co_startTime co)%Z ->
  (now - lastFailoverTime (pumps s) <= 30000)%Z ->
  (now - pump_lastRotationTime (pumps s) < WEEK_IN_MS)%Z ->
  let out := controlPumps cfg now sd (s, r) in
  changeoverState (pumps (fst out)) = None /\
  activePump (pumps (fst out)) = newPump co /\
  lastFailoverTime (pumps (fst out)) = lastFailoverTime (pumps s) /\
  pump_lastRotationTime (pumps (fst out)) = pump_lastRotationTime (pumps s) /\
  pumpEnable (snd out) = set3 (newPump co) true (pumpEnable r).
Proof.
  intros Hco Hel Hdeb Hrot. unfold controlPumps.
  rewrite pump_monitoring, Hco.
  assert (E0 : (now - co_startTime co <? PUMP_CHANGEOVER_OVERLAP_MS)%Z = false).
  { apply Z.ltb_ge. exact Hel. }
  rewrite E0.
  unfold checkPumpFailure. cbn [lastFailoverTime activePump changeoverState].
  assert (E2 : (now - lastFailoverTime (pumps s) >? 30000)%Z = false).
  { rewrite Z.gtb_ltb. apply Z.ltb_ge. exact Hdeb. }
  rewrite E2, andb_false_r.
  unfold checkPumpRotation. cbn [pump_lastRotationTime].
  assert (E3 : (now - pump_lastRotationTime (pumps s) >=? WEEK_IN_MS)%Z = false).
  { rewrite Z.geb_leb. apply Z.leb_gt. exact Hrot. }
  rewrite E3. cbn. repeat split.
Qed.

(** Without a changeover, a failure or a due rotation, the active pump is the
    only pump enabled. *)
Lemma controlPumps_steady (now : Z) (sd : SensorData) (s : State) (r : ControlResult) :
  changeoverState (pumps s) = None ->
  (now - lastFailoverTime (pumps s) <= 30000)%Z ->
  (now - pump_lastRotationTime (pumps s) < WEEK_IN_MS)%Z ->
  let out := controlPumps cfg now sd (s, r) in
  changeoverState (pumps (fst out)) = None /\
  activePump (pumps (fst out)) = activePump (pumps s) /\
  pumpEnable (snd out) = set3 (activePump (pumps s)) true (pumpEnable r).
Proof.
  intros Hco Hdeb Hrot. unfold controlPumps.
  rewrite pump_monitoring, Hco.
  unfold checkPumpFailure.
  assert (E2 : (now - lastFailoverTime (pumps s) >? 30000)%Z = false).
  { rewrite Z.gtb_ltb. apply Z.ltb_ge. exact Hdeb. }
  rewrite E2, andb_false_r.
  unfold checkPumpRotation.
  assert (E3 : (now - pump_lastRotationTime (pumps s) >=? WEEK_IN_MS)%Z = false).
  { rewrite Z.geb_leb. apply Z.leb_gt. exact Hrot. }
  rewrite E3. cbn [andb fst snd set_pumps pumps updatePumpRuntime changeoverState
                     activePump].
  rewrite Hco. repeat split.
Qed.

(** C5, amended.  From active pump 1, no changeover in progress, pump 1
    reading 2 A, the last failover more than 30 s ago and no rotation due, a
    step creates a changeover record with new_pump = 2 and start = now.  On
    the step 6 s later the 5 s overlap has elapsed: the changeover completes,
    the active pump becomes 2 and only pump 2 is enabled.  On the step 6 s
    after that only pump 2 is enabled and the active pump is 2. *)
Theorem C5_pump_failover (now : Z) (data1 data2 data3 : SensorInput)
        (ui1 ui2 ui3 : UiCommands) (st : StateStorage) (ps : Pumps) :
  pump_available cfg Two = true ->
  st_pumps st = Some ps ->
  activePump ps = One ->
  changeoverState ps = None ->
  get3 One (pumpCurrents (sensors_of now data1 st)) == 2 ->
  (30000 < now - lastFailoverTime ps)%Z ->
  (now + 12000 - pump_lastRotationTime ps < WEEK_IN_MS)%Z ->
  let tick1 := processCoolingTowerControl cfg pid now data1 ui1 st in
  let tick2 := processCoolingTowerControl cfg pid (now + 6000) data2 ui2
                 (storage_of (snd tick1)) in
  let tick3 := processCoolingTowerControl cfg pid (now + 12000) data3 ui3
                 (storage_of (snd tick2)) in
  ~ critical_condition cfg (sensors_of now data1 st) ->
  ~ critical_condition cfg (sensors_of (now + 6000) data2 (storage_of (snd tick1))) ->
  ~ critical_condition cfg (sensors_of (now + 12000) data3 (storage_of (snd tick2))) ->
  auto_mode ui1 -> auto_mode ui2 -> auto_mode ui3 ->
  changeoverState (pumps (snd tick1)) = Some (mkChangeover Two now) /\
  activePump (pumps (snd tick1)) = One /\
  pumpEnable (fst tick2) = mk3 false true false /\
  activePump (pumps (snd tick2)) = Two /\
  changeoverState (pumps (snd tick2)) = None /\
  pumpEnable (fst tick3) = mk3 false true false /\
  activePump (pumps (snd tick3)) = Two.
Proof.
  intros Hav Hst Hact Hco Hcur Hdeb Hrot tick1 tick2 tick3 Hc1 Hc2 Hc3 Ha1 Ha2 Ha3.
  (* first tick *)
  destruct (tick_pumps now data1 st Hc1 Ha1) as [s1 [r1 [Hs1 [Hr1 [P1 E1]]]]].
  fold tick1 in P1, E1. rewrite Hst in Hs1. simpl in Hs1.
  assert (Hcur' : get3 One (pumpCurrents (sensors_of now data1 st)) < 10)
    by (rewrite Hcur; reflexivity).
  destruct (@controlPumps_failover now (sensors_of now data1 st) s1 r1 Hav
              ltac:(rewrite Hs1; exact Hact) ltac:(rewrite Hs1; exact Hco) Hcur'
              ltac:(rewrite Hs1; exact Hdeb))
    as [F1 [F2 [F3 [F4 [_ _]]]]].
  rewrite <- P1 in F1, F2, F3, F4. rewrite Hs1 in F4.
  (* second tick *)
  destruct (tick_pumps (now + 6000) data2 (storage_of (snd tick1)) Hc2 Ha2)
    as [s2 [r2 [Hs2 [Hr2 [P2 E2]]]]].
  fold tick2 in P2, E2. simpl in Hs2.
  destruct (@controlPumps_complete (now + 6000)
              (sensors_of (now + 6000) data2 (storage_of (snd tick1))) s2 r2
              (mkChangeover Two now)
              ltac:(rewrite Hs2; exact F1)
              ltac:(simpl; unfold PUMP_CHANGEOVER_OVERLAP_MS; lia)
              ltac:(rewrite Hs2, F3; lia)
              ltac:(rewrite Hs2, F4; lia))
    as [G1 [G2 [G3 [G4 G5]]]].
  rewrite <- P2 in G1, G2, G3, G4. rewrite <- E2 in G5.
  rewrite Hs2, F3 in G3. rewrite Hs2, F4 in G4. rewrite Hr2 in G5.
  simpl in G2, G5.
  (* third tick *)
  destruct (tick_pumps (now + 12000) data3 (storage_of (snd tick2)) Hc3 Ha3)
    as [s3 [r3 [Hs3 [Hr3 [P3 E3]]]]].
  fold tick3 in P3, E3. simpl in Hs3.
  destruct (@controlPumps_steady (now + 12000)
              (sensors_of (now + 12000) data3 (storage_of (snd tick2))) s3 r3
              ltac:(rewrite Hs3; exact G1)
              ltac:(rewrite Hs3, G3; lia)
              ltac:(rewrite Hs3, G4; lia))
    as [K1 [K2 K3]].
  rewrite <- P3 in K2. rewrite <- E3 in K3.
  rewrite Hs3, G2 in K2. rewrite Hs3, G2, Hr3 in K3. simpl in K3.
  repeat split; assumption.
Qed.

End PumpFailover.

(** In the tick that creates the changeover record no pump is enabled, and
    6 s later pump 1 is already off. *)
Lemma C5_counterexample : ~ failover_as_specified.
Proof.
  unfold failover_as_specified. intros [_ [[H _] _]].
  vm_compute in H. discriminate.
Qed.

Lemma failover_ticks_observed :
  pumpEnable (fst failover_tick1) = all3 false /\
  pumpEnable (fst failover_tick2) = mk3 false true false /\
  pumpEnable (fst failover_tick3) = mk3 false true false.
Proof. vm_compute. repeat split. Qed.

Lemma no_fault_computed (cfg : Config) (sd : SensorData) :
  critical_faults cfg sd = [] -> ~ critical_condition cfg sd.
Proof.
  intros E H. apply critical_condition_reported in H. contradiction.
Qed.

Lemma auto_mode_no_ui : auto_mode no_ui.
Proof. split; [discriminate | left; reflexivity]. Qed.

Lemma C5_pump_failover_witness :
  pumpEnable (fst failover_tick3) = mk3 false true false /\
  activePump (pumps (snd failover_tick3)) = Two.
Proof.
  assert (Hcur : get3 One (pumpCurrents
                   (sensors_of failover_T0 failover_input failover_storage)) == 2)
    by reflexivity.
  assert (Hdeb : (30000 < failover_T0 - lastFailoverTime failover_pumps)%Z)
    by (vm_compute; reflexivity).
  assert (Hrot : (failover_T0 + 12000 - pump_lastRotationTime failover_pumps
                  < WEEK_IN_MS)%Z)
    by (vm_compute; reflexivity).
  assert (Hc1 : ~ critical_condition ALL_AVAILABLE_CONFIG
                    (sensors_of failover_T0 failover_input failover_storage))
    by (apply no_fault_computed; vm_compute; reflexivity).
  assert (Hc2 : ~ critical_condition ALL_AVAILABLE_CONFIG
                    (sensors_of (failover_T0 + 6000) failover_input
                                (storage_of (snd failover_tick1))))
    by (apply no_fault_computed; vm_compute; reflexivity).
  assert (Hc3 : ~ critical_condition ALL_AVAILABLE_CONFIG
                    (sensors_of (failover_T0 + 12000) failover_input
                                (storage_of (snd failover_tick2))))
    by (apply no_fault_computed; vm_compute; reflexivity).
  pose proof (@C5_pump_failover ALL_AVAILABLE_CONFIG None eq_refl failover_T0
                failover_input failover_input failover_input no_ui no_ui no_ui
                failover_storage failover_pumps eq_refl eq_refl eq_refl eq_refl
                Hcur Hdeb Hrot Hc1 Hc2 Hc3
                auto_mode_no_ui auto_mode_no_ui auto_mode_no_ui) as H.
  exact (conj (proj1 (proj2 (proj2 (proj2 (proj2 (proj2 H))))))
              (proj2 (proj2 (proj2 (proj2 (proj2 (proj2 H))))))).
Defined.

(** ** Minimum runtime hold (C2) *)

Section MinimumRuntime.

Variable cfg : Config.
Variable pid : option PidFn.

Lemma speed_ok_min (v : Q) : VFD_MIN_SPEED <= v -> speed_ok v.
Proof.
  intro H. unfold speed_ok. apply Qltb_ge in H. rewrite H. apply andb_false_r.
Qed.

Lemma applySpeedRamping_min now target rs :
  VFD_MIN_SPEED <= fst (applySpeedRamping now target rs).
Proof.
  unfold applySpeedRamping. cbn [fst].
  match goal with |- _ <= Math_max ?a ?b =>
    destruct (Math_max_spec a b) as [[H E] | [H E]]; rewrite E end; lra.
Qed.

Lemma calculateTowerSpeed_min now i demand sd s :
  VFD_MIN_SPEED <= fst (calculateTowerSpeed pid now i demand sd s).
Proof.
  unfold calculateTowerSpeed.
  match goal with |- context [if ?b then (VFD_MIN_SPEED, s) else _] =>
    destruct b end; [cbn [fst]; lra |].
  match goal with |- context [if ?b then (VFD_MIN_SPEED, s) else _] =>
    destruct b end; [cbn [fst]; lra |].
  match goal with |- context [let '(_, _) := ?x in _] => destruct x as [t ps] end.
  pose proof (applySpeedRamping_min now t (get3 i (speedRamping (towers s)))) as H.
  cbn [towers set_tower_pid speedRamping].
  destruct (applySpeedRamping now t (get3 i (speedRamping (towers s)))) as [sp rp].
  exact H.
Qed.

Lemma enableTower_speeds now i demand sd sr :
  speeds_ok (snd sr) -> speeds_ok (snd (enableTower pid now i demand sd sr)).
Proof.
  destruct sr as [s r]. intros Hok j. unfold enableTower.
  match goal with |- context [calculateTowerSpeed pid now i demand sd ?s'] =>
    pose proof (calculateTowerSpeed_min now i demand sd s') as Hmin;
    destruct (calculateTowerSpeed pid now i demand sd s') as [speed s2] end.
  cbn [fst snd] in *. specialize (Hok j).
  destruct i, j; cbn; try exact Hok; apply speed_ok_min; exact Hmin.
Qed.

Lemma reset_speeds r : speeds_ok (for_each_idx reset_tower r).
Proof. intro i. destruct i; reflexivity. Qed.

(** After a pass of the enforcer a tower with a start time is enabled, and a
    speed that was acceptable stays so. *)
Lemma enforce_view_hold now sd v :
  let v' := enforce_view now sd v in
  (truthy (startTime (v_timer v')) = true -> v_enable v' = true) /\
  (speed_ok (v_speed v) -> speed_ok (v_speed v')).
Proof.
  unfold enforce_view.
  destruct (startTime (v_timer v)) as [t0 |] eqn:Es.
  - destruct (truthy (Some t0)) eqn:Et; cbn [andb].
    + destruct (v_enable v) eqn:Ee; cbn [negb].
      * rewrite Es. split; [intros _; exact Ee | auto].
      * destruct (Qltb (seconds_since now t0) 420);
          [| destruct (Qltb (hpSupply (temps sd) - targetSetpoint sd) (-10))];
          cbn; split; try reflexivity; try discriminate; auto;
          intros _; reflexivity.
    + rewrite Es, Et. split; [discriminate | auto].
  - rewrite Es. split; [discriminate | auto].
Qed.

Lemma controlTowers_hold now d sd sr :
  let out := controlTowers cfg pid now d sd sr in
  (forall i, truthy (startTime (get3 i (timers (towers (fst out))))) = true ->
             get3 i (towerVFDEnable (snd out)) = true) /\
  speeds_ok (snd out).
Proof.
  destruct sr as [s r]. unfold controlTowers.
  set (sr1 := (s, for_each_idx reset_tower r)).
  set (sr2 := fold_left _ (towersToEnable d) sr1).
  assert (H2 : speeds_ok (snd sr2)).
  { subst sr2. generalize (reset_speeds r : speeds_ok (snd sr1)).
    generalize sr1. induction (towersToEnable d) as [| a l IH]; intros sr0 H0.
    - exact H0.
    - simpl. apply IH.
      destruct (canEnableTower cfg now a (fst sr0));
        [apply enableTower_speeds; exact H0 | exact H0]. }
  pose proof (fun i => enforceMinimumRuntimes_view now sd i sr2) as Hv.
  destruct (enforceMinimumRuntimes now sd sr2) as [s3 r3].
  cbn [fst snd]. split.
  - intros i Ht. specialize (Hv i).
    destruct (enforce_view_hold now sd (tower_view i sr2)) as [Hh _].
    rewrite <- Hv in Hh. apply Hh. exact Ht.
  - intro i. specialize (Hv i).
    destruct (enforce_view_hold now sd (tower_view i sr2)) as [_ Hh].
    rewrite <- Hv in Hh. apply Hh. apply H2.
Qed.

Lemma monitor_leg_speeds acc l :
  speeds_ok (snd acc) -> speeds_ok (snd (monitor_leg acc l)).
Proof.
  destruct acc as [w r], l as [i c]. unfold monitor_leg. intros Hok j.
  destruct (Qgtb c VFD_CURRENT_WARNING && Qleb c VFD_CURRENT_CRITICAL);
    [| apply Hok].
  destruct (Qgtb (get3 i (towerFanSpeed r)) VFD_LOW_SPEED); [| apply Hok].
  specialize (Hok j). cbn [snd] in *.
  destruct i, j; cbn; try exact Hok; reflexivity.
Qed.

Lemma monitoring_speeds sd r :
  speeds_ok r -> speeds_ok (applyCurrentAndVibrationMonitoring cfg sd r).
Proof.
  intro Hok. unfold applyCurrentAndVibrationMonitoring.
  assert (F : forall l acc, speeds_ok (snd acc) ->
                            speeds_ok (snd (fold_left monitor_leg l acc))).
  { induction l as [| a l IH]; intros acc H; simpl; [exact H |].
    apply IH. apply monitor_leg_speeds. exact H. }
  destruct (BYPASS_CURRENT_LIMITS cfg).
  - break_goal; exact Hok.
  - specialize (F (vfd_legs sd) ([], r) Hok).
    destruct (fold_left monitor_leg (vfd_legs sd) ([], r)) as [w r1].
    cbn [snd] in F. break_goal; exact F.
Qed.

Lemma coerce_ok i r :
  speed_ok (get3 i (towerFanSpeed r)) -> coerce_sub_minimum i r = r.
Proof.
  intro H. unfold coerce_sub_minimum. unfold speed_ok in H. now rewrite H.
Qed.

Lemma summary_enables r d sd :
  speeds_ok r ->
  towerVFDEnable (updateControlResultSummary r d sd) = towerVFDEnable r.
Proof.
  intro Hok. unfold updateControlResultSummary, for_each_idx.
  set (r5 := set_targetSupplyTemp _ _).
  assert (H5 : speeds_ok r5) by exact Hok.
  simpl fold_left.
  rewrite (coerce_ok One r5 (H5 One)).
  rewrite (coerce_ok Two r5 (H5 Two)).
  rewrite (coerce_ok Three r5 (H5 Three)).
  reflexivity.
Qed.

Lemma automatic_control_hold now sd ui s r :
  let out := automatic_control cfg pid now sd ui (s, r) in
  forall i, truthy (startTime (get3 i (timers (towers (snd out))))) = true ->
            get3 i (towerVFDEnable (fst out)) = true.
Proof.
  unfold automatic_control.
  set (s1 := set_towers _ s).
  set (d := calculateStaging sd _).
  set (sr1 := controlPumps cfg now sd (s1, r)).
  pose proof (controlTowers_hold now d sd sr1) as [Hh Hs].
  destruct (controlTowers cfg pid now d sd sr1) as [s2 r2].
  cbn [fst snd] in Hh, Hs.
  pose proof (controlValves_frame pid sd ui s2 r2) as [Ft [_ [_ [_ [Fe Ff]]]]].
  destruct (controlValves pid sd ui (s2, r2)) as [s3 r3].
  cbn [fst snd] in Ft, Fe, Ff.
  destruct (controlHeaters_frame (outdoor (temps sd)) r3) as [_ [He4 Hf4]].
  set (r4 := controlHeaters (outdoor (temps sd)) r3) in *.
  destruct (monitoring_frame cfg sd r4) as [_ [He5 _]].
  assert (Hs4 : speeds_ok r4).
  { intro i. rewrite Hf4, Ff. apply Hs. }
  pose proof (monitoring_speeds sd Hs4) as Hs5.
  set (r5 := applyCurrentAndVibrationMonitoring cfg sd r4) in *.
  cbn [fst snd]. intros i Ht.
  rewrite (summary_enables d sd Hs5), He5, He4, Fe.
  apply Hh. rewrite <- Ft. exact Ht.
Qed.

(** Inside its minimum runtime a tower keeps its timer through the tick. *)

Lemma calculateTowerSpeed_timers now i demand sd s :
  timers (towers (snd (calculateTowerSpeed pid now i demand sd s)))
  = timers (towers s).
Proof.
  unfold calculateTowerSpeed.
  match goal with |- context [if ?b then (VFD_MIN_SPEED, s) else _] =>
    destruct b end; [reflexivity |].
  match goal with |- context [if ?b then (VFD_MIN_SPEED, s) else _] =>
    destruct b end; [reflexivity |].
  match goal with |- context [let '(_, _) := ?x in _] => destruct x as [t ps] end.
  match goal with |- context [let '(_, _) := ?x in _] => destruct x as [sp rp] end.
  reflexivity.
Qed.

Lemma enableTower_timer_kept now a demand sd sr i :
  truthy (startTime (get3 i (timers (towers (fst sr))))) = true ->
  get3 i (timers (towers (fst (enableTower pid now a demand sd sr))))
  = get3 i (timers (towers (fst sr))).
Proof.
  destruct sr as [s r]. cbn [fst]. intro Ht. unfold enableTower.
  set (s1 := if negb (truthy (startTime (get3 a (timers (towers s)))))
             then set_timer a (mkTimer (Some now) None) s else s).
  assert (H1 : get3 i (timers (towers s1)) = get3 i (timers (towers s))).
  { subst s1.
    destruct (negb (truthy (startTime (get3 a (timers (towers s)))))) eqn:E;
      [| reflexivity].
    apply negb_true_iff in E. cbn [set_timer towers timers].
    destruct a, i; try reflexivity; cbn in *; congruence. }
  pose proof (calculateTowerSpeed_timers now a demand sd s1) as H2.
  destruct (calculateTowerSpeed pid now a demand sd s1) as [speed s2].
  cbn [fst snd] in *. rewrite H2. exact H1.
Qed.

Lemma controlTowers_timer_kept now d sd sr i t0 :
  startTime (get3 i (timers (towers (fst sr)))) = Some t0 ->
  t0 <> 0%Z ->
  (now - t0 < 420 * 1000)%Z ->
  get3 i (timers (towers (fst (controlTowers cfg pid now d sd sr))))
  = get3 i (timers (towers (fst sr))).
Proof.
  destruct sr as [s r]. cbn [fst]. intros Hs Hnz Hrun. unfold controlTowers.
  set (sr1 := (s, for_each_idx reset_tower r)).
  set (sr2 := fold_left _ (towersToEnable d) sr1).
  assert (Ht : truthy (Some t0) = true).
  { simpl. apply Z.eqb_neq in Hnz. now rewrite Hnz. }
  assert (H2 : get3 i (timers (towers (fst sr2))) = get3 i (timers (towers s))).
  { subst sr2.
    assert (G : forall l sr0,
               get3 i (timers (towers (fst sr0))) = get3 i (timers (towers s)) ->
               get3 i (timers (towers (fst
                 (fold_left
                    (fun acc towerNum =>
                       if canEnableTower cfg now towerNum (fst acc)
                       then enableTower pid now towerNum (sd_coolingDemand d) sd acc
                       else acc) l sr0))))
               = get3 i (timers (towers s))).
    { induction l as [| a l IH]; intros sr0 H0; [exact H0 |].
      simpl. apply IH.
      destruct (canEnableTower cfg now a (fst sr0)); [| exact H0].
      rewrite enableTower_timer_kept; [exact H0 |].
      rewrite H0, Hs. exact Ht. }
    apply G. reflexivity. }
  pose proof (enforceMinimumRuntimes_view now sd i sr2) as Hv.
  destruct (enforceMinimumRuntimes now sd sr2) as [s3 r3].
  cbn [fst snd].
  assert (Hv' : v_timer (tower_view i (s3, r3))
                = v_timer (enforce_view now sd (tower_view i sr2)))
    by (rewrite Hv; reflexivity).
  cbn [tower_view v_timer fst] in Hv'. rewrite Hv'.
  unfold enforce_view. cbn [tower_view v_timer v_enable fst snd].
  rewrite H2, Hs, Ht. cbn [andb].
  assert (Hsec : Qltb (seconds_since now t0) 420 = true).
  { apply Qltb_lt. apply (seconds_since_lt now t0 420). exact Hrun. }
  rewrite Hsec.
  destruct (negb (get3 i (towerVFDEnable (snd sr2))));
    cbn [v_timer tower_view]; [reflexivity | exact H2].
Qed.

Lemma controlPumps_towers now sd s r :
  towers (fst (controlPumps cfg now sd (s, r))) = towers s.
Proof.
  unfold controlPumps.
  destruct (BYPASS_PUMP_STATUS cfg); [reflexivity |].
  destruct (changeoverState (pumps s)) as [co |]; [| reflexivity].
  destruct (now - co_startTime co <? PUMP_CHANGEOVER_OVERLAP_MS)%Z; reflexivity.
Qed.

Lemma rotation_timers now tw :
  timers (performLeadTowerRotation cfg now tw) = timers tw.
Proof.
  unfold performLeadTowerRotation.
  destruct (now - lastRotationTime tw >? WEEK_IN_MS)%Z; [| reflexivity].
  destruct (tower_available cfg (scan_next (tower_available cfg) 2 (leadTower tw)));
    reflexivity.
Qed.

Lemma automatic_control_timer_kept now sd ui s r i t0 :
  startTime (get3 i (timers (towers s))) = Some t0 ->
  t0 <> 0%Z ->
  (now - t0 < 420 * 1000)%Z ->
  get3 i (timers (towers (snd (automatic_control cfg pid now sd ui (s, r)))))
  = get3 i (timers (towers s)).
Proof.
  intros Hs Hnz Hrun. unfold automatic_control.
  set (s1 := set_towers _ s).
  set (d := calculateStaging sd _).
  assert (E1 : timers (towers s1) = timers (towers s)).
  { subst s1. cbn [set_towers towers]. apply rotation_timers. }
  pose proof (controlPumps_towers now sd s1 r) as E2.
  set (sr1 := controlPumps cfg now sd (s1, r)) in *.
  assert (Hs1 : startTime (get3 i (timers (towers (fst sr1)))) = Some t0).
  { rewrite E2, E1. exact Hs. }
  pose proof (controlTowers_timer_kept now d sd sr1 i Hs1 Hnz Hrun) as E3.
  destruct (controlTowers cfg pid now d sd sr1) as [s2 r2].
  pose proof (controlValves_frame pid sd ui s2 r2) as [Ft _].
  destruct (controlValves pid sd ui (s2, r2)) as [s3 r3].
  cbn [fst snd] in *. rewrite Ft, E3, E2, E1. reflexivity.
Qed.

(** C2, amended.  At the end of every tick that takes the automatic control
    path (no critical fault; system enabled and mode 'auto' after the UI
    overrides), every tower whose carried start time is set and for which
    now − start_time < 420 s has its VFD enable true. *)
Theorem C2_minimum_runtime_hold (now : Z) (data : SensorInput)
        (ui : UiCommands) (st : StateStorage) :
  ~ critical_condition cfg (sensors_of now data st) ->
  auto_mode ui ->
  minimum_runtime_invariant cfg pid now data ui st.
Proof.
  intros Hc Ha. unfold minimum_runtime_invariant.
  rewrite (process_auto pid now data st Hc Ha).
  intros i t0 Hs Hnz Hrun.
  assert (Ht : truthy (Some t0) = true).
  { simpl. apply Z.eqb_neq in Hnz. now rewrite Hnz. }
  apply automatic_control_hold.
  destruct Hs as [Hs | Hs].
  - rewrite Hs. exact Ht.
  - rewrite automatic_control_timer_kept with (t0 := t0);
      [ | exact Hs | exact Hnz | exact Hrun ].
    cbn [parsed_state set_lastGoodTemps towers]. rewrite Hs. exact Ht.
Qed.

End MinimumRuntime.

(** The safety gate shuts a tower down inside its minimum runtime and keeps
    its start time. *)
Lemma C2_counterexample :
  ~ minimum_runtime_invariant COOLING_TOWER_CONFIG None 1000000 vibrating_input
      no_ui running_storage.
Proof.
  intro H.
  specialize (H One 900000%Z (or_intror eq_refl) ltac:(discriminate) ltac:(lia)).
  vm_compute in H. discriminate.
Qed.

Lemma C2_minimum_runtime_hold_witness :
  minimum_runtime_invariant COOLING_TOWER_CONFIG None 1000000 all_absent
    no_ui running_storage.
Proof.
  assert (Hc : ~ critical_condition COOLING_TOWER_CONFIG
                   (sensors_of 1000000 all_absent running_storage))
    by (apply no_fault_computed; vm_compute; reflexivity).
  exact (@C2_minimum_runtime_hold COOLING_TOWER_CONFIG None 1000000 all_absent
           no_ui running_storage Hc auto_mode_no_ui).
Defined.

(** * Further properties of the control functions *)

(** ** Tower commands at the end of a tick *)

Section TowerCommands.

Variable cfg : Config.
Variable pid : option PidFn.

Lemma critical_cases (sd : SensorData) :
  critical_condition cfg sd \/ ~ critical_condition cfg sd.
Proof.
  destruct (critical_faults cfg sd) as [| f fs] eqn:E.
  - right. intro H. apply critical_condition_reported in H. congruence.
  - left. apply critical_condition_reported. congruence.
Qed.

(** With a critical fault the tick returns the shutdown snapshot and the
    state as parsed. *)
Lemma process_critical (now : Z) (data : SensorInput) (ui : UiCommands)
      (st : StateStorage) :
  critical_condition cfg (sensors_of now data st) ->
  processCoolingTowerControl cfg pid now data ui st
  = (shutdown_result cfg now (sensors_of now data st), parsed_state now data st).
Proof.
  intro Hc. apply critical_condition_reported in Hc.
  unfold processCoolingTowerControl, sensors_of, parsed_state, shutdown_result in *.
  destruct (parseSensorData data (lastGoodTemps (initializeState now st)))
    as [sd lg]. simpl fst in *. simpl snd.
  unfold performSafetyChecks.
  destruct (critical_faults cfg sd) as [| f fs] eqn:Ef; [contradiction |].
  reflexivity.
Qed.

Lemma applySpeedRamping_max now target rs :
  fst (applySpeedRamping now target rs) <= VFD_MAX_SPEED.
Proof.
  unfold applySpeedRamping. cbn [fst].
  match goal with |- Math_max ?a (Math_min ?b ?c) <= _ =>
    destruct (Math_max_spec a (Math_min b c)) as [[H E] | [H E]]; rewrite E;
    [destruct (Math_min_spec b c) as [[H' E'] | [H' E']]; rewrite E' |]
  end; unfold VFD_MIN_SPEED, VFD_MAX_SPEED in *; lra.
Qed.

Lemma calculateTowerSpeed_max now i demand sd s :
  fst (calculateTowerSpeed pid now i demand sd s) <= VFD_MAX_SPEED.
Proof.
  unfold calculateTowerSpeed.
  match goal with |- context [if ?b then (VFD_MIN_SPEED, s) else _] =>
    destruct b end; [cbn [fst]; unfold VFD_MIN_SPEED, VFD_MAX_SPEED; lra |].
  match goal with |- context [if ?b then (VFD_MIN_SPEED, s) else _] =>
    destruct b end; [cbn [fst]; unfold VFD_MIN_SPEED, VFD_MAX_SPEED; lra |].
  match goal with |- context [let '(_, _) := ?x in _] => destruct x as [t ps] end.
  pose proof (applySpeedRamping_max now t (get3 i (speedRamping (towers s)))) as H.
  cbn [towers set_tower_pid speedRamping].
  destruct (applySpeedRamping now t (get3 i (speedRamping (towers s)))) as [sp rp].
  exact H.
Qed.

Lemma calculateTowerSpeed_startup now i demand sd s t0 :
  startTime (get3 i (timers (towers s))) = Some t0 ->
  t0 <> 0%Z ->
  (now - t0 < 420 * 1000)%Z ->
  fst (calculateTowerSpeed pid now i demand sd s) = VFD_MIN_SPEED.
Proof.
  intros Hs Hnz Hrun. unfold calculateTowerSpeed. rewrite Hs.
  assert (Ht : truthy (Some t0) = true).
  { simpl. apply Z.eqb_neq in Hnz. now rewrite Hnz. }
  assert (Hsec : Qltb (seconds_since now t0) 420 = true).
  { apply Qltb_lt. apply (seconds_since_lt now t0 420). exact Hrun. }
  rewrite Ht, Hsec. reflexivity.
Qed.

(** A tower the commander enables is on, has a run timer, and is held at
    V_min while the run is younger than 420 s. *)
Lemma enableTower_view_self now i demand sd sr :
  let v := tower_view i (enableTower pid now i demand sd sr) in
  tower_running v /\ started now (startTime (v_timer v)) /\ startup_speed now v.
Proof.
  destruct sr as [s r]. unfold enableTower.
  set (s1 := if negb (truthy (startTime (get3 i (timers (towers s)))))
             then set_timer i (mkTimer (Some now) None) s else s).
  assert (Hst : started now (startTime (get3 i (timers (towers s1))))).
  { subst s1.
    destruct (truthy (startTime (get3 i (timers (towers s))))) eqn:E; cbn [negb].
    - right. exact E.
    - left. cbn [set_timer towers timers]. rewrite get3_set3_same. reflexivity. }
  pose proof (calculateTowerSpeed_min pid now i demand sd s1) as Hmin.
  pose proof (calculateTowerSpeed_max now i demand sd s1) as Hmax.
  pose proof (calculateTowerSpeed_timers pid now i demand sd s1) as Htm.
  pose proof (calculateTowerSpeed_startup now i demand sd s1) as Hsu.
  clearbody s1.
  destruct (calculateTowerSpeed pid now i demand sd s1) as [speed s2].
  cbn [fst snd] in *.
  unfold tower_running, startup_speed, tower_view.
  cbn [fst snd v_timer v_enable v_speed v_open v_close].
  rewrite Htm.
  repeat split; try exact Hst;
    try (intros t0 H1 H2 H3; rewrite <- (Hsu t0 H1 H2 H3));
    destruct i; cbn; try reflexivity; assumption.
Qed.

Lemma calculateTowerSpeed_view now a demand sd s r i :
  i <> a ->
  tower_view i (snd (calculateTowerSpeed pid now a demand sd s), r)
  = tower_view i (s, r).
Proof.
  intros _. unfold tower_view. cbn [fst snd].
  rewrite calculateTowerSpeed_timers. reflexivity.
Qed.

(** Enabling a tower leaves the other towers as they were. *)
Lemma enableTower_view_other now a demand sd sr i :
  i <> a ->
  tower_view i (enableTower pid now a demand sd sr) = tower_view i sr.
Proof.
  intro Hia. destruct sr as [s r]. unfold enableTower.
  set (s1 := if negb (truthy (startTime (get3 a (timers (towers s)))))
             then set_timer a (mkTimer (Some now) None) s else s).
  assert (H1 : get3 i (timers (towers s1)) = get3 i (timers (towers s))).
  { subst s1. destruct (negb (truthy (startTime (get3 a (timers (towers s))))));
      [| reflexivity].
    cbn [set_timer towers timers]. apply get3_set3_other. congruence. }
  pose proof (calculateTowerSpeed_timers pid now a demand sd s1) as Htm.
  clearbody s1.
  destruct (calculateTowerSpeed pid now a demand sd s1) as [speed s2].
  cbn [fst snd] in *.
  unfold tower_view. cbn [fst snd]. rewrite Htm, H1.
  destruct i, a; try congruence; reflexivity.
Qed.

Lemma reset_view s r i :
  tower_off (tower_view i (s, for_each_idx reset_tower r)).
Proof. destruct i; repeat split. Qed.

Lemma enforce_view_settled now sd v :
  tower_off v \/
  (tower_running v /\ started now (startTime (v_timer v)) /\ startup_speed now v) ->
  tower_settled now (enforce_view now sd v).
Proof.
  unfold enforce_view, tower_settled.
  intros [Hoff | Hon].
  - destruct Hoff as [He [Hs [Ho Hc]]].
    destruct (startTime (v_timer v)) as [t0 |] eqn:Es.
    + rewrite He. cbn [negb]. rewrite andb_true_r.
      destruct (truthy (Some t0)) eqn:Et.
      * assert (Hforce : tower_settled now
                           (mkView (v_timer v) true VFD_MIN_SPEED true false)).
        { right. unfold tower_running, started, startup_speed.
          cbn [v_timer v_enable v_speed v_open v_close]. rewrite Es.
          repeat split; try reflexivity;
            try (unfold VFD_MIN_SPEED, VFD_MAX_SPEED; lra).
          right. exact Et. }
        destruct (Qltb (seconds_since now t0) 420); [exact Hforce |].
        destruct (Qltb (hpSupply (temps sd) - targetSetpoint sd) (-10));
          [| exact Hforce].
        left. unfold tower_off. cbn. repeat split; assumption.
      * left. rewrite Es, Et. repeat split; assumption.
    + left. rewrite Es. repeat split; assumption.
  - pose proof Hon as [[He _] _].
    assert (E : match startTime (v_timer v) with
                | Some t0 =>
                    if truthy (Some t0) && negb (v_enable v)
                    then
                      if Qltb (seconds_since now t0) 420
                      then mkView (v_timer v) true VFD_MIN_SPEED true false
                      else if Qltb (hpSupply (temps sd) - targetSetpoint sd) (-10)
                           then mkView (mkTimer None (Some now)) (v_enable v)
                                       (v_speed v) (v_open v) (v_close v)
                           else mkView (v_timer v) true VFD_MIN_SPEED true false
                    else v
                | None => v
                end = v).
    { rewrite He. cbn [negb]. destruct (startTime (v_timer v)); [| reflexivity].
      rewrite andb_false_r. reflexivity. }
    rewrite E. right. exact Hon.
Qed.

(** The tower commander followed by the runtime enforcer settles every
    tower. *)
Lemma controlTowers_settled now d sd sr i :
  tower_settled now (tower_view i (controlTowers cfg pid now d sd sr)).
Proof.
  destruct sr as [s r]. unfold controlTowers.
  set (sr1 := (s, for_each_idx reset_tower r)).
  set (step := fun (acc : State * ControlResult) towerNum =>
                 if canEnableTower cfg now towerNum (fst acc)
                 then enableTower pid now towerNum (sd_coolingDemand d) sd acc
                 else acc).
  set (sr2 := fold_left step (towersToEnable d) sr1).
  assert (H2 : tower_off (tower_view i sr2) \/
               (tower_running (tower_view i sr2) /\
                started now (startTime (v_timer (tower_view i sr2))) /\
                startup_speed now (tower_view i sr2))).
  { subst sr2.
    assert (H1 : tower_off (tower_view i sr1) \/
                 (tower_running (tower_view i sr1) /\
                  started now (startTime (v_timer (tower_view i sr1))) /\
                  startup_speed now (tower_view i sr1)))
      by (left; apply reset_view).
    revert H1. generalize sr1.
    induction (towersToEnable d) as [| a l IH]; intros sr0 H0; [exact H0 |].
    simpl. apply IH.
    assert (Es : step sr0 a
                 = if canEnableTower cfg now a (fst sr0)
                   then enableTower pid now a (sd_coolingDemand d) sd sr0
                   else sr0) by reflexivity.
    rewrite Es. clear Es.
    destruct (canEnableTower cfg now a (fst sr0)); [| exact H0].
    destruct i, a;
      try (right; apply enableTower_view_self);
      rewrite enableTower_view_other by discriminate; exact H0. }
  pose proof (enforceMinimumRuntimes_view now sd i sr2) as Hv.
  destruct (enforceMinimumRuntimes now sd sr2) as [s3 r3].
  change (tower_view i (s3, set_coolingDemand (sd_coolingDemand d)
                          (set_activeTowers (demandedTowers d)
                             (set_result_leadTower (sd_leadTower d) r3))))
    with (tower_view i (s3, r3)).
  rewrite Hv. apply enforce_view_settled. exact H2.
Qed.


(** *** From the tower commander to the end of the tick *)

Lemma controlValves_isolation sd ui s r :
  let out := controlValves pid sd ui (s, r) in
  towerIsolationValveOpen (snd out) = towerIsolationValveOpen r /\
  towerIsolationValveClose (snd out) = towerIsolationValveClose r.
Proof.
  unfold controlValves.
  set (r1 := match ui_bypassValvePosition ui with
             | Some v => set_bypassValvePosition (clamp_valve v) r
             | None => r
             end).
  assert (H1 : towerIsolationValveOpen r1 = towerIsolationValveOpen r /\
               towerIsolationValveClose r1 = towerIsolationValveClose r).
  { subst r1. destruct (ui_bypassValvePosition ui); repeat split. }
  destruct H1 as [A1 A2]. rewrite <- A1, <- A2.
  clearbody r1.
  destruct (ui_temperingValvePosition ui) as [t |]; [repeat split |].
  destruct (Qgeb (outdoor (temps sd)) 42); [repeat split |].
  unfold applyFallbackValveControl.
  destruct pid as [f |];
    [| destruct (Qltb (outdoor (temps sd)) 35); repeat split].
  destruct (systemEnabled r1);
    [| destruct (Qltb (outdoor (temps sd)) 35); repeat split].
  match goal with
  | |- context [f ?a ?b] => destruct (f a b) as [[o |] vp]
  end; [repeat split |].
  destruct (Qltb (outdoor (temps sd)) 35); repeat split.
Qed.

Lemma controlValves_view sd ui s r i :
  tower_view i (controlValves pid sd ui (s, r)) = tower_view i (s, r).
Proof.
  destruct (controlValves_frame pid sd ui s r) as [Ht [_ [_ [_ [He Hf]]]]].
  destruct (controlValves_isolation sd ui s r) as [Ho Hc].
  unfold tower_view. cbn [fst snd] in *. rewrite Ht, He, Hf, Ho, Hc. reflexivity.
Qed.

Lemma controlHeaters_view t s r i :
  tower_view i (s, controlHeaters t r) = tower_view i (s, r).
Proof. unfold controlHeaters. break_goal; reflexivity. Qed.

Lemma cut_back_refl (a : Q) : cut_back a a.
Proof. left. reflexivity. Qed.

Lemma cut_back_trans (a b c : Q) : cut_back a b -> cut_back b c -> cut_back a c.
Proof.
  unfold cut_back. intros [E1 | [E1 L1]] [E2 | [E2 L2]]; subst.
  - left. reflexivity.
  - right. split; [reflexivity | exact L2].
  - right. split; [reflexivity | exact L1].
  - right. split; [reflexivity | exact L1].
Qed.

Lemma view_cut_back_refl v : view_cut_back v v.
Proof. repeat split. apply cut_back_refl. Qed.

Lemma view_cut_back_trans a b c :
  view_cut_back a b -> view_cut_back b c -> view_cut_back a c.
Proof.
  intros [A1 [A2 [A3 [A4 A5]]]] [B1 [B2 [B3 [B4 B5]]]].
  repeat split; try congruence. eapply cut_back_trans; eassumption.
Qed.

Lemma monitor_leg_view s acc l i :
  view_cut_back (tower_view i (s, snd acc))
                (tower_view i (s, snd (monitor_leg acc l))).
Proof.
  destruct acc as [w r], l as [j c]. unfold monitor_leg.
  destruct (Qgtb c VFD_CURRENT_WARNING && Qleb c VFD_CURRENT_CRITICAL);
    [| apply view_cut_back_refl].
  destruct (Qgtb (get3 j (towerFanSpeed r)) VFD_LOW_SPEED) eqn:E;
    [| apply view_cut_back_refl].
  apply Qgtb_gt in E.
  unfold view_cut_back, tower_view, cut_back.
  cbn [fst snd v_timer v_enable v_speed v_open v_close].
  repeat split.
  destruct i, j; cbn in *; auto.
Qed.

Lemma monitoring_view sd s r i :
  view_cut_back (tower_view i (s, r))
                (tower_view i (s, applyCurrentAndVibrationMonitoring cfg sd r)).
Proof.
  unfold applyCurrentAndVibrationMonitoring.
  assert (F : forall l acc,
             view_cut_back (tower_view i (s, snd acc))
                           (tower_view i (s, snd (fold_left monitor_leg l acc)))).
  { induction l as [| a l IH]; intro acc; simpl; [apply view_cut_back_refl |].
    eapply view_cut_back_trans; [apply monitor_leg_view | apply IH]. }
  destruct (BYPASS_CURRENT_LIMITS cfg).
  - break_goal; apply view_cut_back_refl.
  - specialize (F (vfd_legs sd) ([], r)).
    destruct (fold_left monitor_leg (vfd_legs sd) ([], r)) as [w r1].
    cbn [snd] in F. break_goal; exact F.
Qed.

Lemma summary_view r d sd s i :
  speeds_ok r ->
  tower_view i (s, updateControlResultSummary r d sd) = tower_view i (s, r).
Proof.
  intro Hok. unfold updateControlResultSummary, for_each_idx.
  set (r5 := set_targetSupplyTemp _ _).
  assert (H5 : speeds_ok r5) by exact Hok.
  simpl fold_left.
  rewrite (coerce_ok One r5 (H5 One)).
  rewrite (coerce_ok Two r5 (H5 Two)).
  rewrite (coerce_ok Three r5 (H5 Three)).
  reflexivity.
Qed.

Lemma settled_speed_ok now v : tower_settled now v -> speed_ok (v_speed v).
Proof.
  intros [[[_ [Hs _]] _] | [[_ [Hmin _]] _]].
  - rewrite Hs. reflexivity.
  - apply speed_ok_min. exact Hmin.
Qed.

Lemma settled_cut_back now v v' :
  tower_settled now v -> view_cut_back v v' -> tower_settled now v'.
Proof.
  intros Hs [Ht [He [Ho [Hc Hb]]]]. unfold tower_settled in *.
  rewrite Ht.
  destruct Hs as [[[E [S [O C]]] Hn] | [[E [Smin [Smax [O C]]]] [Hst Hsu]]].
  - left. split; [| exact Hn].
    unfold tower_off. rewrite He, Ho, Hc. repeat split; try assumption.
    destruct Hb as [Hb | [_ Hb]]; [congruence |].
    rewrite S in Hb. unfold VFD_LOW_SPEED in Hb. lra.
  - right. split; [| split; [exact Hst |]].
    + unfold tower_running. rewrite He, Ho, Hc.
      destruct Hb as [Hb | [Hb _]]; rewrite Hb; repeat split; try assumption;
        unfold VFD_MIN_SPEED, VFD_LOW_SPEED, VFD_MAX_SPEED; lra.
    + intros t0 H1 H2 H3. rewrite Ht in H1.
      specialize (Hsu t0 H1 H2 H3).
      destruct Hb as [Hb | [_ Hb]]; [congruence |].
      rewrite Hsu in Hb. unfold VFD_MIN_SPEED, VFD_LOW_SPEED in Hb. lra.
Qed.

(** The steps after the tower commander change a tower by cutting back its
    speed reference only. *)
Lemma automatic_control_view now sd ui s r i :
  let s1 := set_towers (performLeadTowerRotation cfg now (towers s)) s in
  let sr2 := controlTowers cfg pid now (calculateStaging sd (towers s1)) sd
               (controlPumps cfg now sd (s1, r)) in
  let out := automatic_control cfg pid now sd ui (s, r) in
  view_cut_back (tower_view i sr2) (tower_view i (snd out, fst out)).
Proof.
  intros s1 sr2 out. subst out sr2. unfold automatic_control. fold s1.
  set (d := calculateStaging sd (towers s1)).
  set (sr1 := controlPumps cfg now sd (s1, r)).
  pose proof (controlTowers_hold cfg pid now d sd sr1) as [_ Hs].
  destruct (controlTowers cfg pid now d sd sr1) as [s2 r2].
  cbn [snd] in Hs.
  pose proof (controlValves_view sd ui s2 r2 i) as Hv.
  pose proof (controlValves_frame pid sd ui s2 r2) as [_ [_ [_ [_ [_ Ff]]]]].
  destruct (controlValves pid sd ui (s2, r2)) as [s3 r3].
  cbn [fst snd] in Ff.
  destruct (controlHeaters_frame (outdoor (temps sd)) r3) as [_ [_ Hf4]].
  pose proof (controlHeaters_view (outdoor (temps sd)) s3 r3 i) as Hh.
  set (r4 := controlHeaters (outdoor (temps sd)) r3) in *.
  assert (Hs4 : speeds_ok r4).
  { intro j. rewrite Hf4, Ff. apply Hs. }
  pose proof (monitoring_speeds cfg sd Hs4) as Hs5.
  pose proof (monitoring_view sd s3 r4 i) as Hm.
  set (r5 := applyCurrentAndVibrationMonitoring cfg sd r4) in *.
  cbn [fst snd].
  rewrite (summary_view d sd s3 i Hs5), <- Hv, <- Hh. exact Hm.
Qed.

Lemma automatic_control_settled now sd ui s r i :
  let out := automatic_control cfg pid now sd ui (s, r) in
  tower_settled now (tower_view i (snd out, fst out)).
Proof.
  intro out.
  eapply settled_cut_back; [| apply automatic_control_view].
  apply controlTowers_settled.
Qed.

(** *** A tower the commander may not enable *)

Lemma canEnableTower_timer now i s s' :
  get3 i (timers (towers s')) = get3 i (timers (towers s)) ->
  canEnableTower cfg now i s' = canEnableTower cfg now i s.
Proof. intro E. unfold canEnableTower. rewrite E. reflexivity. Qed.

Lemma controlTowers_blocked now d sd sr i :
  canEnableTower cfg now i (fst sr) = false ->
  truthy (startTime (get3 i (timers (towers (fst sr))))) = false ->
  let v := tower_view i (controlTowers cfg pid now d sd sr) in
  tower_off v /\ v_timer v = get3 i (timers (towers (fst sr))).
Proof.
  destruct sr as [s r]. cbn [fst]. intros Hcan Hnot. unfold controlTowers.
  set (sr1 := (s, for_each_idx reset_tower r)).
  set (step := fun (acc : State * ControlResult) towerNum =>
                 if canEnableTower cfg now towerNum (fst acc)
                 then enableTower pid now towerNum (sd_coolingDemand d) sd acc
                 else acc).
  set (sr2 := fold_left step (towersToEnable d) sr1).
  assert (H2 : tower_off (tower_view i sr2) /\
               v_timer (tower_view i sr2) = get3 i (timers (towers s))).
  { subst sr2.
    assert (H1 : tower_off (tower_view i sr1) /\
                 v_timer (tower_view i sr1) = get3 i (timers (towers s)))
      by (split; [apply reset_view | reflexivity]).
    revert H1. generalize sr1.
    induction (towersToEnable d) as [| a l IH]; intros sr0 H0; [exact H0 |].
    simpl. apply IH.
    assert (Es : step sr0 a
                 = if canEnableTower cfg now a (fst sr0)
                   then enableTower pid now a (sd_coolingDemand d) sd sr0
                   else sr0) by reflexivity.
    rewrite Es. clear Es.
    destruct (canEnableTower cfg now a (fst sr0)) eqn:Ec; [| exact H0].
    assert (Hne : i <> a).
    { intro E. subst a. destruct H0 as [_ H0].
      rewrite (canEnableTower_timer now i s (fst sr0)) in Ec by exact H0.
      congruence. }
    rewrite enableTower_view_other by exact Hne. exact H0. }
  pose proof (enforceMinimumRuntimes_view now sd i sr2) as Hv.
  destruct (enforceMinimumRuntimes now sd sr2) as [s3 r3].
  change (tower_view i (s3, set_coolingDemand (sd_coolingDemand d)
                          (set_activeTowers (demandedTowers d)
                             (set_result_leadTower (sd_leadTower d) r3))))
    with (tower_view i (s3, r3)).
  cbv zeta. rewrite Hv.
  destruct H2 as [Hoff Htm].
  assert (E : enforce_view now sd (tower_view i sr2) = tower_view i sr2).
  { unfold enforce_view. rewrite Htm.
    destruct (startTime (get3 i (timers (towers s)))) as [t0 |]; [| reflexivity].
    rewrite Hnot. reflexivity. }
  rewrite E. split; assumption.
Qed.

Lemma automatic_control_blocked now sd ui s r i :
  canEnableTower cfg now i s = false ->
  truthy (startTime (get3 i (timers (towers s)))) = false ->
  let out := automatic_control cfg pid now sd ui (s, r) in
  let v := tower_view i (snd out, fst out) in
  tower_off v /\ v_timer v = get3 i (timers (towers s)).
Proof.
  intros Hcan Hnot out v. subst v out.
  pose proof (automatic_control_view now sd ui s r i) as Hcb. cbv zeta in Hcb.
  set (s1 := set_towers (performLeadTowerRotation cfg now (towers s)) s) in *.
  set (sr1 := controlPumps cfg now sd (s1, r)) in *.
  assert (E1 : timers (towers (fst sr1)) = timers (towers s)).
  { subst sr1. rewrite controlPumps_towers. subst s1.
    cbn [set_towers towers]. apply rotation_timers. }
  assert (Hcan1 : canEnableTower cfg now i (fst sr1) = false).
  { rewrite <- Hcan. apply canEnableTower_timer. now rewrite E1. }
  assert (Hnot1 : truthy (startTime (get3 i (timers (towers (fst sr1))))) = false)
    by (rewrite E1; exact Hnot).
  pose proof (controlTowers_blocked now (calculateStaging sd (towers s1)) sd sr1 i
                Hcan1 Hnot1) as [Hoff Htm].
  rewrite E1 in Htm.
  destruct Hcb as [Ht [He [Ho [Hc Hb]]]].
  destruct Hoff as [E [S [O C]]].
  split; [| congruence].
  unfold tower_off. rewrite He, Ho, Hc. repeat split; try assumption.
  destruct Hb as [Hb | [_ Hb]]; [congruence |].
  rewrite S in Hb. unfold VFD_LOW_SPEED in Hb. lra.
Qed.

Lemma shutdown_view now sd s i :
  tower_off (tower_view i (s, shutdown_result cfg now sd)).
Proof. destruct i; repeat split. Qed.

(** X1.  Unless the operator has taken manual control, every tick leaves
    every tower either off (VFD disabled, speed reference 0 V, isolation valve
    closed) or on (VFD enabled, speed reference within [V_min, V_max],
    isolation valve open); this holds on the shutdown path as well. *)
Theorem tower_commands_off_or_running (now : Z) (data : SensorInput)
        (ui : UiCommands) (st : StateStorage) (i : Idx) :
  auto_mode ui ->
  tower_off (tick_view cfg pid now data ui st i) \/
  tower_running (tick_view cfg pid now data ui st i).
Proof.
  intro Ha. unfold tick_view.
  destruct (critical_cases (sensors_of now data st)) as [Hc | Hc].
  - rewrite (process_critical now data ui st Hc). left. apply shutdown_view.
  - rewrite (process_auto pid now data st Hc Ha).
    destruct (automatic_control_settled now (sensors_of now data st) ui
                (parsed_state now data st)
                (applyManualOverrides ui
                   (passed_result cfg now (sensors_of now data st))) i)
      as [[H _] | [H _]]; auto.
Qed.

(** X2.  At the end of every automatic tick a tower is commanded on exactly
    when its run timer is set in the state the tick leaves behind. *)
Theorem tower_enable_matches_timer (now : Z) (data : SensorInput)
        (ui : UiCommands) (st : StateStorage) (i : Idx) :
  ~ critical_condition cfg (sensors_of now data st) ->
  auto_mode ui ->
  now <> 0%Z ->
  let v := tick_view cfg pid now data ui st i in
  v_enable v = truthy (startTime (v_timer v)).
Proof.
  intros Hc Ha Hnow v. subst v. unfold tick_view.
  rewrite (process_auto pid now data st Hc Ha).
  destruct (automatic_control_settled now (sensors_of now data st) ui
              (parsed_state now data st)
              (applyManualOverrides ui
                 (passed_result cfg now (sensors_of now data st))) i)
    as [[[E _] Hn] | [[E _] [[Hst | Hst] _]]].
  - rewrite E, Hn. reflexivity.
  - rewrite E, Hst. simpl. apply Z.eqb_neq in Hnow. now rewrite Hnow.
  - rewrite E, Hst. reflexivity.
Qed.

(** X3.  Soft start: at the end of every automatic tick a tower whose run is
    younger than 420 s has its speed reference at V_min, whatever the demand
    and the PID output. *)
Theorem tower_startup_speed (now : Z) (data : SensorInput)
        (ui : UiCommands) (st : StateStorage) (i : Idx) (t0 : Z) :
  ~ critical_condition cfg (sensors_of now data st) ->
  auto_mode ui ->
  let v := tick_view cfg pid now data ui st i in
  startTime (v_timer v) = Some t0 ->
  t0 <> 0%Z ->
  (now - t0 < 420 * 1000)%Z ->
  v_enable v = true /\ v_speed v = VFD_MIN_SPEED.
Proof.
  intros Hc Ha v. subst v. unfold tick_view.
  rewrite (process_auto pid now data st Hc Ha).
  intros Hs Hnz Hrun.
  destruct (automatic_control_settled now (sensors_of now data st) ui
              (parsed_state now data st)
              (applyManualOverrides ui
                 (passed_result cfg now (sensors_of now data st))) i)
    as [[_ Hn] | [[E _] [_ Hsu]]].
  - rewrite Hs in Hn. simpl in Hn. apply Z.eqb_neq in Hnz.
    rewrite Hnz in Hn. discriminate.
  - split; [exact E | exact (Hsu t0 Hs Hnz Hrun)].
Qed.

Lemma tower_blocked (now : Z) (data : SensorInput)
      (ui : UiCommands) (st : StateStorage) (i : Idx) :
  auto_mode ui ->
  canEnableTower cfg now i (initializeState now st) = false ->
  truthy (startTime (carried_timer now st i)) = false ->
  let v := tick_view cfg pid now data ui st i in
  tower_off v /\ v_timer v = carried_timer now st i.
Proof.
  intros Ha Hcan Hnot v. subst v. unfold tick_view, carried_timer in *.
  destruct (critical_cases (sensors_of now data st)) as [Hc | Hc].
  - rewrite (process_critical now data ui st Hc).
    split; [apply shutdown_view | reflexivity].
  - rewrite (process_auto pid now data st Hc Ha).
    change (get3 i (timers (towers (initializeState now st))))
      with (get3 i (timers (towers (parsed_state now data st)))) in *.
    apply automatic_control_blocked; [| exact Hnot].
    rewrite <- Hcan. apply canEnableTower_timer. reflexivity.
Qed.

(** X4.  A tower marked unavailable that is not already running is never
    started: unless the operator has taken manual control it ends every tick
    off, and its timer is left as it was. *)
Theorem unavailable_tower_stays_off (now : Z) (data : SensorInput)
        (ui : UiCommands) (st : StateStorage) (i : Idx) :
  auto_mode ui ->
  tower_available cfg i = false ->
  truthy (startTime (carried_timer now st i)) = false ->
  let v := tick_view cfg pid now data ui st i in
  tower_off v /\ v_timer v = carried_timer now st i.
Proof.
  intros Ha Hav Hnot. apply tower_blocked; [exact Ha | | exact Hnot].
  unfold canEnableTower. rewrite Hav. reflexivity.
Qed.

(** X5.  Minimum off-time: a tower stopped less than 180 s ago ends every
    tick off, and its timer is left as it was, unless the operator has taken
    manual control. *)
Theorem minimum_off_time_held (now : Z) (data : SensorInput)
        (ui : UiCommands) (st : StateStorage) (i : Idx) (t : Z) :
  auto_mode ui ->
  carried_timer now st i = mkTimer None (Some t) ->
  t <> 0%Z ->
  (now - t < 180 * 1000)%Z ->
  let v := tick_view cfg pid now data ui st i in
  tower_off v /\ v_timer v = mkTimer None (Some t).
Proof.
  intros Ha Htm Hnz Hoff. cbv zeta. rewrite <- Htm.
  apply tower_blocked; [exact Ha | | rewrite Htm; reflexivity].
  unfold canEnableTower. unfold carried_timer in Htm. rewrite Htm.
  cbn [stopTime].
  assert (Ht : truthy (Some t) = true).
  { simpl. apply Z.eqb_neq in Hnz. now rewrite Hnz. }
  assert (Hsec : Qltb (seconds_since now t) 180 = true).
  { apply Qltb_lt. apply (seconds_since_lt now t 180). exact Hoff. }
  rewrite Ht, Hsec. destruct (negb (tower_available cfg i)); reflexivity.
Qed.

End TowerCommands.

(** ** Heaters, alarms and valves at the end of a tick *)

Section TickOutputs.

Variable cfg : Config.
Variable pid : option PidFn.

Lemma fold_left_preserves {A B C} (p : B -> C) (f : B -> A -> B) (l : list A) :
  (forall b a, p (f b a) = p b) -> forall b, p (fold_left f l b) = p b.
Proof.
  intro Hf. induction l as [| a l IH]; intro b; simpl; [reflexivity |].
  rewrite IH. apply Hf.
Qed.

(** *** What each step leaves of the alarm status and the fault list *)

Lemma applyManualOverrides_reported ui r :
  reported (applyManualOverrides ui r) = reported r.
Proof.
  unfold applyManualOverrides, for_each_idx.
  set (r2 := match ui_controlMode ui with Some m => _ | None => _ end).
  assert (E : reported r2 = reported r).
  { subst r2. destruct (ui_systemEnabled ui), (ui_controlMode ui); reflexivity. }
  rewrite <- E. clearbody r2.
  apply (fold_left_preserves reported (fun acc i => override_tower ui i acc)).
  intros b a. unfold override_tower.
  destruct (get3 a (ui_towerVFDEnable ui));
    destruct (get3 a (ui_towerFanSpeed ui));
    destruct (get3 a (ui_towerHeaterEnable ui)); reflexivity.
Qed.

Lemma controlPumps_reported now sd s r :
  reported (snd (controlPumps cfg now sd (s, r))) = reported r /\
  valves (snd (controlPumps cfg now sd (s, r))) = valves r.
Proof.
  unfold controlPumps.
  destruct (BYPASS_PUMP_STATUS cfg); [split; reflexivity |].
  destruct (changeoverState (pumps s)) as [co |];
    [destruct (now - co_startTime co <? PUMP_CHANGEOVER_OVERLAP_MS)%Z |];
    cbn [snd];
    match goal with
    | |- context [if ?b then _ else _] => destruct b
    end; split; reflexivity.
Qed.

Lemma enableTower_reported now i demand sd sr :
  reported (snd (enableTower pid now i demand sd sr)) = reported (snd sr).
Proof.
  destruct sr as [s r]. unfold enableTower.
  match goal with |- context [calculateTowerSpeed pid now i demand sd ?s'] =>
    destruct (calculateTowerSpeed pid now i demand sd s') as [speed s2] end.
  reflexivity.
Qed.

Lemma enforce_tower_reported now sd i sr :
  reported (snd (enforce_tower now sd i sr)) = reported (snd sr).
Proof.
  destruct sr as [s r]. unfold enforce_tower. break_goal; reflexivity.
Qed.

Lemma controlTowers_reported now d sd sr :
  reported (snd (controlTowers cfg pid now d sd sr)) = reported (snd sr).
Proof.
  destruct sr as [s r]. unfold controlTowers.
  set (sr1 := (s, for_each_idx reset_tower r)).
  set (sr2 := fold_left _ (towersToEnable d) sr1).
  assert (H2 : reported (snd sr2) = reported r).
  { subst sr2.
    rewrite (fold_left_preserves (fun sr => reported (snd sr))).
    - reflexivity.
    - intros b a. destruct (canEnableTower cfg now a (fst b));
        [apply enableTower_reported | reflexivity]. }
  assert (H3 : reported (snd (enforceMinimumRuntimes now sd sr2))
               = reported (snd sr2)).
  { unfold enforceMinimumRuntimes, for_each_idx.
    apply (fold_left_preserves (fun sr => reported (snd sr))
             (fun acc i => enforce_tower now sd i acc)).
    intros. apply enforce_tower_reported. }
  destruct (enforceMinimumRuntimes now sd sr2) as [s3 r3].
  cbn [snd] in *. rewrite <- H2, <- H3. reflexivity.
Qed.

Lemma controlValves_reported sd ui s r :
  reported (snd (controlValves pid sd ui (s, r))) = reported r.
Proof.
  unfold controlValves.
  set (r1 := match ui_bypassValvePosition ui with
             | Some v => set_bypassValvePosition (clamp_valve v) r
             | None => r
             end).
  assert (H1 : reported r1 = reported r).
  { subst r1. destruct (ui_bypassValvePosition ui); reflexivity. }
  rewrite <- H1. clearbody r1.
  destruct (ui_temperingValvePosition ui) as [t |]; [reflexivity |].
  destruct (Qgeb (outdoor (temps sd)) 42); [reflexivity |].
  unfold applyFallbackValveControl.
  destruct pid as [f |];
    [| destruct (Qltb (outdoor (temps sd)) 35); reflexivity].
  destruct (systemEnabled r1);
    [| destruct (Qltb (outdoor (temps sd)) 35); reflexivity].
  match goal with
  | |- context [f ?a ?b] => destruct (f a b) as [[o |] vp]
  end; [reflexivity |].
  destruct (Qltb (outdoor (temps sd)) 35); reflexivity.
Qed.

Lemma controlHeaters_reported t r :
  reported (controlHeaters t r) = reported r /\
  valves (controlHeaters t r) = valves r.
Proof. unfold controlHeaters. break_goal; split; reflexivity. Qed.

Lemma summary_reported r d sd :
  reported (updateControlResultSummary r d sd) = reported r /\
  valves (updateControlResultSummary r d sd) = valves r.
Proof.
  unfold updateControlResultSummary, for_each_idx.
  set (r5 := set_targetSupplyTemp _ _).
  assert (E : reported r5 = reported r /\ valves r5 = valves r)
    by (split; reflexivity).
  destruct E as [E1 E2]. rewrite <- E1, <- E2. clearbody r5.
  split.
  - apply (fold_left_preserves reported (fun acc i => coerce_sub_minimum i acc)).
    intros b a. unfold coerce_sub_minimum. break_goal; reflexivity.
  - apply (fold_left_preserves valves (fun acc i => coerce_sub_minimum i acc)).
    intros b a. unfold coerce_sub_minimum. break_goal; reflexivity.
Qed.

(** *** The current and vibration monitor *)

Lemma monitor_leg_warnings acc l :
  fst (monitor_leg acc l)
  = fst acc ++ push_if (Qgtb (snd l) VFD_CURRENT_WARNING
                        && Qleb (snd l) VFD_CURRENT_CRITICAL)
                       (vfd_warning (fst l)) /\
  reported (snd (monitor_leg acc l)) = reported (snd acc) /\
  valves (snd (monitor_leg acc l)) = valves (snd acc).
Proof.
  destruct acc as [w r], l as [i c]. unfold monitor_leg. cbn [fst snd].
  destruct (Qgtb c VFD_CURRENT_WARNING && Qleb c VFD_CURRENT_CRITICAL).
  - cbn [push_if fst snd]. break_goal; repeat split.
  - cbn [push_if fst snd]. rewrite app_nil_r. repeat split.
Qed.

Lemma monitor_legs_warnings l acc :
  fst (fold_left monitor_leg l acc)
  = fst acc ++ flat_map (fun l => push_if (Qgtb (snd l) VFD_CURRENT_WARNING
                                           && Qleb (snd l) VFD_CURRENT_CRITICAL)
                                          (vfd_warning (fst l))) l /\
  reported (snd (fold_left monitor_leg l acc)) = reported (snd acc) /\
  valves (snd (fold_left monitor_leg l acc)) = valves (snd acc).
Proof.
  revert acc. induction l as [| a l IH]; intro acc; simpl.
  - rewrite app_nil_r. repeat split.
  - destruct (IH (monitor_leg acc a)) as [E1 [E2 E3]].
    destruct (monitor_leg_warnings acc a) as [F1 [F2 F3]].
    rewrite E1, E2, E3, F1, F2, F3, <- app_assoc. repeat split.
Qed.

(** The monitor appends the warnings of the tick to the fault list and
    raises the alarm status when there is one. *)
Lemma monitoring_reported sd r :
  reported (applyCurrentAndVibrationMonitoring cfg sd r)
  = match warnings cfg sd with
    | [] => reported r
    | _ :: _ => ("warning"%string, faultConditions r ++ warnings cfg sd)
    end /\
  valves (applyCurrentAndVibrationMonitoring cfg sd r) = valves r.
Proof.
  unfold applyCurrentAndVibrationMonitoring, warnings.
  destruct (BYPASS_CURRENT_LIMITS cfg).
  - cbn [app].
    destruct (BYPASS_VIBRATION_LIMITS cfg); [split; reflexivity |].
    cbn [app]. fold (vibration_warnings sd).
    destruct (vibration_warnings sd); split; reflexivity.
  - destruct (monitor_legs_warnings (vfd_legs sd) ([], r)) as [E1 [E2 E3]].
    destruct (fold_left monitor_leg (vfd_legs sd) ([], r)) as [w r1].
    cbn [fst snd app] in E1, E2, E3. fold (vfd_warnings sd) in E1. subst w.
    assert (Ef : faultConditions r1 = faultConditions r)
      by (unfold reported in E2; congruence).
    destruct (BYPASS_VIBRATION_LIMITS cfg).
    + rewrite app_nil_r.
      destruct (vfd_warnings sd); [split; assumption |].
      split; [unfold reported; cbn; now rewrite Ef | exact E3].
    + fold (vibration_warnings sd).
      destruct (vfd_warnings sd ++ vibration_warnings sd);
        [split; assumption |].
      split; [unfold reported; cbn; now rewrite Ef | exact E3].
Qed.

Lemma warning_condition_reported (sd : SensorData) :
  warning_condition cfg sd <-> warnings cfg sd <> [].
Proof.
  unfold warning_condition, warnings, vfd_warnings, vibration_warnings.
  split.
  - intros [[Hb [l [Hin [H1 H2]]]] | [Hb [i [H1 H2]]]] Hnil;
      rewrite Hb in Hnil; apply app_eq_nil in Hnil; destruct Hnil as [N1 N2].
    + assert (Hin' : In (vfd_warning (fst l))
                        (flat_map (fun l => push_if
                                              (Qgtb (snd l) VFD_CURRENT_WARNING
                                               && Qleb (snd l) VFD_CURRENT_CRITICAL)
                                              (vfd_warning (fst l))) (vfd_legs sd))).
      { apply (in_flat_map_push
                 (fun l => Qgtb (snd l) VFD_CURRENT_WARNING
                           && Qleb (snd l) VFD_CURRENT_CRITICAL)
                 (fun l => vfd_warning (fst l))).
        exists l. split; [exact Hin |]. split; [| reflexivity].
        apply andb_true_iff. split; [apply Qgtb_gt | apply Qleb_le]; assumption. }
      rewrite N1 in Hin'. exact Hin'.
    + assert (Hin' : In (vibration_warning i)
                        (flat_map (fun i => push_if
                                              (Qgtb (get3 i (vibration sd))
                                                    VIBRATION_WARNING_LIMIT
                                               && Qleb (get3 i (vibration sd))
                                                       VIBRATION_CRITICAL_LIMIT)
                                              (vibration_warning i)) all_idx)).
      { apply (in_flat_map_push
                 (fun i => Qgtb (get3 i (vibration sd)) VIBRATION_WARNING_LIMIT
                           && Qleb (get3 i (vibration sd)) VIBRATION_CRITICAL_LIMIT)
                 vibration_warning).
        exists i. split; [apply in_all_idx |]. split; [| reflexivity].
        apply andb_true_iff. split; [apply Qgtb_gt | apply Qleb_le]; assumption. }
      rewrite N2 in Hin'. exact Hin'.
  - intro Hne.
    match type of Hne with ?a ++ ?b <> [] =>
      destruct a as [| f1 r1] eqn:Ea; [destruct b as [| f2 r2] eqn:Eb |] end.
    + exfalso. apply Hne. reflexivity.
    + right. destruct (BYPASS_VIBRATION_LIMITS cfg); [discriminate |].
      split; [reflexivity |].
      assert (Hin : In f2 (f2 :: r2)) by (left; reflexivity).
      rewrite <- Eb in Hin.
      apply (in_flat_map_push
               (fun i => Qgtb (get3 i (vibration sd)) VIBRATION_WARNING_LIMIT
                         && Qleb (get3 i (vibration sd)) VIBRATION_CRITICAL_LIMIT)
               vibration_warning) in Hin.
      destruct Hin as [x [_ [Hf _]]]. apply andb_true_iff in Hf.
      destruct Hf as [Hf1 Hf2]. apply Qgtb_gt in Hf1. apply Qleb_le in Hf2.
      exists x. split; assumption.
    + left. destruct (BYPASS_CURRENT_LIMITS cfg); [discriminate |].
      split; [reflexivity |].
      assert (Hin : In f1 (f1 :: r1)) by (left; reflexivity).
      rewrite <- Ea in Hin.
      apply (in_flat_map_push
               (fun l => Qgtb (snd l) VFD_CURRENT_WARNING
                         && Qleb (snd l) VFD_CURRENT_CRITICAL)
               (fun l => vfd_warning (fst l))) in Hin.
      destruct Hin as [x [Hx [Hf _]]]. apply andb_true_iff in Hf.
      destruct Hf as [Hf1 Hf2]. apply Qgtb_gt in Hf1. apply Qleb_le in Hf2.
      exists x. repeat split; assumption.
Qed.

(** The report of an automatic tick is the report of the monitor run on a
    clean snapshot. *)
Lemma automatic_control_reported now sd ui s r :
  reported (fst (automatic_control cfg pid now sd ui (s, r)))
  = match warnings cfg sd with
    | [] => reported r
    | _ :: _ => ("warning"%string, faultConditions r ++ warnings cfg sd)
    end.
Proof.
  unfold automatic_control.
  set (s1 := set_towers _ s).
  set (d := calculateStaging sd _).
  destruct (controlPumps_reported now sd s1 r) as [E1 _].
  set (sr1 := controlPumps cfg now sd (s1, r)) in *.
  pose proof (controlTowers_reported now d sd sr1) as E2.
  destruct (controlTowers cfg pid now d sd sr1) as [s2 r2].
  pose proof (controlValves_reported sd ui s2 r2) as E3.
  destruct (controlValves pid sd ui (s2, r2)) as [s3 r3].
  cbn [fst snd] in *.
  destruct (controlHeaters_reported (outdoor (temps sd)) r3) as [E4 _].
  set (r4 := controlHeaters (outdoor (temps sd)) r3) in *.
  destruct (monitoring_reported sd r4) as [E5 _].
  destruct (summary_reported (applyCurrentAndVibrationMonitoring cfg sd r4) d sd)
    as [E6 _].
  rewrite E6, E5.
  assert (E : reported r4 = reported r) by congruence.
  assert (Ef : faultConditions r4 = faultConditions r)
    by (unfold reported in E; congruence).
  rewrite E, Ef. reflexivity.
Qed.

Lemma tick_reported (now : Z) (data : SensorInput) (ui : UiCommands)
      (st : StateStorage) :
  ~ critical_condition cfg (sensors_of now data st) ->
  auto_mode ui ->
  reported (fst (processCoolingTowerControl cfg pid now data ui st))
  = match warnings cfg (sensors_of now data st) with
    | [] => ("normal"%string, [])
    | _ :: _ => ("warning"%string, warnings cfg (sensors_of now data st))
    end.
Proof.
  intros Hc Ha.
  rewrite (process_auto pid now data st Hc Ha), automatic_control_reported.
  pose proof (applyManualOverrides_reported ui
                (passed_result cfg now (sensors_of now data st))) as E.
  rewrite E.
  assert (Ef : faultConditions
                 (applyManualOverrides ui
                    (passed_result cfg now (sensors_of now data st))) = [])
    by (unfold reported in E; injection E; intros F _; rewrite F; reflexivity).
  rewrite Ef. reflexivity.
Qed.

(** X6.  The alarm status of an automatic tick: 'warning' exactly when some
    reading sits in a warning band, 'normal' with an empty fault list
    otherwise. *)
Theorem alarm_status_of_automatic_tick (now : Z) (data : SensorInput)
        (ui : UiCommands) (st : StateStorage) :
  ~ critical_condition cfg (sensors_of now data st) ->
  auto_mode ui ->
  let r := fst (processCoolingTowerControl cfg pid now data ui st) in
  (warning_condition cfg (sensors_of now data st) ->
   alarmStatus r = "warning"%string /\ faultConditions r <> []) /\
  (~ warning_condition cfg (sensors_of now data st) ->
   alarmStatus r = "normal"%string /\ faultConditions r = []).
Proof.
  intros Hc Ha r. subst r.
  pose proof (tick_reported now data st Hc Ha) as E.
  pose proof (warning_condition_reported (sensors_of now data st)) as W.
  unfold reported in E.
  destruct (warnings cfg (sensors_of now data st)) as [| w ws].
  - injection E as E1 E2. rewrite E1, E2. split.
    + intro H. apply W in H. exfalso. apply H. reflexivity.
    + intros _. split; reflexivity.
  - injection E as E1 E2. rewrite E1, E2. split.
    + intros _. split; [reflexivity | discriminate].
    + intro H. exfalso. apply H. apply W. discriminate.
Qed.

(** *** The speed cut of the current monitor *)

Lemma monitor_leg_caps acc l :
  Qgtb (snd l) VFD_CURRENT_WARNING && Qleb (snd l) VFD_CURRENT_CRITICAL = true ->
  get3 (fst l) (towerFanSpeed (snd (monitor_leg acc l))) <= VFD_LOW_SPEED.
Proof.
  destruct acc as [w r], l as [i c]. cbn [fst snd]. intro Hb.
  unfold monitor_leg. rewrite Hb.
  destruct (Qgtb (get3 i (towerFanSpeed r)) VFD_LOW_SPEED) eqn:E; cbn [snd].
  - cbn [set_towerFanSpeed towerFanSpeed]. rewrite get3_set3_same. lra.
  - apply Qgtb_le in E. exact E.
Qed.

Lemma monitor_leg_keeps_cap acc l j :
  get3 j (towerFanSpeed (snd acc)) <= VFD_LOW_SPEED ->
  get3 j (towerFanSpeed (snd (monitor_leg acc l))) <= VFD_LOW_SPEED.
Proof.
  intro H.
  destruct (monitor_leg_view (mkState (default_towers 0) (default_pumps 0)
                                      default_pidStates default_lastGoodTemps)
                             acc l j) as [_ [_ [_ [_ Hb]]]].
  cbn [tower_view v_speed snd] in Hb.
  destruct Hb as [Hb | [Hb _]]; rewrite Hb; [exact H | lra].
Qed.

Lemma monitor_legs_cap l legs :
  Qgtb (snd l) VFD_CURRENT_WARNING && Qleb (snd l) VFD_CURRENT_CRITICAL = true ->
  forall acc,
    In l legs \/ get3 (fst l) (towerFanSpeed (snd acc)) <= VFD_LOW_SPEED ->
    get3 (fst l) (towerFanSpeed (snd (fold_left monitor_leg legs acc)))
    <= VFD_LOW_SPEED.
Proof.
  intro Hb. induction legs as [| a legs IH]; intros acc H; simpl.
  - destruct H as [[] | H]. exact H.
  - apply IH. destruct H as [[E | H] | H].
    + right. subst a. apply monitor_leg_caps. exact Hb.
    + left. exact H.
    + right. apply monitor_leg_keeps_cap. exact H.
Qed.

Lemma monitoring_cap sd r l :
  BYPASS_CURRENT_LIMITS cfg = false ->
  In l (vfd_legs sd) ->
  VFD_CURRENT_WARNING < snd l -> snd l <= VFD_CURRENT_CRITICAL ->
  get3 (fst l) (towerFanSpeed (applyCurrentAndVibrationMonitoring cfg sd r))
  <= VFD_LOW_SPEED.
Proof.
  intros Hby Hin H1 H2. unfold applyCurrentAndVibrationMonitoring. rewrite Hby.
  assert (Hb : Qgtb (snd l) VFD_CURRENT_WARNING
               && Qleb (snd l) VFD_CURRENT_CRITICAL = true).
  { apply andb_true_iff. split; [apply Qgtb_gt | apply Qleb_le]; assumption. }
  pose proof (@monitor_legs_cap l (vfd_legs sd) Hb ([], r) (or_introl Hin)) as H.
  destruct (fold_left monitor_leg (vfd_legs sd) ([], r)) as [w r1].
  cbn [snd] in H. break_goal; exact H.
Qed.

Lemma summary_speeds r d sd :
  speeds_ok r ->
  towerFanSpeed (updateControlResultSummary r d sd) = towerFanSpeed r.
Proof.
  intro Hok. unfold updateControlResultSummary, for_each_idx.
  set (r5 := set_targetSupplyTemp _ _).
  assert (H5 : speeds_ok r5) by exact Hok.
  simpl fold_left.
  rewrite (coerce_ok One r5 (H5 One)).
  rewrite (coerce_ok Two r5 (H5 Two)).
  rewrite (coerce_ok Three r5 (H5 Three)).
  reflexivity.
Qed.

Lemma automatic_control_cap now sd ui s r l :
  BYPASS_CURRENT_LIMITS cfg = false ->
  In l (vfd_legs sd) ->
  VFD_CURRENT_WARNING < snd l -> snd l <= VFD_CURRENT_CRITICAL ->
  get3 (fst l) (towerFanSpeed (fst (automatic_control cfg pid now sd ui (s, r))))
  <= VFD_LOW_SPEED.
Proof.
  intros Hby Hin H1 H2. unfold automatic_control.
  set (s1 := set_towers _ s).
  set (d := calculateStaging sd _).
  set (sr1 := controlPumps cfg now sd (s1, r)).
  pose proof (controlTowers_hold cfg pid now d sd sr1) as [_ Hs].
  destruct (controlTowers cfg pid now d sd sr1) as [s2 r2].
  cbn [snd] in Hs.
  pose proof (controlValves_frame pid sd ui s2 r2) as [_ [_ [_ [_ [_ Ff]]]]].
  destruct (controlValves pid sd ui (s2, r2)) as [s3 r3].
  cbn [fst snd] in Ff.
  destruct (controlHeaters_frame (outdoor (temps sd)) r3) as [_ [_ Hf4]].
  set (r4 := controlHeaters (outdoor (temps sd)) r3) in *.
  assert (Hs4 : speeds_ok r4).
  { intro j. rewrite Hf4, Ff. apply Hs. }
  pose proof (monitoring_speeds cfg sd Hs4) as Hs5.
  pose proof (@monitoring_cap sd r4 l Hby Hin H1 H2) as Hcap.
  set (r5 := applyCurrentAndVibrationMonitoring cfg sd r4) in *.
  cbn [fst].
  rewrite (summary_speeds d sd Hs5). exact Hcap.
Qed.

(** X7.  A VFD leg current in the warning band (above 40 A) cuts the speed
    reference of its tower back to the low speed at most and is reported in
    the fault list of the automatic tick. *)
Theorem vfd_warning_cuts_speed (now : Z) (data : SensorInput)
        (ui : UiCommands) (st : StateStorage) (l : Idx * Q) :
  ~ critical_condition cfg (sensors_of now data st) ->
  auto_mode ui ->
  BYPASS_CURRENT_LIMITS cfg = false ->
  In l (vfd_legs (sensors_of now data st)) ->
  VFD_CURRENT_WARNING < snd l ->
  let r := fst (processCoolingTowerControl cfg pid now data ui st) in
  get3 (fst l) (towerFanSpeed r) <= VFD_LOW_SPEED /\
  In (vfd_warning (fst l)) (faultConditions r).
Proof.
  intros Hc Ha Hby Hin Hw r. subst r.
  assert (Hle : snd l <= VFD_CURRENT_CRITICAL).
  { destruct (Qlt_le_dec VFD_CURRENT_CRITICAL (snd l)) as [H | H]; [| exact H].
    exfalso. apply Hc. right. split; [exact Hby |]. left.
    apply over_limit_leg. exists l. auto. }
  split.
  - rewrite (process_auto pid now data st Hc Ha).
    apply automatic_control_cap; assumption.
  - pose proof (tick_reported now data st Hc Ha) as E.
    assert (Hin' : In (vfd_warning (fst l))
                      (warnings cfg (sensors_of now data st))).
    { unfold warnings. rewrite Hby. apply in_or_app. left.
      apply (in_flat_map_push
               (fun l => Qgtb (snd l) VFD_CURRENT_WARNING
                         && Qleb (snd l) VFD_CURRENT_CRITICAL)
               (fun l => vfd_warning (fst l))).
      exists l. split; [exact Hin |]. split; [| reflexivity].
      apply andb_true_iff. split; [apply Qgtb_gt | apply Qleb_le]; assumption. }
    destruct (warnings cfg (sensors_of now data st)) as [| w ws];
      [destruct Hin' |].
    unfold reported in E. injection E as _ E2. rewrite E2. exact Hin'.
Qed.

(** *** Heaters *)

Lemma controlHeaters_heaters t r :
  towerHeaterEnable (controlHeaters t r)
  = if Qltb t 35 then all3 true
    else if Qgtb t 45 then all3 false
    else towerHeaterEnable r.
Proof. unfold controlHeaters. break_goal; reflexivity. Qed.

Lemma automatic_control_heaters now sd ui s r :
  towerHeaterEnable (fst (automatic_control cfg pid now sd ui (s, r)))
  = if Qltb (outdoor (temps sd)) 35 then all3 true
    else if Qgtb (outdoor (temps sd)) 45 then all3 false
    else towerHeaterEnable r.
Proof.
  unfold automatic_control.
  set (s1 := set_towers _ s).
  set (d := calculateStaging sd _).
  destruct (controlPumps_result_frame cfg now sd s1 r) as [P1 _].
  set (sr1 := controlPumps cfg now sd (s1, r)) in *.
  pose proof (controlTowers_outside cfg pid now d sd sr1) as Ht.
  destruct (controlTowers cfg pid now d sd sr1) as [s2 r2].
  destruct Ht as [_ [_ [_ [_ [_ [T1 _]]]]]]. cbn [fst snd] in T1.
  pose proof (controlValves_frame pid sd ui s2 r2) as [_ [_ [_ [V1 _]]]].
  destruct (controlValves pid sd ui (s2, r2)) as [s3 r3].
  cbn [fst snd] in *.
  destruct (summary_frame (applyCurrentAndVibrationMonitoring cfg sd
                             (controlHeaters (outdoor (temps sd)) r3)) d sd)
    as [_ S1].
  destruct (monitoring_frame cfg sd (controlHeaters (outdoor (temps sd)) r3))
    as [_ [_ M1]].
  rewrite S1, M1, controlHeaters_heaters, V1, T1, P1. reflexivity.
Qed.

(** X8.  Heaters on an automatic tick: all on below 35 F and all off above
    45 F, whatever the UI commands; inside the band a heater is on exactly
    when the UI commands it on. *)
Theorem heaters_follow_outdoor_temperature (now : Z) (data : SensorInput)
        (ui : UiCommands) (st : StateStorage) :
  ~ critical_condition cfg (sensors_of now data st) ->
  auto_mode ui ->
  let t := outdoor (temps (sensors_of now data st)) in
  let h := towerHeaterEnable
             (fst (processCoolingTowerControl cfg pid now data ui st)) in
  (t < 35 -> h = all3 true) /\
  (45 < t -> h = all3 false) /\
  (35 <= t -> t <= 45 ->
   forall i, get3 i h = or_default (get3 i (ui_towerHeaterEnable ui)) false).
Proof.
  intros Hc Ha t h. subst h.
  rewrite (process_auto pid now data st Hc Ha), automatic_control_heaters.
  fold t. repeat split.
  - intro H. apply Qltb_lt in H. rewrite H. reflexivity.
  - intro H. assert (H' : Qltb t 35 = false) by (apply Qltb_ge; lra).
    apply Qgtb_gt in H. rewrite H', H. reflexivity.
  - intros H1 H2 i.
    assert (E1 : Qltb t 35 = false) by (apply Qltb_ge; exact H1).
    assert (E2 : Qgtb t 45 = false) by (apply Qgtb_le; exact H2).
    rewrite E1, E2.
    destruct (applyManualOverrides_per_tower ui
                (passed_result cfg now (sensors_of now data st)) i)
      as [_ [_ E]].
    rewrite E.
    change (towerHeaterEnable (passed_result cfg now (sensors_of now data st)))
      with (all3 false).
    rewrite get3_all3. reflexivity.
Qed.

(** *** Valves *)

Lemma controlPumps_pidStates now sd s r :
  pidStates (fst (controlPumps cfg now sd (s, r))) = pidStates s.
Proof.
  unfold controlPumps.
  destruct (BYPASS_PUMP_STATUS cfg); [reflexivity |].
  destruct (changeoverState (pumps s)) as [co |]; [| reflexivity].
  destruct (now - co_startTime co <? PUMP_CHANGEOVER_OVERLAP_MS)%Z; reflexivity.
Qed.

Lemma valves_eq r r' :
  valves r = valves r' ->
  bypassValvePosition r = bypassValvePosition r' /\
  temperingValvePosition r = temperingValvePosition r'.
Proof. unfold valves. intro H. injection H as H1 H2. split; assumption. Qed.

(** The valve commands and the valve PID state of an automatic tick are
    those of the valve controller run on a snapshot with the valve commands
    and the system enable of [r] and the valve PID state of [s]. *)
Lemma automatic_control_valves now sd ui s r :
  exists s2 r2,
    valves r2 = valves r /\ systemEnabled r2 = systemEnabled r /\
    valve_pid (pidStates s2) = valve_pid (pidStates s) /\
    let out := automatic_control cfg pid now sd ui (s, r) in
    bypassValvePosition (fst out)
    = bypassValvePosition (snd (controlValves pid sd ui (s2, r2))) /\
    temperingValvePosition (fst out)
    = temperingValvePosition (snd (controlValves pid sd ui (s2, r2))) /\
    valve_pid (pidStates (snd out))
    = valve_pid (pidStates (fst (controlValves pid sd ui (s2, r2)))).
Proof.
  unfold automatic_control.
  set (s1 := set_towers _ s).
  set (d := calculateStaging sd _).
  destruct (controlPumps_reported now sd s1 r) as [_ P1].
  destruct (controlPumps_result_frame cfg now sd s1 r) as [_ P2].
  pose proof (controlPumps_pidStates now sd s1 r) as P3.
  set (sr1 := controlPumps cfg now sd (s1, r)) in *.
  pose proof (controlTowers_outside cfg pid now d sd sr1) as Ht.
  destruct (controlTowers cfg pid now d sd sr1) as [s2 r2].
  destruct Ht as [_ [T1 [_ [_ [_ [_ [T2 [T3 T4]]]]]]]]. cbn [fst snd] in *.
  exists s2, r2.
  split; [unfold valves in *; congruence |].
  split; [congruence |].
  split; [rewrite T1, P3; reflexivity |].
  destruct (controlValves pid sd ui (s2, r2)) as [s3 r3].
  cbn [fst snd].
  destruct (controlHeaters_reported (outdoor (temps sd)) r3) as [_ E4].
  destruct (monitoring_reported sd (controlHeaters (outdoor (temps sd)) r3))
    as [_ E5].
  destruct (summary_reported (applyCurrentAndVibrationMonitoring cfg sd
                                (controlHeaters (outdoor (temps sd)) r3)) d sd)
    as [_ E6].
  assert (E : valves (updateControlResultSummary
                        (applyCurrentAndVibrationMonitoring cfg sd
                           (controlHeaters (outdoor (temps sd)) r3)) d sd)
              = valves r3) by congruence.
  apply valves_eq in E. destruct E as [E7 E8].
  repeat split; assumption.
Qed.

(** X9.  Warm weather: with the outdoor temperature at 42 F or above and no
    tempering override, an automatic tick returns both valves closed (2.0 V)
    and resets the valve PID state (integral 0, last output 2.0). *)
Theorem warm_weather_valves_closed (now : Z) (data : SensorInput)
        (ui : UiCommands) (st : StateStorage) :
  ~ critical_condition cfg (sensors_of now data st) ->
  auto_mode ui ->
  ui_temperingValvePosition ui = None ->
  42 <= outdoor (temps (sensors_of now data st)) ->
  let out := processCoolingTowerControl cfg pid now data ui st in
  bypassValvePosition (fst out) = 2.0 /\
  temperingValvePosition (fst out) = 2.0 /\
  integral (valve_pid (pidStates (snd out))) = 0 /\
  lastOutput (valve_pid (pidStates (snd out))) = 2.0.
Proof.
  intros Hc Ha Hui Hwarm out. subst out.
  rewrite (process_auto pid now data st Hc Ha).
  destruct (automatic_control_valves now (sensors_of now data st) ui
              (parsed_state now data st)
              (applyManualOverrides ui
                 (passed_result cfg now (sensors_of now data st))))
    as [s2 [r2 [_ [_ [_ [E1 [E1' E2]]]]]]].
  rewrite E1, E1', E2.
  unfold controlValves. rewrite Hui.
  apply Qgeb_ge in Hwarm. rewrite Hwarm.
  repeat split.
Qed.

(** X10.  Cold weather without the PID library: below 42 F and with no
    tempering override an automatic tick opens the tempering valve to 7.6 V
    below 35 F and to 6.0 V otherwise, and keeps the bypass valve closed. *)
Theorem cold_weather_fallback_valves (now : Z) (data : SensorInput)
        (ui : UiCommands) (st : StateStorage) :
  ~ critical_condition cfg (sensors_of now data st) ->
  auto_mode ui ->
  ui_temperingValvePosition ui = None ->
  outdoor (temps (sensors_of now data st)) < 42 ->
  let r := fst (processCoolingTowerControl cfg None now data ui st) in
  bypassValvePosition r = 2.0 /\
  (outdoor (temps (sensors_of now data st)) < 35 ->
   temperingValvePosition r = 7.6) /\
  (35 <= outdoor (temps (sensors_of now data st)) ->
   temperingValvePosition r = 6.0).
Proof.
  intros Hc Ha Hui Hcold r. subst r.
  rewrite (process_auto None now data st Hc Ha).
  unfold automatic_control.
  set (sd := sensors_of now data st) in *.
  set (s1 := set_towers _ _).
  set (d := calculateStaging sd _).
  set (sr1 := controlPumps cfg now sd _).
  destruct (controlTowers cfg None now d sd sr1) as [s2 r2].
  unfold controlValves. rewrite Hui.
  apply Qgeb_lt in Hcold. rewrite Hcold.
  unfold applyFallbackValveControl.
  destruct (Qltb (outdoor (temps sd)) 35) eqn:E;
    cbn [fst snd].
  - apply Qltb_lt in E.
    match goal with |- context [updateControlResultSummary ?x d sd] =>
      destruct (summary_reported x d sd) as [_ S] end.
    match goal with |- context [applyCurrentAndVibrationMonitoring cfg sd ?x] =>
      destruct (monitoring_reported sd x) as [_ M] end.
    match goal with |- context [controlHeaters (outdoor (temps sd)) ?x] =>
      destruct (controlHeaters_reported (outdoor (temps sd)) x) as [_ H] end.
    rewrite M, H in S. apply valves_eq in S. destruct S as [S1 S2].
    rewrite S1, S2. cbn. repeat split. intro. lra.
  - apply Qltb_ge in E.
    match goal with |- context [updateControlResultSummary ?x d sd] =>
      destruct (summary_reported x d sd) as [_ S] end.
    match goal with |- context [applyCurrentAndVibrationMonitoring cfg sd ?x] =>
      destruct (monitoring_reported sd x) as [_ M] end.
    match goal with |- context [controlHeaters (outdoor (temps sd)) ?x] =>
      destruct (controlHeaters_reported (outdoor (temps sd)) x) as [_ H] end.
    rewrite M, H in S. apply valves_eq in S. destruct S as [S1 S2].
    rewrite S1, S2. cbn. repeat split. intro. lra.
Qed.

End TickOutputs.

(** ** The tempering valve under PID control *)

Section TemperingValve.

Variable f : PidFn.


End TemperingValve.

(** ** Rotation through the available equipment *)

Section Rotation.

Variable cfg : Config.

Lemma next_idx_eqs :
  next_idx One = Two /\ next_idx Two = Three /\ next_idx Three = One.
Proof. repeat split. Qed.

(** The scan tries the next index, then the one after, and settles on the
    index it started from. *)
Lemma scan_next_cases (avail : Idx -> bool) (cur : Idx) :
  scan_next avail 2 cur
  = if avail (next_idx cur) then next_idx cur
    else if avail (next_idx (next_idx cur)) then next_idx (next_idx cur)
    else cur.
Proof.
  cbn [scan_next].
  assert (E : next_idx (next_idx (next_idx cur)) = cur)
    by (destruct cur; reflexivity).
  rewrite E. reflexivity.
Qed.

Ltac scan_cases avail cur :=
  rewrite ?scan_next_cases in *;
  destruct cur;
  repeat first [ progress change (next_idx One) with Two in *
               | progress change (next_idx Two) with Three in *
               | progress change (next_idx Three) with One in * ];
  destruct (avail One) eqn:A1, (avail Two) eqn:A2, (avail Three) eqn:A3;
  cbv beta iota in *.

Lemma scan_next_found (avail : Idx -> bool) (cur : Idx) :
  (exists j, avail j = true) -> avail (scan_next avail 2 cur) = true.
Proof.
  intros [j Hj]. scan_cases avail cur; try assumption;
    destruct j; congruence.
Qed.

Lemma scan_next_moves (avail : Idx -> bool) (cur : Idx) :
  (exists j, j <> cur /\ avail j = true) -> scan_next avail 2 cur <> cur.
Proof.
  intros [j [Hne Hj]]. scan_cases avail cur; try discriminate;
    destruct j; congruence.
Qed.

Lemma scan_next_nearest (avail : Idx -> bool) (cur : Idx) :
  avail (next_idx cur) = true -> scan_next avail 2 cur = next_idx cur.
Proof. intro H. rewrite scan_next_cases, H. reflexivity. Qed.

Lemma scan_next_none (avail : Idx -> bool) (cur : Idx) :
  avail (scan_next avail 2 cur) = false -> forall j, avail j = false.
Proof.
  intros H j. scan_cases avail cur; try congruence; destruct j; assumption.
Qed.

(** X12.  A due weekly rotation (more than a week since the last one, some
    tower available) moves the lead to the nearest available tower in the
    cycle 1, 2, 3, 1: the new lead is available, it is the next tower when
    that one is available, it differs from the old lead when another tower
    is available, the rotation time becomes now, and the timers and ramp
    states are left alone. *)
Theorem lead_rotation_when_due (now : Z) (tw : Towers) :
  (WEEK_IN_MS < now - lastRotationTime tw)%Z ->
  (exists j, tower_available cfg j = true) ->
  let tw' := performLeadTowerRotation cfg now tw in
  tower_available cfg (leadTower tw') = true /\
  lastRotationTime tw' = now /\
  (tower_available cfg (next_idx (leadTower tw)) = true ->
   leadTower tw' = next_idx (leadTower tw)) /\
  ((exists j, j <> leadTower tw /\ tower_available cfg j = true) ->
   leadTower tw' <> leadTower tw) /\
  timers tw' = timers tw /\ speedRamping tw' = speedRamping tw.
Proof.
  intros Hdue Hav tw'. subst tw'. unfold performLeadTowerRotation.
  apply Z.gtb_lt in Hdue. rewrite Hdue.
  pose proof (scan_next_found (tower_available cfg) (leadTower tw) Hav) as Hf.
  rewrite Hf. cbn [set_lead leadTower lastRotationTime timers speedRamping].
  repeat split.
  - exact Hf.
  - apply scan_next_nearest.
  - apply scan_next_moves.
Qed.

(** X13.  The pump selector returns the nearest available pump after the
    current one in the cycle 1, 2, 3, 1: a pump it returns is available, it is
    the next pump when that one is available, it is the current pump only
    when no other pump is available, and it returns nothing exactly when no
    pump is available. *)
Theorem findNextAvailablePump_nearest (currentPump : Idx) :
  match findNextAvailablePump cfg currentPump with
  | Some p =>
      pump_available cfg p = true /\
      (pump_available cfg (next_idx currentPump) = true ->
       p = next_idx currentPump) /\
      (p = currentPump ->
       forall j, j <> currentPump -> pump_available cfg j = false)
  | None => forall j, pump_available cfg j = false
  end.
Proof.
  unfold findNextAvailablePump.
  destruct (pump_available cfg (scan_next (pump_available cfg) 2 currentPump))
    eqn:E.
  - split; [exact E |]. split; [apply scan_next_nearest |].
    intros Hp j Hj.
    destruct (pump_available cfg j) eqn:Ej; [| reflexivity].
    exfalso.
    apply (@scan_next_moves (pump_available cfg) currentPump); [| exact Hp].
    exists j. split; assumption.
  - apply (@scan_next_none (pump_available cfg) currentPump). exact E.
Qed.

Lemma findNextAvailablePump_available (cur p : Idx) :
  findNextAvailablePump cfg cur = Some p -> pump_available cfg p = true.
Proof.
  unfold findNextAvailablePump.
  destruct (pump_available cfg (scan_next (pump_available cfg) 2 cur)) eqn:E;
    [| discriminate].
  intro H. injection H as H. subst p. exact E.
Qed.

End Rotation.

(** ** The pump supervisor *)

Section PumpSupervisor.

Variable cfg : Config.
Variable pid : option PidFn.

Lemma Idx_eqb_false (i j : Idx) : Idx_eqb i j = false -> i <> j.
Proof.
  destruct i, j; intro H; vm_compute in H; try discriminate H;
    intro E; discriminate E.
Qed.

Lemma low_current (c : Q) : Qltb (num_or c 0) 10.0 = true <-> c < 10.
Proof.
  unfold num_or. destruct (Qeq_bool c 0) eqn:E; qbool.
  - split; intro; [lra | apply Qltb_lt; lra].
  - split; intro H; [apply Qltb_lt in H | apply Qltb_lt]; lra.
Qed.

(** The failure check leaves the pump state alone or records a failover:
    the debounce has elapsed, the active pump draws less than 10 A, and a
    changeover to an available pump starts now. *)
Lemma checkPumpFailure_cases sd ps r now :
  checkPumpFailure cfg sd ps r now = ps \/
  (exists p, pump_available cfg p = true /\
     (30000 < now - lastFailoverTime ps)%Z /\
     get3 (activePump ps) (pumpCurrents sd) < 10 /\
     checkPumpFailure cfg sd ps r now
     = mkPumps (activePump ps) (pump_lastRotationTime ps)
               (pump_runtimeTracking ps)
               (Some (mkChangeover p now)) (failoverCount ps + 1) now).
Proof.
  unfold checkPumpFailure.
  match goal with |- context [if ?c then _ else ps] => destruct c eqn:Ec end;
    [| left; reflexivity].
  apply andb_true_iff in Ec. destruct Ec as [Ec E3].
  apply andb_true_iff in Ec. destruct Ec as [_ E2].
  apply low_current in E2. apply Z.gtb_lt in E3.
  destruct (findNextAvailablePump cfg (activePump ps)) as [p |] eqn:En;
    [| left; reflexivity].
  destruct (pump_available cfg p) eqn:Ep; [| left; reflexivity].
  right. exists p. repeat split; assumption.
Qed.

(** The rotation check leaves the pump state alone or starts a changeover
    to another, available pump. *)
Lemma checkPumpRotation_cases ps now :
  checkPumpRotation cfg ps now = ps \/
  (changeoverState ps = None /\
   (WEEK_IN_MS <= now - pump_lastRotationTime ps)%Z /\
   exists p, pump_available cfg p = true /\ p <> activePump ps /\
     checkPumpRotation cfg ps now
     = mkPumps (activePump ps) now (pump_runtimeTracking ps)
               (Some (mkChangeover p now))
               (failoverCount ps) (lastFailoverTime ps)).
Proof.
  unfold checkPumpRotation.
  match goal with |- context [if ?c then _ else ps] => destruct c eqn:Ec end;
    [| left; reflexivity].
  apply andb_true_iff in Ec. destruct Ec as [E1 E2].
  rewrite Z.geb_leb in E1. apply Z.leb_le in E1.
  destruct (findNextAvailablePump cfg (activePump ps)) as [p |] eqn:En;
    [| left; reflexivity].
  destruct (Idx_eqb p (activePump ps)) eqn:Ee; cbn [negb]; [left; reflexivity |].
  right. split.
  - destruct (changeoverState ps); [discriminate | reflexivity].
  - split; [exact E1 |]. exists p.
    split; [apply (findNextAvailablePump_available cfg _ En) |].
    split; [apply Idx_eqb_false; exact Ee | reflexivity].
Qed.

(** The pump supervisor: the changeover handler, then the failure and
    rotation checks, then the enable of the active pump and the runtime
    account. *)
Lemma controlPumps_steps now sd s r :
  BYPASS_PUMP_STATUS cfg = false ->
  exists ps1 r1,
    ((changeoverState (pumps s) = None /\ ps1 = pumps s /\ r1 = r) \/
     (exists co,
         changeoverState (pumps s) = Some co /\
         (now - co_startTime co < PUMP_CHANGEOVER_OVERLAP_MS)%Z /\
         ps1 = pumps s /\
         r1 = enable_pump (newPump co) (enable_pump (activePump (pumps s)) r)) \/
     (exists co,
         changeoverState (pumps s) = Some co /\
         (PUMP_CHANGEOVER_OVERLAP_MS <= now - co_startTime co)%Z /\
         ps1 = mkPumps (newPump co) (pump_lastRotationTime (pumps s))
                       (pump_runtimeTracking (pumps s)) None
                       (failoverCount (pumps s)) (lastFailoverTime (pumps s)) /\
         r1 = r)) /\
    let ps3 := checkPumpRotation cfg (checkPumpFailure cfg sd ps1 r1 now) now in
    controlPumps cfg now sd (s, r)
    = (set_pumps (updatePumpRuntime ps3) s,
       if negb (is_some (changeoverState ps3))
       then enable_pump (activePump ps3) r1 else r1).
Proof.
  intro Hby. unfold controlPumps. rewrite Hby.
  destruct (changeoverState (pumps s)) as [co |] eqn:Eco.
  - destruct (now - co_startTime co <? PUMP_CHANGEOVER_OVERLAP_MS)%Z eqn:El.
    + apply Z.ltb_lt in El.
      eexists _, _. split; [right; left; exists co; repeat split; exact El |].
      reflexivity.
    + apply Z.ltb_ge in El.
      eexists _, _. split; [right; right; exists co; repeat split; exact El |].
      reflexivity.
  - eexists _, _. split; [left; repeat split |]. reflexivity.
Qed.

Lemma updatePumpRuntime_fields ps :
  activePump (updatePumpRuntime ps) = activePump ps /\
  changeoverState (updatePumpRuntime ps) = changeoverState ps /\
  failoverCount (updatePumpRuntime ps) = failoverCount ps /\
  lastFailoverTime (updatePumpRuntime ps) = lastFailoverTime ps /\
  pump_lastRotationTime (updatePumpRuntime ps) = pump_lastRotationTime ps.
Proof. repeat split. Qed.

(** *** Changeovers *)

Lemma controlPumps_changeover now sd s r co :
  BYPASS_PUMP_STATUS cfg = false ->
  changeoverState (pumps (fst (controlPumps cfg now sd (s, r)))) = Some co ->
  changeoverState (pumps s) = Some co \/
  (co_startTime co = now /\ pump_available cfg (newPump co) = true).
Proof.
  intros Hby.
  destruct (controlPumps_steps now sd s r Hby) as [ps1 [r1 [Hh E]]].
  cbv zeta in E. rewrite E. clear E.
  cbn [fst set_pumps pumps updatePumpRuntime changeoverState].
  destruct (checkPumpRotation_cases (checkPumpFailure cfg sd ps1 r1 now) now)
    as [Er | [_ [_ [p [Hp [_ Er]]]]]]; rewrite Er; clear Er.
  - destruct (checkPumpFailure_cases sd ps1 r1 now)
      as [Ef | [p [Hp [_ [_ Ef]]]]]; rewrite Ef; clear Ef.
    + intro H. left.
      destruct Hh as [[H0 [E1 _]] | [[co' [H0 [_ [E1 _]]]] | [co' [_ [_ [E1 _]]]]]];
        subst ps1; cbn in H; congruence.
    + cbn. intro H. injection H as H. subst co. right. split; [reflexivity | exact Hp].
  - cbn. intro H. injection H as H. subst co. right. split; [reflexivity | exact Hp].
Qed.

(** X14.  A changeover found in the pump state after an automatic tick
    either was already pending when the tick began, or was started by this
    tick at time now towards a pump that is marked available. *)
Theorem changeover_targets_available (now : Z) (data : SensorInput)
        (ui : UiCommands) (st : StateStorage) (co : Changeover) :
  BYPASS_PUMP_STATUS cfg = false ->
  ~ critical_condition cfg (sensors_of now data st) ->
  auto_mode ui ->
  changeoverState
    (pumps (snd (processCoolingTowerControl cfg pid now data ui st))) = Some co ->
  changeoverState (carried_pumps now st) = Some co \/
  (co_startTime co = now /\ pump_available cfg (newPump co) = true).
Proof.
  intros Hby Hc Ha.
  destruct (@tick_pumps cfg pid now data ui st Hc Ha) as [s [r [Hs [_ [E _]]]]].
  cbv zeta in E. rewrite E. unfold carried_pumps. rewrite <- Hs.
  apply controlPumps_changeover. exact Hby.
Qed.

(** *** Failovers *)

Lemma controlPumps_failover_event now sd s r :
  BYPASS_PUMP_STATUS cfg = false ->
  let ps := pumps s in
  let ps' := pumps (fst (controlPumps cfg now sd (s, r))) in
  (failoverCount ps' = failoverCount ps /\
   lastFailoverTime ps' = lastFailoverTime ps) \/
  (failoverCount ps' = (failoverCount ps + 1)%Z /\
   lastFailoverTime ps' = now /\
   (30000 < now - lastFailoverTime ps)%Z /\
   get3 (activePump ps') (pumpCurrents sd) < 10 /\
   exists p, pump_available cfg p = true /\
             changeoverState ps' = Some (mkChangeover p now)).
Proof.
  intros Hby ps ps'. subst ps ps'.
  destruct (controlPumps_steps now sd s r Hby) as [ps1 [r1 [Hh E]]].
  cbv zeta in E. rewrite E. clear E.
  cbn [fst set_pumps pumps].
  destruct (updatePumpRuntime_fields
              (checkPumpRotation cfg (checkPumpFailure cfg sd ps1 r1 now) now))
    as [U1 [U2 [U3 [U4 _]]]].
  rewrite U1, U2, U3, U4. clear U1 U2 U3 U4.
  assert (H1 : failoverCount ps1 = failoverCount (pumps s) /\
               lastFailoverTime ps1 = lastFailoverTime (pumps s)).
  { destruct Hh as [[_ [E1 _]] | [[co [_ [_ [E1 _]]]] | [co [_ [_ [E1 _]]]]]];
      subst ps1; split; reflexivity. }
  destruct H1 as [Hc Ht].
  destruct (checkPumpFailure_cases sd ps1 r1 now)
    as [Ef | [p [Hp [Hd [Hlow Ef]]]]]; rewrite Ef; clear Ef.
  - left.
    destruct (checkPumpRotation_cases ps1 now)
      as [Er | [_ [_ [q [_ [_ Er]]]]]]; rewrite Er; cbn; split; congruence.
  - right.
    destruct (checkPumpRotation_cases
                (mkPumps (activePump ps1) (pump_lastRotationTime ps1)
                         (pump_runtimeTracking ps1) (Some (mkChangeover p now))
                         (failoverCount ps1 + 1) now) now)
      as [Er | [Hn _]]; [| discriminate Hn].
    rewrite Er. cbn. rewrite Hc, <- Ht.
    repeat split; try assumption. exists p. split; [exact Hp | reflexivity].
Qed.

(** X15.  An automatic tick records at most one failover, and only when more
    than 30 s have passed since the previous one and the active pump draws
    less than 10 A; it then stamps the failover with now and starts a
    changeover to an available pump.  Otherwise the failover count and time
    are left alone. *)
Theorem failover_is_debounced (now : Z) (data : SensorInput)
        (ui : UiCommands) (st : StateStorage) :
  BYPASS_PUMP_STATUS cfg = false ->
  ~ critical_condition cfg (sensors_of now data st) ->
  auto_mode ui ->
  let ps := carried_pumps now st in
  let ps' := pumps (snd (processCoolingTowerControl cfg pid now data ui st)) in
  (failoverCount ps' = failoverCount ps /\
   lastFailoverTime ps' = lastFailoverTime ps) \/
  (failoverCount ps' = (failoverCount ps + 1)%Z /\
   lastFailoverTime ps' = now /\
   (30000 < now - lastFailoverTime ps)%Z /\
   get3 (activePump ps') (pumpCurrents (sensors_of now data st)) < 10 /\
   exists p, pump_available cfg p = true /\
             changeoverState ps' = Some (mkChangeover p now)).
Proof.
  intros Hby Hc Ha ps ps'. subst ps ps'.
  destruct (@tick_pumps cfg pid now data ui st Hc Ha) as [s [r [Hs [_ [E _]]]]].
  cbv zeta in E. rewrite E. unfold carried_pumps. rewrite <- Hs.
  apply (controlPumps_failover_event now (sensors_of now data st) s r Hby).
Qed.

(** *** Steady operation and the overlap *)



Lemma controlPumps_overlap now sd s r co :
  BYPASS_PUMP_STATUS cfg = false ->
  changeoverState (pumps s) = Some co ->
  (now - co_startTime co < PUMP_CHANGEOVER_OVERLAP_MS)%Z ->
  let out := controlPumps cfg now sd (s, r) in
  pumpEnable (snd out)
  = set3 (newPump co) true (set3 (activePump (pumps s)) true (pumpEnable r)) /\
  activePump (pumps (fst out)) = activePump (pumps s) /\
  is_some (changeoverState (pumps (fst out))) = true.
Proof.
  intros Hby Hco Hel out. subst out.
  destruct (controlPumps_steps now sd s r Hby) as [ps1 [r1 [Hh E]]].
  cbv zeta in E. rewrite E. clear E.
  assert (H1 : ps1 = pumps s /\
               r1 = enable_pump (newPump co)
                      (enable_pump (activePump (pumps s)) r)).
  { destruct Hh as [[H0 _] | [[co' [H0 [_ [E1 E2]]]] | [co' [H0 [Hge _]]]]].
    - congruence.
    - assert (co' = co) by congruence. subst co'. split; assumption.
    - assert (co' = co) by congruence. subst co'. lia. }
  destruct H1 as [E1 E2]. subst ps1.
  cbn [fst snd set_pumps pumps].
  destruct (updatePumpRuntime_fields
              (checkPumpRotation cfg
                 (checkPumpFailure cfg sd (pumps s) r1 now) now))
    as [U1 [U2 _]].
  rewrite U1, U2. clear U1 U2.
  assert (Hps : exists ps2,
             checkPumpRotation cfg (checkPumpFailure cfg sd (pumps s) r1 now) now
             = ps2 /\
             activePump ps2 = activePump (pumps s) /\
             is_some (changeoverState ps2) = true).
  { destruct (checkPumpFailure_cases sd (pumps s) r1 now)
      as [Ef | [p [_ [_ [_ Ef]]]]]; rewrite Ef; clear Ef.
    - destruct (checkPumpRotation_cases (pumps s) now)
        as [Er | [Hn _]]; [| congruence].
      rewrite Er. eexists. split; [reflexivity |].
      split; [reflexivity | now rewrite Hco].
    - match goal with |- context [checkPumpRotation cfg ?x now] =>
        destruct (checkPumpRotation_cases x now) as [Er | [Hn _]];
        [| discriminate Hn] end.
      rewrite Er. eexists. split; [reflexivity |]. split; reflexivity. }
  destruct Hps as [ps2 [Eps [Ha Hs]]]. rewrite Eps, Ha, Hs. cbn [negb].
  subst r1. repeat split.
Qed.

(** X17.  Overlap: while a changeover is younger than 5 s an automatic tick
    commands both the active pump and the pump taking over, leaves any third
    pump off, and keeps the active pump and a pending changeover in the pump
    state. *)
Theorem pumps_overlap_during_changeover (now : Z) (data : SensorInput)
        (ui : UiCommands) (st : StateStorage) (co : Changeover) :
  BYPASS_PUMP_STATUS cfg = false ->
  ~ critical_condition cfg (sensors_of now data st) ->
  auto_mode ui ->
  let ps := carried_pumps now st in
  changeoverState ps = Some co ->
  (now - co_startTime co < PUMP_CHANGEOVER_OVERLAP_MS)%Z ->
  let out := processCoolingTowerControl cfg pid now data ui st in
  pumpEnable (fst out)
  = set3 (newPump co) true (set3 (activePump ps) true (all3 false)) /\
  activePump (pumps (snd out)) = activePump ps /\
  is_some (changeoverState (pumps (snd out))) = true.
Proof.
  intros Hby Hc Ha ps Hco Hel out. subst ps out.
  destruct (@tick_pumps cfg pid now data ui st Hc Ha)
    as [s [r [Hs [Hr [E1 E2]]]]].
  cbv zeta in E1, E2. rewrite E1, E2. unfold carried_pumps in *.
  rewrite <- Hs in *.
  destruct (controlPumps_overlap now (sensors_of now data st) s r Hby Hco Hel)
    as [A1 [A2 A3]].
  rewrite A1, A2, A3, Hr. repeat split.
Qed.

(** *** Ticks that command no pump *)

Lemma controlPumps_some_pump now sd s r :
  BYPASS_PUMP_STATUS cfg = false ->
  let out := controlPumps cfg now sd (s, r) in
  (exists j, get3 j (pumpEnable (snd out)) = true) \/
  (exists co, changeoverState (pumps (fst out)) = Some co /\
              co_startTime co = now).
Proof.
  intros Hby out. subst out.
  destruct (controlPumps_steps now sd s r Hby) as [ps1 [r1 [Hh E]]].
  cbv zeta in E. rewrite E. clear E.
  cbn [fst snd set_pumps pumps].
  destruct (updatePumpRuntime_fields
              (checkPumpRotation cfg (checkPumpFailure cfg sd ps1 r1 now) now))
    as [_ [U2 _]].
  rewrite U2. clear U2.
  set (ps3 := checkPumpRotation cfg (checkPumpFailure cfg sd ps1 r1 now) now).
  destruct (changeoverState ps3) as [co |] eqn:E3; cbn [is_some negb].
  - destruct Hh as [[H0 [E1 E2]] | [[co' [H0 [_ [E1 E2]]]] | [co' [H0 [_ [E1 E2]]]]]].
    + right. exists co. split; [reflexivity |]. subst ps3 ps1.
      destruct (checkPumpRotation_cases (checkPumpFailure cfg sd (pumps s) r1 now) now)
        as [Er | [_ [_ [q [_ [_ Er]]]]]]; rewrite Er in E3;
        [| cbn in E3; first [congruence | injection E3 as E3; subst co; reflexivity]].
      destruct (checkPumpFailure_cases sd (pumps s) r1 now)
        as [Ef | [p [_ [_ [_ Ef]]]]]; rewrite Ef in E3;
        [congruence | cbn in E3; first [congruence | injection E3 as E3; subst co; reflexivity]].
    + left. exists (newPump co'). subst r1.
      cbn [enable_pump pumpEnable set_pumpEnable]. apply get3_set3_same.
    + right. exists co. split; [reflexivity |]. subst ps3 ps1.
      match type of E3 with context [checkPumpRotation cfg ?x now] =>
        destruct (checkPumpRotation_cases x now)
          as [Er | [_ [_ [q [_ [_ Er]]]]]]; rewrite Er in E3;
        [| cbn in E3; first [congruence | injection E3 as E3; subst co; reflexivity]] end.
      match type of E3 with context [checkPumpFailure cfg sd ?x r1 now] =>
        destruct (checkPumpFailure_cases sd x r1 now)
          as [Ef | [p [_ [_ [_ Ef]]]]]; rewrite Ef in E3;
        [cbn in E3; first [congruence | injection E3 as E3; subst co; reflexivity] | cbn in E3; first [congruence | injection E3 as E3; subst co; reflexivity]] end.
  - left. exists (activePump ps3).
    cbn [enable_pump pumpEnable set_pumpEnable]. apply get3_set3_same.
Qed.

(** X18.  An automatic tick commands at least one pump, except in the tick
    that starts a changeover: a tick that returns every pump enable false
    leaves a changeover started at now in the pump state. *)
Theorem no_pump_only_when_changeover_begins (now : Z) (data : SensorInput)
        (ui : UiCommands) (st : StateStorage) :
  BYPASS_PUMP_STATUS cfg = false ->
  ~ critical_condition cfg (sensors_of now data st) ->
  auto_mode ui ->
  let out := processCoolingTowerControl cfg pid now data ui st in
  (exists j, get3 j (pumpEnable (fst out)) = true) \/
  (exists co, changeoverState (pumps (snd out)) = Some co /\
              co_startTime co = now).
Proof.
  intros Hby Hc Ha out. subst out.
  destruct (@tick_pumps cfg pid now data ui st Hc Ha)
    as [s [r [_ [_ [E1 E2]]]]].
  cbv zeta in E1, E2. rewrite E1, E2.
  apply (controlPumps_some_pump now (sensors_of now data st) s r Hby).
Qed.

End PumpSupervisor.

(** ** The staging decision *)

Section Staging.

Lemma clamped_demand (lo hi x : Q) :
  lo <= hi -> lo <= Math_max lo (Math_min hi x) /\ Math_max lo (Math_min hi x) <= hi.
Proof.
  intro H.
  destruct (Math_max_spec lo (Math_min hi x)) as [[L E] | [L E]]; rewrite E;
    destruct (Math_min_spec hi x) as [[L' E'] | [L' E']]; rewrite E' in *;
    split; lra.
Qed.

Lemma running_count_range (tw : Towers) :
  (0 <= getCurrentlyRunningTowerCount tw <= 3)%Z.
Proof.
  unfold getCurrentlyRunningTowerCount.
  destruct (truthy (startTime (p1 (timers tw))));
    destruct (truthy (startTime (p2 (timers tw))));
    destruct (truthy (startTime (p3 (timers tw)))); lia.
Qed.

Lemma calculateStaging_range (sd : SensorData) (tw : Towers) :
  let d := calculateStaging sd tw in
  ((demandedTowers d = 0%Z /\ sd_coolingDemand d = 0) \/
   ((1 <= demandedTowers d <= 3)%Z /\
    28 <= sd_coolingDemand d /\ sd_coolingDemand d <= 100)) /\
  sd_leadTower d = leadTower tw /\
  lagTowers d = (next_idx (leadTower tw), next_idx (next_idx (leadTower tw))).
Proof.
  unfold calculateStaging.
  pose proof (running_count_range tw) as Hc.
  set (dT := hpSupply (temps sd) - targetSetpoint sd).
  match goal with |- context [let '(_, _) := ?x in _] => set (pr := x) end.
  assert (Hpr : (fst pr = 0%Z /\ snd pr = 0) \/
                ((1 <= fst pr <= 3)%Z /\ 28 <= snd pr /\ snd pr <= 100)).
  { subst pr.
    match goal with |- context [if ?b then (0%Z, 0) else _] => destruct b end;
      [left; split; reflexivity |].
    match goal with |- context [if ?b then _ else _] => destruct b end.
    { right. cbn [fst snd]. split; [lia |]. apply clamped_demand. lra. }
    match goal with |- context [if ?b then _ else (0%Z, 0)] => destruct b end;
      [| left; split; reflexivity].
    right.
    repeat match goal with |- context [if ?b then _ else _] => destruct b end;
      cbn [fst snd]; (split; [lia |]);
      try (split; lra).
    destruct (@clamped_demand 28 50 (28 + (dT - 10) * 2)) as [A B]; [lra |].
    split; lra. }
  destruct pr as [demanded demand].
  cbn [fst snd demandedTowers sd_coolingDemand sd_leadTower lagTowers] in *.
  split; [exact Hpr |]. split; [reflexivity |].
  destruct (leadTower tw); reflexivity.
Qed.

(** X19.  The staging decision is bounded: it demands 0 to 3 towers; with no
    tower demanded the cooling demand is 0, and with a tower demanded it lies
    between 28 and 100 percent. *)
Theorem staging_decision_bounded (sd : SensorData) (tw : Towers) :
  let d := calculateStaging sd tw in
  (demandedTowers d = 0%Z /\ sd_coolingDemand d = 0) \/
  ((1 <= demandedTowers d <= 3)%Z /\
   28 <= sd_coolingDemand d /\ sd_coolingDemand d <= 100).
Proof. exact (proj1 (calculateStaging_range sd tw)). Qed.

(** X20.  The towers the commander is asked to enable are the first
    `demanded` towers of the cycle that starts at the lead tower, so no tower
    is listed twice and the lead always comes first. *)
Theorem towers_enabled_in_cycle_order (sd : SensorData) (tw : Towers) :
  let d := calculateStaging sd tw in
  towersToEnable d
  = firstn (Z.to_nat (demandedTowers d)) (staging_cycle (leadTower tw)) /\
  NoDup (staging_cycle (leadTower tw)).
Proof.
  intro d. subst d.
  destruct (calculateStaging_range sd tw) as [Hr [Hl Hg]].
  cbv zeta in Hr, Hl, Hg.
  split.
  - unfold towersToEnable, staging_cycle. rewrite Hl, Hg. cbn [fst snd].
    set (n := demandedTowers (calculateStaging sd tw)) in *.
    assert (Hn : n = 0%Z \/ n = 1%Z \/ n = 2%Z \/ n = 3%Z)
      by (destruct Hr as [[H _] | [H _]]; lia).
    clearbody n.
    destruct Hn as [E | [E | [E | E]]]; subst n; reflexivity.
  - unfold staging_cycle.
    destruct (leadTower tw); repeat constructor; simpl;
      intros H; repeat destruct H as [H | H]; try discriminate H; exact H.
Qed.

End Staging.

(** ** The fallback speed *)

(** X21.  Without the PID library the speed target moves from a last output
    inside [V_min, V_max] by at most 0.1 V per call and stays inside
    [V_min, V_max]: up when the demand is above 50 percent, down when it is
    below 30 percent, unchanged in between; the new target is recorded as
    last output. *)
Theorem fallback_speed_step (coolingDemand : Q) (ps : PidState) :
  VFD_MIN_SPEED <= lastOutput ps ->
  lastOutput ps <= VFD_MAX_SPEED ->
  let out := calculateFallbackSpeed coolingDemand ps in
  VFD_MIN_SPEED <= fst out /\ fst out <= VFD_MAX_SPEED /\
  Qabs (fst out - lastOutput ps) <= 0.1 /\
  lastOutput (snd out) = fst out /\
  (50 < coolingDemand -> lastOutput ps <= fst out) /\
  (coolingDemand < 30 -> fst out <= lastOutput ps) /\
  (30 <= coolingDemand -> coolingDemand <= 50 -> fst out = lastOutput ps).
Proof.
  intros Hmin Hmax out. subst out. unfold calculateFallbackSpeed.
  unfold VFD_MIN_SPEED, VFD_MAX_SPEED in *.
  assert (E0 : num_or (lastOutput ps) 2.6 = lastOutput ps).
  { unfold num_or. destruct (Qeq_bool (lastOutput ps) 0) eqn:E; [| reflexivity].
    apply Qeq_bool_iff in E. lra. }
  rewrite E0. cbn [fst snd lastOutput].
  destruct (Qgtb coolingDemand 50) eqn:E1.
  - apply Qgtb_gt in E1.
    destruct (Math_min_spec (lastOutput ps + 0.1) 4.8) as [[L E] | [L E]];
      rewrite E; repeat split; try lra;
      try (apply Qabs_Qle_condition; split; lra);
      intros; lra.
  - apply Qgtb_le in E1.
    destruct (Qltb coolingDemand 30) eqn:E2.
    + apply Qltb_lt in E2.
      destruct (Math_max_spec (lastOutput ps - 0.1) 2.6) as [[L E] | [L E]];
        rewrite E; repeat split; try lra;
        try (apply Qabs_Qle_condition; split; lra);
        intros; lra.
    + apply Qltb_ge in E2.
      repeat split; try lra;
        try (apply Qabs_Qle_condition; split; lra);
        intros; lra.
Qed.

(** ** Parsing the sensor snapshot *)

Section Parsing.

Lemma parseFloat_or_missing (v : Raw) (d : Q) :
  missing v -> parseFloat_or v d = d.
Proof.
  destruct v as [| q | q]; simpl; intro H; [reflexivity | | contradiction].
  apply Qeq_bool_iff in H. rewrite H. reflexivity.
Qed.

Lemma sanitize_loop_temp_default (d lastGood : Q) :
  40 <= d -> d <= 120 -> sanitize_loop_temp d lastGood = (d, d).
Proof.
  intros H1 H2. unfold sanitize_loop_temp.
  apply Qgeb_ge in H1. apply Qleb_le in H2. rewrite H1, H2. reflexivity.
Qed.

(** X22.  A loop temperature whose channel is absent from the snapshot or
    holds the number zero reads as its default (tower supply 75, tower return
    85, HP return 85, HP supply 75): the default is handed on as the sanitized
    reading and overwrites the last-good value, which is not consulted. *)
Theorem missing_temperature_reads_default (d : SensorInput) (lg : LastGood) :
  let out := parseSensorData d lg in
  (missing (CH10 d) ->
   towerSupply (temps (fst out)) = 75 /\ lg_towerSupply (snd out) = 75) /\
  (missing (CH9 d) ->
   towerReturn (temps (fst out)) = 85 /\ lg_towerReturn (snd out) = 85) /\
  (missing (CH1 d) ->
   hpReturn (temps (fst out)) = 85 /\ lg_hpReturn (snd out) = 85) /\
  (missing (CH2 d) ->
   hpSupply (temps (fst out)) = 75 /\ lg_hpSupply (snd out) = 75).
Proof.
  intro out. subst out. unfold parseSensorData, sanitizeTemperatures, parsed_temps.
  cbn [towerSupply towerReturn hpReturn hpSupply outdoor].
  destruct (sanitize_loop_temp (parseFloat_or (CH10 d) 75) (lg_towerSupply lg))
    as [ts lts] eqn:E1.
  destruct (sanitize_loop_temp (parseFloat_or (CH9 d) 85) (lg_towerReturn lg))
    as [tr ltr] eqn:E2.
  destruct (sanitize_loop_temp (parseFloat_or (CH1 d) 85) (lg_hpReturn lg))
    as [hr lhr] eqn:E3.
  destruct (sanitize_loop_temp (parseFloat_or (CH2 d) 75) (lg_hpSupply lg))
    as [hs lhs] eqn:E4.
  cbn [fst snd temps towerSupply towerReturn hpReturn hpSupply
       lg_towerSupply lg_towerReturn lg_hpReturn lg_hpSupply].
  split; [| split; [| split]]; intro H.
  - rewrite (@parseFloat_or_missing (CH10 d) 75 H) in E1.
    rewrite sanitize_loop_temp_default in E1 by lra. split; congruence.
  - rewrite (@parseFloat_or_missing (CH9 d) 85 H) in E2.
    rewrite sanitize_loop_temp_default in E2 by lra. split; congruence.
  - rewrite (@parseFloat_or_missing (CH1 d) 85 H) in E3.
    rewrite sanitize_loop_temp_default in E3 by lra. split; congruence.
  - rewrite (@parseFloat_or_missing (CH2 d) 75 H) in E4.
    rewrite sanitize_loop_temp_default in E4 by lra. split; congruence.
Qed.

(** X23.  The outdoor temperature handed to the control logic always lies in
    [-20, 120] F: a parsed value in that range is kept, any other is replaced
    by 75 F; no last-good value is kept for it. *)
Theorem outdoor_temperature_sanitized (d : SensorInput) (lg : LastGood) :
  let raw := parseFloat_or (outdoorTemp d) 75 in
  let t := outdoor (temps (fst (parseSensorData d lg))) in
  - (20) <= t /\ t <= 120 /\
  (- (20) <= raw /\ raw <= 120 -> t = raw) /\
  (raw < - (20) \/ 120 < raw -> t = 75).
Proof.
  intros raw t. subst t. unfold parseSensorData, sanitizeTemperatures, parsed_temps.
  cbn [towerSupply towerReturn hpReturn hpSupply outdoor]. fold raw.
  destruct (sanitize_loop_temp (parseFloat_or (CH10 d) 75) (lg_towerSupply lg)).
  destruct (sanitize_loop_temp (parseFloat_or (CH9 d) 85) (lg_towerReturn lg)).
  destruct (sanitize_loop_temp (parseFloat_or (CH1 d) 85) (lg_hpReturn lg)).
  destruct (sanitize_loop_temp (parseFloat_or (CH2 d) 75) (lg_hpSupply lg)).
  cbn [fst temps outdoor]. unfold sanitize_outdoor.
  destruct (Qgeb raw (-20) && Qleb raw 120) eqn:E.
  - apply andb_true_iff in E. destruct E as [E1 E2].
    apply Qgeb_ge in E1. apply Qleb_le in E2.
    repeat split; try lra; intros; lra.
  - apply andb_false_iff in E.
    repeat split; try lra; try reflexivity.
    intros [H1 H2]. exfalso. destruct E as [E | E].
    + apply Qgeb_lt in E. lra.
    + apply Qleb_gt in E. lra.
Qed.

End Parsing.

(** ** The further properties at concrete inputs *)

Lemma tower_commands_off_or_running_witness :
  let v := tick_view COOLING_TOWER_CONFIG None 1000000 hot_input no_ui
                     empty_storage One in
  tower_off v \/ tower_running v.
Proof.
  exact (@tower_commands_off_or_running COOLING_TOWER_CONFIG None 1000000
           hot_input no_ui empty_storage One auto_mode_no_ui).
Defined.

Lemma tower_enable_matches_timer_witness :
  let v := tick_view COOLING_TOWER_CONFIG None 1000000 hot_input no_ui
                     empty_storage One in
  v_enable v = truthy (startTime (v_timer v)).
Proof.
  assert (Hc : ~ critical_condition COOLING_TOWER_CONFIG
                   (sensors_of 1000000 hot_input empty_storage))
    by (apply no_fault_computed; vm_compute; reflexivity).
  assert (Hn : 1000000%Z <> 0%Z) by discriminate.
  exact (@tower_enable_matches_timer COOLING_TOWER_CONFIG None 1000000
           hot_input no_ui empty_storage One Hc auto_mode_no_ui Hn).
Defined.

Lemma tower_startup_speed_witness :
  let v := tick_view COOLING_TOWER_CONFIG None 1000000 hot_input no_ui
                     running_storage One in
  v_enable v = true /\ v_speed v = VFD_MIN_SPEED.
Proof.
  assert (Hc : ~ critical_condition COOLING_TOWER_CONFIG
                   (sensors_of 1000000 hot_input running_storage))
    by (apply no_fault_computed; vm_compute; reflexivity).
  assert (Hs : startTime
                 (v_timer (tick_view COOLING_TOWER_CONFIG None 1000000 hot_input
                                     no_ui running_storage One))
               = Some 900000%Z) by (vm_compute; reflexivity).
  assert (Hn : 900000%Z <> 0%Z) by discriminate.
  assert (Hr : (1000000 - 900000 < 420 * 1000)%Z) by reflexivity.
  exact (@tower_startup_speed COOLING_TOWER_CONFIG None 1000000 hot_input no_ui
           running_storage One 900000 Hc auto_mode_no_ui Hs Hn Hr).
Defined.

Lemma unavailable_tower_stays_off_witness :
  let v := tick_view COOLING_TOWER_CONFIG None 1000000 hot_input no_ui
                     empty_storage Three in
  tower_off v /\ v_timer v = carried_timer 1000000 empty_storage Three.
Proof.
  exact (@unavailable_tower_stays_off COOLING_TOWER_CONFIG None 1000000
           hot_input no_ui empty_storage Three auto_mode_no_ui eq_refl eq_refl).
Defined.

Lemma minimum_off_time_held_witness :
  let v := tick_view COOLING_TOWER_CONFIG None 1000000 hot_input no_ui
                     cooling_storage One in
  tower_off v /\ v_timer v = mkTimer None (Some 940000%Z).
Proof.
  assert (Hn : 940000%Z <> 0%Z) by discriminate.
  assert (Hr : (1000000 - 940000 < 180 * 1000)%Z) by reflexivity.
  exact (@minimum_off_time_held COOLING_TOWER_CONFIG None 1000000 hot_input
           no_ui cooling_storage One 940000 auto_mode_no_ui eq_refl Hn Hr).
Defined.

Lemma warning_input_not_critical :
  ~ critical_condition COOLING_TOWER_CONFIG
      (sensors_of 1000000 warning_input empty_storage).
Proof. apply no_fault_computed. vm_compute. reflexivity. Qed.

Lemma alarm_status_of_automatic_tick_witness :
  let r := fst (processCoolingTowerControl COOLING_TOWER_CONFIG None 1000000
                  warning_input no_ui empty_storage) in
  alarmStatus r = "warning"%string /\ faultConditions r <> [].
Proof.
  assert (Hw : warning_condition COOLING_TOWER_CONFIG
                 (sensors_of 1000000 warning_input empty_storage)).
  { left. split; [reflexivity |]. exists (One, 42).
    split; [left; reflexivity |].
    split; [vm_compute; reflexivity | vm_compute; discriminate]. }
  exact (proj1 (@alarm_status_of_automatic_tick COOLING_TOWER_CONFIG None
                  1000000 warning_input no_ui empty_storage
                  warning_input_not_critical auto_mode_no_ui) Hw).
Defined.

Lemma vfd_warning_cuts_speed_witness :
  let r := fst (processCoolingTowerControl COOLING_TOWER_CONFIG None 1000000
                  warning_input no_ui empty_storage) in
  get3 One (towerFanSpeed r) <= VFD_LOW_SPEED /\
  In (vfd_warning One) (faultConditions r).
Proof.
  assert (Hin : In (One, 42)
                   (vfd_legs (sensors_of 1000000 warning_input empty_storage)))
    by (left; reflexivity).
  assert (Hw : VFD_CURRENT_WARNING < snd (One, 42)) by (vm_compute; reflexivity).
  exact (@vfd_warning_cuts_speed COOLING_TOWER_CONFIG None 1000000
           warning_input no_ui empty_storage (One, 42)
           warning_input_not_critical auto_mode_no_ui eq_refl Hin Hw).
Defined.

Lemma auto_mode_heaters_on_ui : auto_mode heaters_on_ui.
Proof. split; [discriminate | left; reflexivity]. Qed.

Lemma heaters_follow_outdoor_temperature_witness :
  towerHeaterEnable
    (fst (processCoolingTowerControl COOLING_TOWER_CONFIG None 1000000
            hot_input heaters_on_ui empty_storage)) = all3 false.
Proof.
  assert (Hc : ~ critical_condition COOLING_TOWER_CONFIG
                   (sensors_of 1000000 hot_input empty_storage))
    by (apply no_fault_computed; vm_compute; reflexivity).
  assert (Ht : 45 < outdoor (temps (sensors_of 1000000 hot_input empty_storage)))
    by (vm_compute; reflexivity).
  exact (proj1 (proj2 (@heaters_follow_outdoor_temperature COOLING_TOWER_CONFIG
                         None 1000000 hot_input heaters_on_ui empty_storage
                         Hc auto_mode_heaters_on_ui)) Ht).
Defined.

Lemma warm_weather_valves_closed_witness :
  let out := processCoolingTowerControl COOLING_TOWER_CONFIG None 1000000
               hot_input no_ui empty_storage in
  bypassValvePosition (fst out) = 2.0 /\
  temperingValvePosition (fst out) = 2.0 /\
  integral (valve_pid (pidStates (snd out))) = 0 /\
  lastOutput (valve_pid (pidStates (snd out))) = 2.0.
Proof.
  assert (Hc : ~ critical_condition COOLING_TOWER_CONFIG
                   (sensors_of 1000000 hot_input empty_storage))
    by (apply no_fault_computed; vm_compute; reflexivity).
  assert (Ht : 42 <= outdoor (temps (sensors_of 1000000 hot_input empty_storage)))
    by (vm_compute; discriminate).
  exact (@warm_weather_valves_closed COOLING_TOWER_CONFIG None 1000000
           hot_input no_ui empty_storage Hc auto_mode_no_ui eq_refl Ht).
Defined.

Lemma cold_weather_fallback_valves_witness :
  let r := fst (processCoolingTowerControl COOLING_TOWER_CONFIG None 1000000
                  (outdoor_input 30) no_ui empty_storage) in
  bypassValvePosition r = 2.0 /\ temperingValvePosition r = 7.6.
Proof.
  assert (Hc : ~ critical_condition COOLING_TOWER_CONFIG
                   (sensors_of 1000000 (outdoor_input 30) empty_storage))
    by (apply no_fault_computed; vm_compute; reflexivity).
  assert (H42 : outdoor (temps (sensors_of 1000000 (outdoor_input 30)
                                           empty_storage)) < 42)
    by (vm_compute; reflexivity).
  assert (H35 : outdoor (temps (sensors_of 1000000 (outdoor_input 30)
                                           empty_storage)) < 35)
    by (vm_compute; reflexivity).
  pose proof (@cold_weather_fallback_valves COOLING_TOWER_CONFIG 1000000
                (outdoor_input 30) no_ui empty_storage Hc auto_mode_no_ui
                eq_refl H42) as H.
  exact (conj (proj1 H) (proj1 (proj2 H) H35)).
Defined.


(** The rate limit follows the library's state, not the recorded position:
    with a library that writes its answer to [lastOutput], a valve recorded
    at 2.0 V is commanded to 10 V in one tick. *)
Lemma rate_limit_follows_library_state :
  let sd := sensors_of 1000000 (outdoor_input 30) empty_storage in
  let s := set_valve_pid (mkPidState 0 0 2.0)
             (initializeState 1000000 empty_storage) in
  let out := controlValves (Some writing_pid) sd no_ui
               (s, initializeControlResult 1000000 sd) in
  lastOutput (valve_pid (pidStates s)) = 2.0 /\
  temperingValvePosition (snd out) == 10 /\
  lastOutput (valve_pid (pidStates (fst out))) == 10.
Proof. cbv zeta. split; [reflexivity |]. split; vm_compute; reflexivity. Qed.

Lemma lead_rotation_when_due_witness :
  let tw' := performLeadTowerRotation COOLING_TOWER_CONFIG 1000000000
               (default_towers 0) in
  tower_available COOLING_TOWER_CONFIG (leadTower tw') = true /\
  lastRotationTime tw' = 1000000000%Z /\
  leadTower tw' = Two.
Proof.
  assert (Hd : (WEEK_IN_MS < 1000000000 - lastRotationTime (default_towers 0))%Z)
    by reflexivity.
  assert (Hav : exists j, tower_available COOLING_TOWER_CONFIG j = true)
    by (exists One; reflexivity).
  pose proof (@lead_rotation_when_due COOLING_TOWER_CONFIG 1000000000
                (default_towers 0) Hd Hav) as H.
  exact (conj (proj1 H)
           (conj (proj1 (proj2 H)) (proj1 (proj2 (proj2 H)) eq_refl))).
Defined.

Lemma failover_not_critical :
  ~ critical_condition ALL_AVAILABLE_CONFIG
      (sensors_of failover_T0 failover_input failover_storage).
Proof. apply no_fault_computed. vm_compute. reflexivity. Qed.

Lemma changeover_targets_available_witness :
  changeoverState (carried_pumps failover_T0 failover_storage)
  = Some (mkChangeover Two failover_T0) \/
  (co_startTime (mkChangeover Two failover_T0) = failover_T0 /\
   pump_available ALL_AVAILABLE_CONFIG (newPump (mkChangeover Two failover_T0))
   = true).
Proof.
  assert (Hco : changeoverState
                  (pumps (snd (processCoolingTowerControl ALL_AVAILABLE_CONFIG
                                 None failover_T0 failover_input no_ui
                                 failover_storage)))
                = Some (mkChangeover Two failover_T0))
    by (vm_compute; reflexivity).
  exact (@changeover_targets_available ALL_AVAILABLE_CONFIG None failover_T0
           failover_input no_ui failover_storage (mkChangeover Two failover_T0)
           eq_refl failover_not_critical auto_mode_no_ui Hco).
Defined.

Lemma failover_is_debounced_witness :
  let ps := carried_pumps failover_T0 failover_storage in
  let ps' := pumps (snd (processCoolingTowerControl ALL_AVAILABLE_CONFIG None
                           failover_T0 failover_input no_ui failover_storage)) in
  (failoverCount ps' = failoverCount ps /\
   lastFailoverTime ps' = lastFailoverTime ps) \/
  (failoverCount ps' = (failoverCount ps + 1)%Z /\
   lastFailoverTime ps' = failover_T0 /\
   (30000 < failover_T0 - lastFailoverTime ps)%Z /\
   get3 (activePump ps')
        (pumpCurrents (sensors_of failover_T0 failover_input failover_storage))
   < 10 /\
   exists p, pump_available ALL_AVAILABLE_CONFIG p = true /\
             changeoverState ps' = Some (mkChangeover p failover_T0)).
Proof.
  exact (@failover_is_debounced ALL_AVAILABLE_CONFIG None failover_T0
           failover_input no_ui failover_storage
           eq_refl failover_not_critical auto_mode_no_ui).
Defined.



Lemma overlap_not_critical :
  ~ critical_condition COOLING_TOWER_CONFIG
      (sensors_of 1000000 healthy_pump_input overlap_storage).
Proof. apply no_fault_computed. vm_compute. reflexivity. Qed.

Lemma pumps_overlap_during_changeover_witness :
  let out := processCoolingTowerControl COOLING_TOWER_CONFIG None 1000000
               healthy_pump_input no_ui overlap_storage in
  pumpEnable (fst out) = mk3 true true false /\
  activePump (pumps (snd out)) = One /\
  is_some (changeoverState (pumps (snd out))) = true.
Proof.
  assert (Hel : (1000000 - co_startTime (mkChangeover Two 998000)
                 < PUMP_CHANGEOVER_OVERLAP_MS)%Z) by reflexivity.
  exact (@pumps_overlap_during_changeover COOLING_TOWER_CONFIG None 1000000
           healthy_pump_input no_ui overlap_storage (mkChangeover Two 998000)
           eq_refl overlap_not_critical auto_mode_no_ui eq_refl Hel).
Defined.

Lemma no_pump_only_when_changeover_begins_witness :
  let out := processCoolingTowerControl ALL_AVAILABLE_CONFIG None failover_T0
               failover_input no_ui failover_storage in
  (exists j, get3 j (pumpEnable (fst out)) = true) \/
  (exists co, changeoverState (pumps (snd out)) = Some co /\
              co_startTime co = failover_T0).
Proof.
  exact (@no_pump_only_when_changeover_begins ALL_AVAILABLE_CONFIG None
           failover_T0 failover_input no_ui failover_storage
           eq_refl failover_not_critical auto_mode_no_ui).
Defined.

Lemma fallback_speed_step_witness :
  let out := calculateFallbackSpeed 60 (mkPidState 0 0 3.0) in
  VFD_MIN_SPEED <= fst out /\ fst out <= VFD_MAX_SPEED /\
  Qabs (fst out - 3.0) <= 0.1 /\
  lastOutput (snd out) = fst out.
Proof.
  assert (H1 : VFD_MIN_SPEED <= lastOutput (mkPidState 0 0 3.0))
    by (vm_compute; discriminate).
  assert (H2 : lastOutput (mkPidState 0 0 3.0) <= VFD_MAX_SPEED)
    by (vm_compute; discriminate).
  pose proof (@fallback_speed_step 60 (mkPidState 0 0 3.0) H1 H2) as H.
  exact (conj (proj1 H)
           (conj (proj1 (proj2 H))
              (conj (proj1 (proj2 (proj2 H)))
                    (proj1 (proj2 (proj2 (proj2 H))))))).
Defined.

(** ** The legacy variant *)

Section LegacySafety.

Variable cfg : Config.

Lemma push_if_In (b : bool) (s m : string) :
  In m (push_if b s) <-> b = true /\ m = s.
Proof.
  destruct b; simpl; split.
  - intros [H | []]. split; [reflexivity | symmetry; exact H].
  - intros [_ H]. left. symmetry. exact H.
  - intros [].
  - intros [H _]. discriminate H.
Qed.

Lemma legacy_vfd_messages (sd : SensorData) (m : string) :
  In m (vfd_faults sd) <->
  In m (push_if (Qgtb (tower1A (vfdCurrents sd)) VFD_CURRENT_CRITICAL
                 || Qgtb (tower1B (vfdCurrents sd)) VFD_CURRENT_CRITICAL)
                (vfd_fault One) ++
        push_if (Qgtb (tower2A (vfdCurrents sd)) VFD_CURRENT_CRITICAL
                 || Qgtb (tower2B (vfdCurrents sd)) VFD_CURRENT_CRITICAL)
                (vfd_fault Two) ++
        push_if (Qgtb (tower3A (vfdCurrents sd)) VFD_CURRENT_CRITICAL
                 || Qgtb (tower3B (vfdCurrents sd)) VFD_CURRENT_CRITICAL)
                (vfd_fault Three)).
Proof.
  unfold vfd_faults, vfd_legs. cbn [flat_map fst snd].
  rewrite app_nil_r.
  repeat rewrite in_app_iff. repeat rewrite push_if_In.
  repeat rewrite orb_true_iff. tauto.
Qed.

(** X29.  The legacy safety checks and [performSafetyChecks] of the optimized
    variant report the same fault messages and the same bypass messages on
    every configuration and every reading, so both variants shut down on
    exactly the same readings.  The lists differ only in order and in that
    the optimized variant lists a tower's VFD fault once per leg. *)
Theorem legacy_safety_lists_agree (sd : SensorData) :
  (forall m, In m (Legacy.faultConditions cfg sd) <-> In m (critical_faults cfg sd)) /\
  (Legacy.faultConditions cfg sd = [] <-> critical_faults cfg sd = []) /\
  (length (Legacy.faultConditions cfg sd) <= length (critical_faults cfg sd))%nat /\
  (forall m, In m (Legacy.safetyBypasses cfg) <-> In m (bypass_list cfg)).
Proof.
  assert (Hin : forall m, In m (Legacy.faultConditions cfg sd)
                          <-> In m (critical_faults cfg sd)).
  { intro m. unfold Legacy.faultConditions, critical_faults.
    repeat rewrite in_app_iff.
    destruct (BYPASS_VIBRATION_LIMITS cfg), (BYPASS_CURRENT_LIMITS cfg);
      try tauto.
    - repeat rewrite in_app_iff. rewrite legacy_vfd_messages.
      unfold pump_faults, all_idx. cbn [flat_map get3].
      rewrite app_nil_r. repeat rewrite in_app_iff. tauto.
    - unfold vibration_faults, all_idx. cbn [flat_map get3].
      rewrite app_nil_r. repeat rewrite in_app_iff. tauto.
    - repeat rewrite in_app_iff. rewrite legacy_vfd_messages.
      unfold pump_faults, vibration_faults, all_idx. cbn [flat_map get3].
      repeat rewrite app_nil_r. repeat rewrite in_app_iff. tauto. }
  split; [exact Hin |]. split; [| split].
  - split; intro E.
    + destruct (critical_faults cfg sd) as [| m l] eqn:Ec; [reflexivity |].
      exfalso. assert (Hm : In m (Legacy.faultConditions cfg sd)).
      { apply Hin. left. reflexivity. }
      rewrite E in Hm. exact Hm.
    + destruct (Legacy.faultConditions cfg sd) as [| m l] eqn:Ec; [reflexivity |].
      exfalso. assert (Hm : In m (critical_faults cfg sd)).
      { apply Hin. left. reflexivity. }
      rewrite E in Hm. exact Hm.
  - unfold Legacy.faultConditions, critical_faults, vfd_faults, vfd_legs,
      pump_faults, vibration_faults, all_idx.
    cbn [flat_map get3 fst snd].
    destruct (BYPASS_VIBRATION_LIMITS cfg), (BYPASS_CURRENT_LIMITS cfg);
      repeat match goal with
             | |- context [Qgtb ?a ?b] => destruct (Qgtb a b)
             end; cbn; lia.
  - intro m. unfold Legacy.safetyBypasses, bypass_list.
    repeat rewrite in_app_iff. tauto.
Qed.

End LegacySafety.

Section LegacyPumps.

Variable cfg : Config.

(** The pump block with the failure test evaluated: the enables were reset
    just before, so the active pump never counts as running. *)
Lemma legacy_pump_control_eq (now : Z) (c : Per3 Q) (pr : Legacy.PumpRotation) :
  Legacy.pump_control cfg now c pr =
  if BYPASS_PUMP_STATUS cfg then (pr, all3 false)
  else if Legacy.changeoverInProgress pr then
    if (now - Legacy.changeoverStartTime pr <? 5000)%Z
    then (pr, set3 (Legacy.newPump pr) true
                   (set3 (Legacy.activePump pr) true (all3 false)))
    else (Legacy.complete_changeover pr, all3 false)
  else
    let nextPump := scan_next (fun i => get3 i (PUMP_AVAILABLE cfg)) 2
                              (Legacy.activePump pr) in
    let pr' :=
      if (now - Legacy.lastRotationTime pr >=? WEEK_IN_MS)%Z
         && (get3 nextPump (PUMP_AVAILABLE cfg)
             && negb (Idx_eqb nextPump (Legacy.activePump pr)))
      then Legacy.set_lastRotationTime now
             (Legacy.start_changeover nextPump now pr)
      else pr in
    (Legacy.add_runtime (Legacy.activePump pr) (7 / 3600000) pr',
     set3 (Legacy.activePump pr) true (all3 false)).
Proof.
  unfold Legacy.pump_control.
  destruct (BYPASS_PUMP_STATUS cfg); [reflexivity |].
  rewrite get3_all3. cbn [andb].
  destruct (Legacy.changeoverInProgress pr) eqn:Ec.
  - cbn [negb]. rewrite andb_false_r.
    destruct (now - Legacy.changeoverStartTime pr <? 5000)%Z; reflexivity.
  - cbn [negb]. rewrite andb_true_r. cbv zeta.
    destruct (now - Legacy.lastRotationTime pr >=? WEEK_IN_MS)%Z; cbn [andb];
      [| reflexivity].
    destruct (get3 _ (PUMP_AVAILABLE cfg) && negb (Idx_eqb _ _)); reflexivity.
Qed.

(** X24.  In the legacy pump block the failure test reads the pump enables
    right after they were reset, so it never fires: the pump currents have no
    influence on the block, and the failover counter and the failover time
    are never changed. *)
Theorem legacy_pump_failover_unreachable (now : Z) (c1 c2 : Per3 Q)
        (pr : Legacy.PumpRotation) :
  Legacy.pump_control cfg now c1 pr = Legacy.pump_control cfg now c2 pr /\
  Legacy.failoverCount (fst (Legacy.pump_control cfg now c1 pr))
  = Legacy.failoverCount pr /\
  Legacy.lastFailoverTime (fst (Legacy.pump_control cfg now c1 pr))
  = Legacy.lastFailoverTime pr.
Proof.
  split; [now rewrite !legacy_pump_control_eq |].
  rewrite legacy_pump_control_eq.
  destruct (BYPASS_PUMP_STATUS cfg); [split; reflexivity |].
  destruct (Legacy.changeoverInProgress pr).
  - destruct (now - Legacy.changeoverStartTime pr <? 5000)%Z; split; reflexivity.
  - cbv zeta.
    destruct ((now - Legacy.lastRotationTime pr >=? WEEK_IN_MS)%Z
              && (get3 _ (PUMP_AVAILABLE cfg) && negb (Idx_eqb _ _)));
      split; reflexivity.
Qed.


End LegacyPumps.

Section LegacyRamp.

Lemma lag_target_speed_range (d : Q) :
  VFD_MIN_SPEED <= Legacy.lag_target_speed d /\
  Legacy.lag_target_speed d <= Legacy.VFD_HIGH_SPEED.
Proof.
  unfold Legacy.lag_target_speed.
  destruct (Qleb d 28) eqn:E.
  - unfold VFD_MIN_SPEED, Legacy.VFD_HIGH_SPEED. split; lra.
  - qbool. cbv zeta.
    assert (Hx : 0 < (d - 28) / 72) by (apply Qlt_shift_div_l; lra).
    set (x := (d - 28) / 72) in *.
    destruct (Math_min_spec (2.8 + x * 2.15) Legacy.VFD_HIGH_SPEED)
      as [[H1 H2] | [H1 H2]]; rewrite H2;
      unfold VFD_MIN_SPEED, Legacy.VFD_HIGH_SPEED in *; split; lra.
Qed.

(** The ramp on an entry that needs no restart at minimum speed. *)
Lemma lag_tower_ramp_initialised (now : Z) (d fan : Q) (t : Legacy.RampTimer) :
  VFD_MIN_SPEED <= Legacy.currentSpeed t ->
  Legacy.lag_tower_ramp now d fan (Some t) =
  let target := Legacy.lag_target_speed d in
  let cur := Legacy.currentSpeed t in
  if (now - Legacy.lastChange t >=?
      (if Qgtb target cur then Legacy.VFD_RAMP_STEP_DELAY
       else Legacy.VFD_RAMP_DOWN_DELAY))%Z
  then
    if Qgtb (Math_abs (target - cur)) 0.1 then
      if (Qgtb (if Qgtb target cur then 0.3 else - (0.3)) 0
          && Qgtb (cur + (if Qgtb target cur then 0.3 else - (0.3))) target)
         || (Qltb (if Qgtb target cur then 0.3 else - (0.3)) 0
             && Qltb (cur + (if Qgtb target cur then 0.3 else - (0.3))) target)
      then (target, Legacy.mkRampTimer now target)
      else (cur + (if Qgtb target cur then 0.3 else - (0.3)),
            Legacy.mkRampTimer now
              (cur + (if Qgtb target cur then 0.3 else - (0.3))))
    else (target, Legacy.mkRampTimer (Legacy.lastChange t) target)
  else (cur, t).
Proof.
  intro Hinit.
  assert (Ei : Qeq_bool (Legacy.currentSpeed t) 0
               || Qltb (Legacy.currentSpeed t) VFD_MIN_SPEED = false).
  { apply orb_false_iff. split.
    - destruct (Qeq_bool (Legacy.currentSpeed t) 0) eqn:E; [| reflexivity].
      qbool. unfold VFD_MIN_SPEED in Hinit. lra.
    - apply Qltb_ge. exact Hinit. }
  unfold Legacy.lag_tower_ramp. cbv zeta. rewrite Ei. reflexivity.
Qed.

(** Every entry is brought to one that needs no restart before the ramp
    looks at it. *)
Lemma lag_tower_ramp_restart (now : Z) (d fan : Q)
      (timer : option Legacy.RampTimer) :
  exists t,
    VFD_MIN_SPEED <= Legacy.currentSpeed t /\
    Legacy.lag_tower_ramp now d fan timer
    = Legacy.lag_tower_ramp now d fan (Some t) /\
    (match timer with
     | Some t0 => Legacy.currentSpeed t0
     | None => fan
     end <= Legacy.VFD_HIGH_SPEED ->
     Legacy.currentSpeed t <= Legacy.VFD_HIGH_SPEED).
Proof.
  set (t0 := match timer with
             | Some t => t
             | None => Legacy.mkRampTimer 0 (num_or fan 0)
             end).
  assert (Hprior : match timer with
                   | Some t0 => Legacy.currentSpeed t0
                   | None => fan
                   end <= Legacy.VFD_HIGH_SPEED ->
                   Legacy.currentSpeed t0 <= Legacy.VFD_HIGH_SPEED).
  { subst t0. destruct timer as [t |]; [trivial |].
    cbn [Legacy.currentSpeed]. unfold num_or.
    destruct (Qeq_bool fan 0); [| trivial].
    intros _. unfold Legacy.VFD_HIGH_SPEED. lra. }
  destruct (Qeq_bool (Legacy.currentSpeed t0) 0
            || Qltb (Legacy.currentSpeed t0) VFD_MIN_SPEED) eqn:Ei.
  - exists (Legacy.mkRampTimer now VFD_MIN_SPEED).
    split; [cbn; lra |]. split.
    + unfold Legacy.lag_tower_ramp. cbv zeta. fold t0. rewrite Ei.
      cbn [Legacy.currentSpeed Legacy.lastChange].
      assert (E0 : Qeq_bool VFD_MIN_SPEED 0 || Qltb VFD_MIN_SPEED VFD_MIN_SPEED
                   = false) by reflexivity.
      rewrite E0. reflexivity.
    + intros _. cbn. unfold VFD_MIN_SPEED, Legacy.VFD_HIGH_SPEED. lra.
  - exists t0. apply orb_false_iff in Ei. destruct Ei as [_ Ei]. qbool.
    split; [exact Ei |]. split; [| exact Hprior].
    subst t0. destruct timer as [t |]; [reflexivity |].
    unfold Legacy.lag_tower_ramp. reflexivity.
Qed.

(** The four outcomes of the ramp on an entry that needs no restart. *)
Lemma lag_tower_ramp_outcomes (now : Z) (d fan : Q) (t : Legacy.RampTimer) :
  VFD_MIN_SPEED <= Legacy.currentSpeed t ->
  let target := Legacy.lag_target_speed d in
  let cur := Legacy.currentSpeed t in
  let out := Legacy.lag_tower_ramp now d fan (Some t) in
  Legacy.currentSpeed (snd out) = fst out /\
  (fst out = cur \/ fst out = target
   \/ (fst out = cur + 0.3 /\ cur + 0.3 <= target)
   \/ (fst out = cur + - (0.3) /\ target <= cur + - (0.3))).
Proof.
  intros Hinit target cur out. subst out.
  rewrite (lag_tower_ramp_initialised now d fan t Hinit). cbv zeta.
  fold target cur.
  destruct (_ >=? _)%Z; [| split; [reflexivity | left; reflexivity]].
  destruct (Qgtb (Math_abs (target - cur)) 0.1);
    [| split; [reflexivity | right; left; reflexivity]].
  destruct (Qgtb target cur) eqn:Eg.
  - assert (E2 : Qltb 0.3 0 = false) by reflexivity.
    assert (E3 : Qgtb 0.3 0 = true) by reflexivity.
    rewrite E2, E3. cbn [andb]. rewrite orb_false_r.
    destruct (Qgtb (cur + 0.3) target) eqn:En; qbool.
    + split; [reflexivity | right; left; reflexivity].
    + split; [reflexivity |]. right. right. left. split; [reflexivity | exact En].
  - assert (E2 : Qltb (- (0.3)) 0 = true) by reflexivity.
    assert (E3 : Qgtb (- (0.3)) 0 = false) by reflexivity.
    rewrite E2, E3. cbn [andb orb].
    destruct (Qltb (cur + - (0.3)) target) eqn:En; qbool.
    + split; [reflexivity | right; left; reflexivity].
    + split; [reflexivity |]. right. right. right. split; [reflexivity | exact En].
Qed.

(** X26.  The speed ramp of a legacy lag tower, on an entry at or above the
    minimum speed: nothing changes before the delay has passed since the
    last change, 15 s when the target is above the current speed and 20 s
    otherwise.  After the delay the speed moves towards the target by at
    most 0.3 V: onto the target when it is within 0.3 V, by exactly 0.3 V
    otherwise.  The time of the last change is renewed unless the speed was
    within 0.1 V of the target. *)
Theorem legacy_lag_ramp_step (now : Z) (d fan : Q) (t : Legacy.RampTimer) :
  VFD_MIN_SPEED <= Legacy.currentSpeed t ->
  let target := Legacy.lag_target_speed d in
  let cur := Legacy.currentSpeed t in
  let delay := if Qgtb target cur then 15000%Z else 20000%Z in
  let out := Legacy.lag_tower_ramp now d fan (Some t) in
  ((now - Legacy.lastChange t < delay)%Z -> out = (cur, t)) /\
  ((now - Legacy.lastChange t >= delay)%Z ->
     Legacy.currentSpeed (snd out) = fst out /\
     Qabs (fst out - cur) <= 0.3 /\
     Qabs (target - fst out) <= Qabs (target - cur) /\
     (Qabs (target - cur) <= 0.3 -> fst out == target) /\
     (0.3 < Qabs (target - cur) ->
        Qabs (fst out - cur) == 0.3 /\
        Qabs (target - fst out) == Qabs (target - cur) - 0.3) /\
     (0.1 < Qabs (target - cur) -> Legacy.lastChange (snd out) = now) /\
     (Qabs (target - cur) <= 0.1 ->
        Legacy.lastChange (snd out) = Legacy.lastChange t)).
Proof.
  intros Hinit target cur delay out. subst out delay.
  rewrite (lag_tower_ramp_initialised now d fan t Hinit). cbv zeta.
  fold target cur. unfold Legacy.VFD_RAMP_STEP_DELAY, Legacy.VFD_RAMP_DOWN_DELAY.
  set (delay := if Qgtb target cur then 15000%Z else 20000%Z).
  split.
  - intro Hlt.
    assert (E : (now - Legacy.lastChange t >=? delay)%Z = false)
      by (rewrite Z.geb_leb; apply Z.leb_gt; lia).
    rewrite E. reflexivity.
  - intro Hge.
    assert (E : (now - Legacy.lastChange t >=? delay)%Z = true)
      by (rewrite Z.geb_leb; apply Z.leb_le; lia).
    rewrite E. clear E Hge delay. unfold Math_abs.
    pose proof (Math_abs_spec (target - cur)) as Ha. unfold Math_abs in Ha.
    destruct (Qgtb (Qabs (target - cur)) 0.1) eqn:Ed.
    + destruct (Qgtb target cur) eqn:Eg.
      * assert (E2 : Qltb 0.3 0 = false) by reflexivity.
        assert (E3 : Qgtb 0.3 0 = true) by reflexivity.
        rewrite E2, E3. cbn [andb]. rewrite orb_false_r.
        destruct (Qgtb (cur + 0.3) target) eqn:En; qbool;
          cbn [fst snd Legacy.currentSpeed Legacy.lastChange].
        -- pose proof (Math_abs_spec (target - target)) as Hb.
           unfold Math_abs in Hb.
           set (a := Qabs (target - cur)) in *.
           set (b := Qabs (target - target)) in *.
           repeat split; try reflexivity; try lra.
        -- pose proof (Math_abs_spec (cur + 0.3 - cur)) as Hb.
           pose proof (Math_abs_spec (target - (cur + 0.3))) as Hc.
           unfold Math_abs in Hb, Hc.
           set (a := Qabs (target - cur)) in *.
           set (b := Qabs (cur + 0.3 - cur)) in *.
           set (c := Qabs (target - (cur + 0.3))) in *.
           repeat split; try reflexivity; try lra.
      * assert (E2 : Qltb (- (0.3)) 0 = true) by reflexivity.
        assert (E3 : Qgtb (- (0.3)) 0 = false) by reflexivity.
        rewrite E2, E3. cbn [andb orb].
        destruct (Qltb (cur + - (0.3)) target) eqn:En; qbool;
          cbn [fst snd Legacy.currentSpeed Legacy.lastChange].
        -- pose proof (Math_abs_spec (target - target)) as Hb.
           unfold Math_abs in Hb.
           set (a := Qabs (target - cur)) in *.
           set (b := Qabs (target - target)) in *.
           repeat split; try reflexivity; try lra.
        -- pose proof (Math_abs_spec (cur + - (0.3) - cur)) as Hb.
           pose proof (Math_abs_spec (target - (cur + - (0.3)))) as Hc.
           unfold Math_abs in Hb, Hc.
           set (a := Qabs (target - cur)) in *.
           set (b := Qabs (cur + - (0.3) - cur)) in *.
           set (c := Qabs (target - (cur + - (0.3)))) in *.
           repeat split; try reflexivity; try lra.
    + qbool. cbn [fst snd Legacy.currentSpeed Legacy.lastChange].
      pose proof (Math_abs_spec (target - target)) as Hb.
      pose proof (Math_abs_spec (target - cur)) as Hc.
      unfold Math_abs in Hb, Hc.
      set (a := Qabs (target - cur)) in *.
      set (b := Qabs (target - target)) in *.
      set (c := Qabs (target - cur)) in *.
      repeat split; try reflexivity; try lra.
Qed.

(** X27.  Whatever the entry of the ramp timers holds, also none or a speed
    of 0, a legacy lag tower that is enabled gets a speed of at least the
    minimum speed, and the entry records that speed.  The speed is at most
    the high speed when the speed before was. *)
Theorem legacy_lag_speed_range (now : Z) (d fan : Q)
        (timer : option Legacy.RampTimer) :
  let out := Legacy.lag_tower_ramp now d fan timer in
  VFD_MIN_SPEED <= fst out /\
  Legacy.currentSpeed (snd out) = fst out /\
  (match timer with
   | Some t0 => Legacy.currentSpeed t0
   | None => fan
   end <= Legacy.VFD_HIGH_SPEED ->
   fst out <= Legacy.VFD_HIGH_SPEED).
Proof.
  intro out. subst out.
  destruct (lag_tower_ramp_restart now d fan timer) as (t & Ht & Eq & Hhigh).
  rewrite Eq.
  destruct (lag_tower_ramp_outcomes now d fan t Ht) as (Hc & Ho).
  destruct (lag_target_speed_range d) as [Hlo Hhi].
  split; [| split; [exact Hc |]].
  - destruct Ho as [E | [E | [[E H] | [E H]]]]; rewrite E; lra.
  - intro Hp. specialize (Hhigh Hp).
    destruct Ho as [E | [E | [[E H] | [E H]]]]; rewrite E; lra.
Qed.

End LegacyRamp.

Section LegacyValves.

Lemma clamp_valve_bounds (v : Q) : 2 <= clamp_valve v /\ clamp_valve v <= 10.
Proof.
  unfold clamp_valve.
  destruct (Math_min_spec 10.0 v) as [[H1 E1] | [H1 E1]]; rewrite E1;
    destruct (Math_max_spec 2.0 10.0) as [[H2 E2] | [H2 E2]];
    destruct (Math_max_spec 2.0 v) as [[H3 E3] | [H3 E3]];
    try rewrite E2; try rewrite E3; split; lra.
Qed.

Lemma clamp_valve_closed : clamp_valve 2.0 == 2.
Proof. reflexivity. Qed.

(** X28.  The valve commands of the legacy variant, whenever the valve block
    returns: the block itself leaves the bypass valve closed (2 V) and the
    tempering command within 2 to 10 V in every regime; after the manual
    valve overrides a commanded position from the UI always wins, clamped to
    2 to 10 V, for the bypass valve as for the tempering valve, and a valve
    without a UI command keeps what the block gave it. *)
Theorem legacy_valve_commands (pid : option Legacy.PidFn) (ui : UiCommands)
        (outdoorTemp heatPumpSupplyTemp heatPumpReturnTemp : Q)
        (systemEnabled : bool) (tempering0 : Q) (st st' : PidState) (b t : Q) :
  Legacy.valve_control pid ui outdoorTemp heatPumpSupplyTemp heatPumpReturnTemp
                       systemEnabled tempering0 st = Some (b, t, st') ->
  b == 2 /\ 2 <= t /\ t <= 10 /\
  fst (Legacy.valve_overrides ui (b, t))
  == match ui_bypassValvePosition ui with
     | Some v => clamp_valve v
     | None => 2
     end /\
  snd (Legacy.valve_overrides ui (b, t))
  = match ui_temperingValvePosition ui with
    | Some v => clamp_valve v
    | None => t
    end /\
  2 <= snd (Legacy.valve_overrides ui (b, t)) /\
  snd (Legacy.valve_overrides ui (b, t)) <= 10.
Proof.
  intro H.
  assert (Hb : b == 2 /\ 2 <= t /\ t <= 10).
  { unfold Legacy.valve_control in H. cbv zeta in H.
    match type of H with
    | match ?blk with _ => _ end = _ => destruct blk as [[[b0 t0] s0] |] eqn:Eb
    end; [| discriminate H].
    injection H as Hb1 Ht1 Hs1. subst b t.
    split; [| apply clamp_valve_bounds].
    assert (E : b0 = 2.0); [| rewrite E; reflexivity].
    destruct (Qltb outdoorTemp 42); [| congruence].
    destruct pid as [f |]; [| congruence].
    destruct (negb _ && systemEnabled).
    - destruct (f _ st) as [[[o rs] |] h]; [congruence | discriminate Eb].
    - destruct (negb systemEnabled); congruence. }
  destruct Hb as (Hb & Ht1 & Ht2).
  unfold Legacy.valve_overrides. cbn [fst snd].
  split; [exact Hb |]. split; [exact Ht1 |]. split; [exact Ht2 |].
  split; [destruct (ui_bypassValvePosition ui); [reflexivity | exact Hb] |].
  split; [reflexivity |].
  destruct (ui_temperingValvePosition ui) as [v |];
    [apply clamp_valve_bounds | split; assumption].
Qed.

(** While a valve position is commanded from the UI, or the system is
    disabled, or it is 42 degrees or warmer outside, the legacy valve block
    does not consult the PID controller and always returns. *)
Lemma legacy_valve_block_without_pid (f g : Legacy.PidFn) (ui : UiCommands)
      (outdoorTemp heatPumpSupplyTemp heatPumpReturnTemp : Q)
      (systemEnabled : bool) (tempering0 : Q) (st : PidState) :
  is_some (ui_bypassValvePosition ui) || is_some (ui_temperingValvePosition ui)
  = true \/ systemEnabled = false \/ 42 <= outdoorTemp ->
  Legacy.valve_control (Some f) ui outdoorTemp heatPumpSupplyTemp
                       heatPumpReturnTemp systemEnabled tempering0 st
  = Legacy.valve_control (Some g) ui outdoorTemp heatPumpSupplyTemp
                         heatPumpReturnTemp systemEnabled tempering0 st /\
  Legacy.valve_control (Some f) ui outdoorTemp heatPumpSupplyTemp
                       heatPumpReturnTemp systemEnabled tempering0 st <> None.
Proof.
  intro H. unfold Legacy.valve_control. cbv zeta.
  destruct (Qltb outdoorTemp 42) eqn:Eo; [| split; [reflexivity | discriminate]].
  assert (E : negb (is_some (ui_bypassValvePosition ui)
                    || is_some (ui_temperingValvePosition ui))
              && systemEnabled = false).
  { destruct H as [H | [H | H]].
    - rewrite H. reflexivity.
    - rewrite H. apply andb_false_r.
    - qbool. lra. }
  rewrite E. destruct (negb systemEnabled); split; (reflexivity || discriminate).
Qed.

End LegacyValves.

(** ** The trend graph *)

Section TrendGraphWindow.

Variable A : Type.

(** X30.  The window of vibration points: the new point is always the last
    one, the points kept are the most recent ones in their order, a window
    shorter than 50 points only grows by the new point, and the window never
    holds more than 50 points. *)
Theorem vibration_window_keeps_latest (prevData : list A) (newPoint : A) :
  let w := TrendGraph.append_vibration_point prevData newPoint in
  length w = Nat.min 50 (length prevData + 1) /\
  (exists older, w = older ++ [newPoint]) /\
  (exists dropped, prevData ++ [newPoint] = dropped ++ w) /\
  ((length prevData < 50)%nat -> w = prevData ++ [newPoint]).
Proof.
  intro w. subst w. unfold TrendGraph.append_vibration_point. cbv zeta.
  rewrite length_app. cbn [length].
  destruct (50 <? length prevData + 1)%nat eqn:E.
  - apply Nat.ltb_lt in E. unfold TrendGraph.slice_last.
    rewrite length_app. cbn [length].
    split; [rewrite length_skipn, length_app; cbn [length]; lia |].
    split; [| split].
    + exists (skipn (length prevData + 1 - 50) prevData).
      rewrite skipn_app.
      replace (length prevData + 1 - 50 - length prevData)%nat with 0%nat by lia.
      reflexivity.
    + exists (firstn (length prevData + 1 - 50) (prevData ++ [newPoint])).
      symmetry. apply firstn_skipn.
    + intro H. lia.
  - apply Nat.ltb_ge in E.
    split; [rewrite length_app; cbn [length]; lia |].
    split; [exists prevData; reflexivity |].
    split; [exists []; reflexivity |]. intros _. reflexivity.
Qed.

End TrendGraphWindow.

Section TrendGraphNavigation.

(** Stepping through the vibration sensors: from an index of the list, next
    and previous undo each other and stay within the list, wrapping round at
    both ends. *)
Lemma sensor_navigation_round_trip (sensors i : Z) :
  (0 <= i < sensors)%Z ->
  TrendGraph.handlePrevSensor sensors (TrendGraph.handleNextSensor sensors i) = i /\
  TrendGraph.handleNextSensor sensors (TrendGraph.handlePrevSensor sensors i) = i /\
  (0 <= TrendGraph.handleNextSensor sensors i < sensors)%Z /\
  (0 <= TrendGraph.handlePrevSensor sensors i < sensors)%Z /\
  TrendGraph.handleNextSensor sensors (sensors - 1) = 0%Z /\
  TrendGraph.handlePrevSensor sensors 0 = (sensors - 1)%Z.
Proof.
  intro H.
  assert (Hn : (sensors >? 0)%Z = true) by (apply Z.gtb_lt; lia).
  assert (Enext : forall j, (0 <= j < sensors)%Z ->
            TrendGraph.handleNextSensor sensors j
            = if (j + 1 =? sensors)%Z then 0%Z else (j + 1)%Z).
  { intros j Hj. unfold TrendGraph.handleNextSensor. rewrite Hn.
    rewrite Z.rem_mod_nonneg by lia.
    destruct (j + 1 =? sensors)%Z eqn:E.
    - apply Z.eqb_eq in E. rewrite E. apply Z_mod_same_full.
    - apply Z.eqb_neq in E. apply Z.mod_small. lia. }
  assert (Eprev : forall j, (0 <= j < sensors)%Z ->
            TrendGraph.handlePrevSensor sensors j
            = if (j =? 0)%Z then (sensors - 1)%Z else (j - 1)%Z).
  { intros j Hj. unfold TrendGraph.handlePrevSensor. rewrite Hn.
    rewrite Z.rem_mod_nonneg by lia.
    destruct (j =? 0)%Z eqn:E.
    - apply Z.eqb_eq in E. subst j.
      replace (0 - 1 + sensors)%Z with (sensors - 1)%Z by lia.
      apply Z.mod_small. lia.
    - apply Z.eqb_neq in E.
      replace (j - 1 + sensors)%Z with (j - 1 + 1 * sensors)%Z by lia.
      rewrite Z_mod_plus_full. apply Z.mod_small. lia. }
  assert (Rn : (0 <= TrendGraph.handleNextSensor sensors i < sensors)%Z).
  { rewrite (Enext i H). destruct (i + 1 =? sensors)%Z eqn:E; [lia |].
    apply Z.eqb_neq in E. lia. }
  assert (Rp : (0 <= TrendGraph.handlePrevSensor sensors i < sensors)%Z).
  { rewrite (Eprev i H). destruct (i =? 0)%Z eqn:E; [lia |].
    apply Z.eqb_neq in E. lia. }
  split; [| split; [| split; [exact Rn | split; [exact Rp | split]]]].
  - rewrite (Eprev _ Rn), (Enext i H).
    destruct (i + 1 =? sensors)%Z eqn:E.
    + apply Z.eqb_eq in E. cbn. lia.
    + apply Z.eqb_neq in E.
      destruct (i + 1 =? 0)%Z eqn:E0; [apply Z.eqb_eq in E0; lia | lia].
  - rewrite (Enext _ Rp), (Eprev i H).
    destruct (i =? 0)%Z eqn:E.
    + apply Z.eqb_eq in E.
      replace (sensors - 1 + 1 =? sensors)%Z with true
        by (symmetry; apply Z.eqb_eq; lia). lia.
    + apply Z.eqb_neq in E.
      destruct (i - 1 + 1 =? sensors)%Z eqn:E0; [apply Z.eqb_eq in E0; lia | lia].
  - rewrite (Enext (sensors - 1)%Z) by lia.
    replace (sensors - 1 + 1 =? sensors)%Z with true
      by (symmetry; apply Z.eqb_eq; lia). reflexivity.
  - rewrite (Eprev 0%Z) by lia. reflexivity.
Qed.

(** Stepping through the four graph types always lands on a graph type, and
    next and previous undo each other. *)
Lemma graph_navigation_round_trip (g : TrendGraph.GraphType) :
  exists n p,
    TrendGraph.handleNextGraph g = Some n /\
    TrendGraph.handlePrevGraph g = Some p /\
    TrendGraph.handlePrevGraph n = Some g /\
    TrendGraph.handleNextGraph p = Some g.
Proof.
  destruct g;
    [exists TrendGraph.amps, TrendGraph.vibration
    | exists TrendGraph.triacs, TrendGraph.temperature
    | exists TrendGraph.vibration, TrendGraph.amps
    | exists TrendGraph.temperature, TrendGraph.triacs];
    repeat split; reflexivity.
Qed.

End TrendGraphNavigation.

(** ** Instances of the statements on the legacy variant *)


Lemma legacy_lag_ramp_step_witness :
  let t := Legacy.mkRampTimer 80000 3.0 in
  let out := Legacy.lag_tower_ramp 100000 100 0 (Some t) in
  Legacy.currentSpeed (snd out) = fst out /\
  Qabs (fst out - 3.0) <= 0.3 /\
  Legacy.lastChange (snd out) = 100000%Z.
Proof.
  assert (H0 : VFD_MIN_SPEED <= Legacy.currentSpeed (Legacy.mkRampTimer 80000 3.0))
    by (vm_compute; discriminate).
  pose proof (@legacy_lag_ramp_step 100000 100 0 (Legacy.mkRampTimer 80000 3.0) H0)
    as H.
  destruct H as (_ & H).
  assert (Hge : (100000 - Legacy.lastChange (Legacy.mkRampTimer 80000 3.0)
                 >= (if Qgtb (Legacy.lag_target_speed 100)
                               (Legacy.currentSpeed (Legacy.mkRampTimer 80000 3.0))
                     then 15000 else 20000))%Z)
    by (vm_compute; discriminate).
  destruct (H Hge) as (H1 & H2 & _ & _ & _ & H3 & _).
  split; [exact H1 |]. split; [exact H2 |].
  apply H3. vm_compute. reflexivity.
Defined.

Lemma legacy_valve_commands_witness :
  let b := clamp_valve 2.0 in
  let t := clamp_valve 7.6 in
  Legacy.valve_control None no_ui 30 75 85 true 0 (mkPidState 0 0 6.0)
  = Some (b, t, mkPidState 0 0 6.0) /\
  b == 2 /\ 2 <= t /\ t <= 10 /\
  fst (Legacy.valve_overrides no_ui (b, t)) == 2.
Proof.
  assert (E : Legacy.valve_control None no_ui 30 75 85 true 0 (mkPidState 0 0 6.0)
              = Some (clamp_valve 2.0, clamp_valve 7.6, mkPidState 0 0 6.0))
    by reflexivity.
  pose proof (@legacy_valve_commands None no_ui 30 75 85 true 0
                (mkPidState 0 0 6.0) (mkPidState 0 0 6.0)
                (clamp_valve 2.0) (clamp_valve 7.6) E) as H.
  destruct H as (H1 & H2 & H3 & H4 & _).
  split; [exact E |]. split; [exact H1 |]. split; [exact H2 |].
  split; [exact H3 | exact H4].
Defined.
